(** * service-f: OTLP exporters and the completion-queue server

    A shallow embedding of the pure C implementation of service F
    ([src/services/service-f/src]): the three OTLP exporters
    ([otlp_exporter.c], [otlp_log_exporter.c], [otlp_metrics_exporter.c])
    and the gRPC server loop of [main.c].

    Conventions of the embedding:
    - a C string is the list of its characters up to (excluding) the
      terminating NUL; a nullable [char *] is an [option];
    - a fixed-size C array is a list that is read with [!!] and written
      with [<[i:=x]>];
    - [double] is the binary64 type [PrimFloat.float]; [uint64_t],
      [int64_t] and [int] are [Z] with the wrap-around written out;
    - a result [None] stands for a run whose behaviour the C standard
      leaves undefined (a NULL pointer dereferenced, an array accessed
      out of bounds, a pointer freed twice);
    - what a function hands to the network (the request it has built) is
      part of its result. *)

From Stdlib Require Import PrimFloat.
From Stdlib Require FloatOps SpecFloat.
From Stdlib Require Import ZArith Ascii String Lia.
From stdpp Require Import list.

Local Open Scope Z_scope.
Local Open Scope list_scope.

(** ** The C library functions the sources call *)

Module libc.

Abbreviation cstring := (list ascii) (only parsing).

(** A string literal of the C source. *)
Definition lit (s : string) : cstring := list_ascii_of_string s.

Definition NUL : ascii := Ascii.zero.

Definition strlen (s : cstring) : nat := length s.

(** [strcmp(a, b) == 0] *)
Fixpoint strcmp_eq (a b : cstring) : bool :=
  match a, b with
  | [], [] => true
  | x :: a', y :: b' => if Ascii.eqb x y then strcmp_eq a' b' else false
  | _, _ => false
  end.

(** [strncmp(a, b, n) == 0]: the first [n] characters agree, or both
    strings end (together) before that. *)
Fixpoint strncmp_eq (a b : cstring) (n : nat) : bool :=
  match n with
  | O => true
  | S n' =>
      match a, b with
      | [], [] => true
      | x :: a', y :: b' => if Ascii.eqb x y then strncmp_eq a' b' n' else false
      | _, _ => false
      end
  end.

(** [strchr(s, c)] for a character [c] other than NUL: the offset of the
    first occurrence, [None] for the NULL result. *)
Fixpoint strchr (s : cstring) (c : ascii) : option nat :=
  match s with
  | [] => None
  | x :: s' => if Ascii.eqb x c then Some O else S <$> strchr s' c
  end.

(** [needle] is found at the very start of [hay]. *)
Fixpoint starts_with (needle hay : cstring) : bool :=
  match needle, hay with
  | [], _ => true
  | _ :: _, [] => false
  | x :: n', y :: h' => if Ascii.eqb x y then starts_with n' h' else false
  end.

(** [strstr(hay, needle)]: the offset of the first occurrence, [None]
    for the NULL result. *)
Fixpoint strstr (hay needle : cstring) : option nat :=
  if starts_with needle hay then Some O
  else match hay with
       | [] => None
       | _ :: h' => S <$> strstr h' needle
       end.

(** [strdup(s)] *)
Definition strdup (s : cstring) : cstring := s.

(** A character buffer ([char buf[N]]) and the string it holds. *)
Abbreviation buffer := (list ascii) (only parsing).

Definition nonzero (c : ascii) : bool := negb (Ascii.eqb c NUL).

Fixpoint c_str (buf : buffer) : cstring :=
  match buf with
  | [] => []
  | c :: buf' => if nonzero c then c :: c_str buf' else []
  end.

(** [strncpy(dst, src, n)] into a buffer of at least [n] characters:
    exactly [n] characters are written, the tail of a shorter [src]
    being padded with NUL. *)
Definition strncpy (dst : buffer) (src : cstring) (n : nat) : buffer :=
  take n (src ++ replicate n NUL) ++ drop n dst.

(** [isspace] in the C locale. *)
Definition isspace (c : ascii) : bool :=
  let n := nat_of_ascii c in
  (Nat.eqb n 32 || (Nat.leb 9 n && Nat.leb n 13))%bool.

Definition hex_digit_value (c : ascii) : option Z :=
  let n := Z.of_nat (nat_of_ascii c) in
  if (48 <=? n) && (n <=? 57) then Some (n - 48)
  else if (97 <=? n) && (n <=? 102) then Some (n - 87)
  else if (65 <=? n) && (n <=? 70) then Some (n - 55)
  else None.

Fixpoint skip_space (s : cstring) : cstring :=
  match s with
  | c :: s' => if isspace c then skip_space s' else s
  | [] => []
  end.

(** [sscanf(s, "%2x", &val)]: [Some val] when the call returns 1.
    White space is skipped first; then at most two characters are
    taken: a sign and a digit, or one or two digits (a [0x] prefix
    leaves no room for digits and reads as 0, as glibc does). The
    value is stored in an [unsigned int]. *)
Definition sscanf_2x (s : cstring) : option Z :=
  match skip_space s with
  | [] => None
  | c :: r =>
      if Ascii.eqb c "-" then
        match r with
        | d :: _ => (fun v => (- v) mod 2 ^ 32) <$> hex_digit_value d
        | [] => None
        end
      else if Ascii.eqb c "+" then
        match r with
        | d :: _ => hex_digit_value d
        | [] => None
        end
      else
        match hex_digit_value c with
        | None => None
        | Some hi =>
            match r with
            | d :: _ =>
                match hex_digit_value d with
                | Some lo => Some (16 * hi + lo)
                | None => Some hi
                end
            | [] => Some hi
            end
        end
  end.

(** [rand()]: the library's generator is an unknown stream of
    non-negative integers; the state is the number of calls made. *)
Definition rand_stream := nat -> nat.

End libc.
Import libc.

(** ** IEEE binary64 conversions of the C casts *)

Module c_double.

Abbreviation double := PrimFloat.float (only parsing).

(** [(double)n] for an unsigned integer: round to nearest, ties to even. *)
Definition of_uint64 (n : Z) : double :=
  FloatOps.SF2Prim (SpecFloat.binary_normalize FloatOps.prec FloatOps.emax n 0 false).

(** [(uint64_t)d]: truncation toward zero; [None] where the C standard
    leaves the conversion undefined (NaN, infinities, values whose
    integer part does not fit). *)
Definition to_uint64 (d : double) : option Z :=
  match FloatOps.Prim2SF d with
  | SpecFloat.S754_zero _ => Some 0
  | SpecFloat.S754_infinity _ => None
  | SpecFloat.S754_nan => None
  | SpecFloat.S754_finite neg m e =>
      let v := if 0 <=? e then Z.pos m * 2 ^ e else Z.pos m / 2 ^ (- e) in
      if neg then (if v =? 0 then Some 0 else None)
      else if v <? 2 ^ 64 then Some v else None
  end.

End c_double.

(** ** protobuf-c values shared by the three exporters *)

Module protobuf_c.

(** [ProtobufCBinaryData]: a length and a (nullable) data pointer. *)
Record ProtobufCBinaryData := {
  len : nat;
  data : option (list Z)
}.

(** A [KeyValue] whose [AnyValue] is in the string case. *)
Record KeyValue := {
  kv_key : cstring;
  kv_string_value : cstring
}.

(** [malloc(n)]: [n] bytes of indeterminate content, given by [fill]. *)
Definition malloc (fill : nat -> Z) (n : nat) : list Z := fill <$> seq 0 n.

(** [memset(p, 0, n)] on a fresh block. *)
Definition zeroed (n : nat) : list Z := replicate n 0.

End protobuf_c.
Import protobuf_c.

(** ** The block [attr_values] of the two [do_export] functions

    Both [do_export] functions keep the [AnyValue] of every attribute in
    one block [attr_values] of [count * 16] pointers: the one of
    attribute [j] of item [i] is stored in, and later freed from, the
    slot [i * 16 + j], for every [j] below the attribute count of the
    item and without a test against 16. *)

Module attr_values.

(** The [AnyValue] allocated for attribute [j] of item [i]. *)
Abbreviation any_value := (nat * nat)%type (only parsing).

(** The writes [attr_values[i * 16 + j] = malloc(...)] of one item, for
    [n] values of [j] from [j] on; [None] when a write falls outside the
    block. *)
Fixpoint store (block : list (option any_value)) (i j n : nat)
  : option (list (option any_value)) :=
  match n with
  | O => Some block
  | S n' =>
      if Nat.ltb (i * 16 + j) (length block)
      then store (<[(i * 16 + j)%nat := Some (i, j)]> block) i (S j) n'
      else None
  end.

(** The conversion loop over the items, given by their attribute
    counts, from the item [i] on. *)
Fixpoint store_all (block : list (option any_value)) (i : nat)
    (counts : list nat) : option (list (option any_value)) :=
  match counts with
  | [] => Some block
  | n :: rest => block' ← store block i 0 n; store_all block' (S i) rest
  end.

(** The calls [free(attr_values[i * 16 + j])] of one item; [freed] holds
    what has been freed so far, and the result is [None] when a pointer
    is freed a second time. *)
Fixpoint release (block : list (option any_value)) (freed : list any_value)
    (i j n : nat) : option (list any_value) :=
  match n with
  | O => Some freed
  | S n' =>
      match block !! (i * 16 + j)%nat with
      | Some (Some p) =>
          if bool_decide (p ∈ freed) then None
          else release block (p :: freed) i (S j) n'
      | _ => None
      end
  end.

(** The cleanup loop over the items. *)
Fixpoint release_all (block : list (option any_value)) (freed : list any_value)
    (i : nat) (counts : list nat) : option (list any_value) :=
  match counts with
  | [] => Some freed
  | n :: rest => freed' ← release block freed i 0 n; release_all block freed' (S i) rest
  end.

(** The block from [malloc(count * 16 * sizeof(...))] to its [free]:
    [None] where the behaviour of the C code is undefined (a write
    behind the block, a pointer freed twice). *)
Definition lifetime (count : nat) (counts : list nat) : option unit :=
  block ← store_all (replicate (count * 16) None) 0 counts;
  _ ← release_all block [] 0 counts;
  Some tt.

End attr_values.

(** ** otlp_exporter.c: the span exporter *)

Module otlp_exporter.

Definition MAX_BATCH_SIZE : nat := 64.

Inductive span_kind_t :=
| SPAN_KIND_UNSPECIFIED | SPAN_KIND_INTERNAL | SPAN_KIND_SERVER
| SPAN_KIND_CLIENT | SPAN_KIND_PRODUCER | SPAN_KIND_CONSUMER.

Inductive span_status_code_t :=
| SPAN_STATUS_UNSET | SPAN_STATUS_OK | SPAN_STATUS_ERROR.

Record span_attribute_t := {
  key : cstring;
  string_value : cstring
}.

Record otlp_span_t := {
  trace_id : option cstring;
  span_id : option cstring;
  parent_span_id : option cstring;
  name : option cstring;
  kind : span_kind_t;
  start_time_nanos : Z;
  end_time_nanos : Z;
  status_code : span_status_code_t;
  status_message : option cstring;
  attributes : option (list span_attribute_t);
  attribute_count : nat
}.

(** [struct otlp_exporter]; the channel, the completion queue, the
    mutex and the thread handle carry no data of the model. *)
Record otlp_exporter_t := {
  endpoint : cstring;
  host : cstring;
  port : cstring;
  service_name : cstring;
  pending_spans : list (option otlp_span_t);
  pending_count : nat;
  running : bool
}.

(** [parse_endpoint]: the return code, [*host] and [*port]. *)
Definition parse_endpoint (endpoint : cstring) : Z * cstring * cstring :=
  let ptr :=
    if strncmp_eq endpoint (lit "http://") 7 then drop 7 endpoint
    else if strncmp_eq endpoint (lit "https://") 8 then drop 8 endpoint
    else endpoint in
  match strchr ptr ":" with
  | Some host_len => (0, take host_len ptr, strdup (drop (S host_len) ptr))
  | None => (0, strdup ptr, strdup (lit "4317"))
  end.

(** [hex_to_bytes]: the return code and the buffer [bytes] as the
    function leaves it. *)
Fixpoint hex_to_bytes_from (hex : cstring) (bytes : list Z) (i n : nat)
  : Z * list Z :=
  match n with
  | O => (0, bytes)
  | S n' =>
      match sscanf_2x (drop (i * 2) hex) with
      | None => (-1, bytes)
      | Some val => hex_to_bytes_from hex (<[i := val mod 256]> bytes) (S i) n'
      end
  end.

Definition hex_to_bytes (hex : cstring) (bytes : list Z) (len : nat)
  : Z * list Z :=
  hex_to_bytes_from hex bytes 0 len.

(** The wire messages [do_export] assembles. *)
Record Status := {
  code : span_status_code_t;
  message : cstring
}.

Record Span := {
  Span_trace_id : ProtobufCBinaryData;
  Span_span_id : ProtobufCBinaryData;
  Span_parent_span_id : ProtobufCBinaryData;
  Span_name : option cstring;
  Span_kind : span_kind_t;
  start_time_unix_nano : Z;
  end_time_unix_nano : Z;
  Span_attributes : list KeyValue;
  status : Status
}.

Record ExportTraceServiceRequest := {
  resource_attributes : list KeyValue;
  scope_name : cstring;
  scope_version : cstring;
  spans : list Span
}.

(** [strlen(id) >= n] behind the NULL test of [do_export]. *)
Definition long_enough (id : option cstring) (n : nat) : bool :=
  match id with
  | Some s => Nat.leb n (strlen s)
  | None => false
  end.

(** The body of the conversion loop of [do_export] for one span. *)
Definition convert_span (fill : nat -> Z) (span : otlp_span_t) : Span :=
  let trace_ids_i :=
    if long_enough (trace_id span) 32
    then (hex_to_bytes (default [] (trace_id span)) (malloc fill 16) 16).2
    else zeroed 16 in
  let span_ids_i :=
    if long_enough (span_id span) 16
    then (hex_to_bytes (default [] (span_id span)) (malloc fill 8) 8).2
    else zeroed 8 in
  let parent :=
    if long_enough (parent_span_id span) 16
    then {| data := Some (hex_to_bytes (default [] (parent_span_id span))
                                       (malloc fill 8) 8).2;
            len := 8 |}
    else {| data := None; len := 0 |} in
  let attrs :=
    match attributes span with
    | Some a =>
        if Nat.ltb 0 (attribute_count span)
        then (fun x => {| kv_key := key x; kv_string_value := string_value x |})
               <$> take (attribute_count span) a
        else []
    | None => []
    end in
  {| Span_trace_id := {| data := Some trace_ids_i; len := 16 |};
     Span_span_id := {| data := Some span_ids_i; len := 8 |};
     Span_parent_span_id := parent;
     Span_name := name span;
     Span_kind := kind span;
     start_time_unix_nano := start_time_nanos span;
     end_time_unix_nano := end_time_nanos span;
     Span_attributes := attrs;
     status := {| code := status_code span;
                  message := default [] (status_message span) |} |}.

(** [n_attributes] of the wire span: the attribute count of the span
    when it is positive and the attribute array is not NULL. *)
Definition n_attributes (span : otlp_span_t) : nat :=
  if Nat.ltb 0 (attribute_count span)
  then match attributes span with
       | Some _ => attribute_count span
       | None => 0%nat
       end
  else 0%nat.

(** [do_export]: [None] where the behaviour of the C code is undefined
    (a NULL span pointer is dereferenced, a write behind the block
    [attr_values], a pointer of that block freed twice); otherwise the
    return code and the request that was assembled (none for an empty
    batch). The outcome of the call to the collector changes neither. *)
Definition do_export (fill : nat -> Z) (exporter : otlp_exporter_t)
    (spans : list (option otlp_span_t)) (count : nat)
  : option (Z * option ExportTraceServiceRequest) :=
  if Nat.eqb count 0 then Some (0, None)
  else
    batch ← mapM id (take count spans);
    _ ← attr_values.lifetime count (n_attributes <$> batch);
    Some (0, Some {| resource_attributes :=
                       [{| kv_key := lit "service.name";
                           kv_string_value := service_name exporter |}];
                     scope_name := lit "service-f-c";
                     scope_version := lit "1.0.0";
                     spans := convert_span fill <$> batch |}).

(** What one drain did: the exporter afterwards, the batch taken over
    and the request built from it. *)
Record drained := {
  after : otlp_exporter_t;
  batch : list (option otlp_span_t);
  request : option ExportTraceServiceRequest
}.

(** The loop [batch[i] = pending[i]; pending[i] = NULL] for [i < n]. *)
Fixpoint clear_from (pending : list (option otlp_span_t)) (i n : nat)
  : list (option otlp_span_t) :=
  match n with
  | O => pending
  | S n' => clear_from (<[i := None]> pending) (S i) n'
  end.

Definition take_batch (exporter : otlp_exporter_t) : drained :=
  let batch_count := pending_count exporter in
  {| after := {| endpoint := endpoint exporter; host := host exporter;
                 port := port exporter;
                 service_name := service_name exporter;
                 pending_spans := clear_from (pending_spans exporter) 0 batch_count;
                 pending_count := 0;
                 running := running exporter |};
     batch := take batch_count (pending_spans exporter);
     request := None |}.

(** One iteration of [export_thread_func] after its sleep. *)
Definition export_thread_func_step (fill : nat -> Z) (exporter : otlp_exporter_t)
  : option drained :=
  if Nat.ltb 0 (pending_count exporter) then
    let d := take_batch exporter in
    r ← do_export fill exporter (batch d) (pending_count exporter);
    Some {| after := after d; batch := batch d; request := r.2 |}
  else Some {| after := exporter; batch := []; request := None |}.

(** [otlp_exporter_create]; [channel_ok] tells whether
    [grpc_channel_create] returned a channel. *)
Definition otlp_exporter_create (endpoint service_name : cstring)
    (channel_ok : bool) : option otlp_exporter_t :=
  let '(rc, h, p) := parse_endpoint endpoint in
  if negb (rc =? 0) then None
  else if negb channel_ok then None
  else Some {| endpoint := strdup endpoint; host := h; port := p;
               service_name := strdup service_name;
               pending_spans := replicate MAX_BATCH_SIZE None;
               pending_count := 0;
               running := true |}.

(** The copy [otlp_export_span] stores. *)
Definition copy_span (span : otlp_span_t) : otlp_span_t :=
  let copied := match attributes span with
                | Some a => Nat.ltb 0 (attribute_count span)
                | None => false
                end in
  {| trace_id := Some (strdup (default (lit "") (trace_id span)));
     span_id := Some (strdup (default (lit "") (span_id span)));
     parent_span_id := strdup <$> parent_span_id span;
     name := Some (strdup (default (lit "") (name span)));
     kind := kind span;
     start_time_nanos := start_time_nanos span;
     end_time_nanos := end_time_nanos span;
     status_code := status_code span;
     status_message := None;
     attributes :=
       if copied
       then Some ((fun x => {| key := strdup (key x);
                               string_value := strdup (string_value x) |})
                    <$> take (attribute_count span) (default [] (attributes span)))
       else None;
     attribute_count := if copied then attribute_count span else 0%nat |}.

(** [otlp_export_span]: the return code and the exporter afterwards. *)
Definition otlp_export_span (exporter : option otlp_exporter_t)
    (span : option otlp_span_t) : Z * option otlp_exporter_t :=
  match exporter, span with
  | Some e, Some s =>
      if Nat.leb MAX_BATCH_SIZE (pending_count e) then (-1, Some e)
      else
        (0, Some {| endpoint := endpoint e; host := host e; port := port e;
                    service_name := service_name e;
                    pending_spans :=
                      <[pending_count e := Some (copy_span s)]> (pending_spans e);
                    pending_count := S (pending_count e);
                    running := running e |})
  | _, _ => (-1, exporter)
  end.

(** [otlp_exporter_flush]: the return code and what the drain did. *)
Definition otlp_exporter_flush (fill : nat -> Z)
    (exporter : option otlp_exporter_t) : option (Z * option drained) :=
  match exporter with
  | None => Some (-1, None)
  | Some e =>
      if Nat.ltb 0 (pending_count e) then
        let d := take_batch e in
        r ← do_export fill e (batch d) (pending_count e);
        Some (0, Some {| after := after d; batch := batch d; request := r.2 |})
      else Some (0, Some {| after := e; batch := []; request := None |})
  end.


End otlp_exporter.

(** ** otlp_log_exporter.c: the log exporter *)

Module otlp_log_exporter.

Definition MAX_BATCH_SIZE : nat := 64.

Inductive log_severity_t :=
| LOG_SEVERITY_UNSPECIFIED | LOG_SEVERITY_TRACE | LOG_SEVERITY_DEBUG
| LOG_SEVERITY_INFO | LOG_SEVERITY_WARN | LOG_SEVERITY_ERROR
| LOG_SEVERITY_FATAL.

(** The enumerators' values. *)
Definition severity_value (s : log_severity_t) : Z :=
  match s with
  | LOG_SEVERITY_UNSPECIFIED => 0
  | LOG_SEVERITY_TRACE => 1
  | LOG_SEVERITY_DEBUG => 5
  | LOG_SEVERITY_INFO => 9
  | LOG_SEVERITY_WARN => 13
  | LOG_SEVERITY_ERROR => 17
  | LOG_SEVERITY_FATAL => 21
  end.

Record log_attribute_t := {
  key : cstring;
  string_value : cstring
}.

Record otlp_log_record_t := {
  trace_id : option cstring;
  span_id : option cstring;
  severity : log_severity_t;
  body : option cstring;
  timestamp_nanos : Z;
  attributes : option (list log_attribute_t);
  attribute_count : nat
}.

Record otlp_log_exporter_t := {
  endpoint : cstring;
  host : cstring;
  port : cstring;
  service_name : cstring;
  pending_records : list (option otlp_log_record_t);
  pending_count : nat;
  running : bool
}.

(** This file's own copy of [hex_to_bytes]. *)
Fixpoint hex_to_bytes_from (hex : cstring) (bytes : list Z) (i n : nat)
  : Z * list Z :=
  match n with
  | O => (0, bytes)
  | S n' =>
      match sscanf_2x (drop (i * 2) hex) with
      | None => (-1, bytes)
      | Some val => hex_to_bytes_from hex (<[i := val mod 256]> bytes) (S i) n'
      end
  end.

Definition hex_to_bytes (hex : cstring) (bytes : list Z) (len : nat)
  : Z * list Z :=
  hex_to_bytes_from hex bytes 0 len.

Record LogRecord := {
  time_unix_nano : Z;
  severity_number : Z;
  severity_text : cstring;
  LogRecord_body : option cstring;
  LogRecord_attributes : list KeyValue;
  LogRecord_trace_id : ProtobufCBinaryData;
  LogRecord_span_id : ProtobufCBinaryData
}.

Record ExportLogsServiceRequest := {
  resource_attributes : list KeyValue;
  scope_name : cstring;
  scope_version : cstring;
  log_records : list LogRecord
}.

Definition long_enough (id : option cstring) (n : nat) : bool :=
  match id with
  | Some s => Nat.leb n (strlen s)
  | None => false
  end.

(** The body of the conversion loop of [do_export] for one record. *)
Definition convert_record (fill : nat -> Z) (record : otlp_log_record_t)
  : LogRecord :=
  let tid :=
    if long_enough (trace_id record) 32
    then {| data := Some (hex_to_bytes (default [] (trace_id record))
                                       (malloc fill 16) 16).2;
            len := 16 |}
    else {| data := None; len := 0 |} in
  let sid :=
    if long_enough (span_id record) 16
    then {| data := Some (hex_to_bytes (default [] (span_id record))
                                       (malloc fill 8) 8).2;
            len := 8 |}
    else {| data := None; len := 0 |} in
  let text :=
    match severity record with
    | LOG_SEVERITY_TRACE => lit "TRACE"
    | LOG_SEVERITY_DEBUG => lit "DEBUG"
    | LOG_SEVERITY_INFO => lit "INFO"
    | LOG_SEVERITY_WARN => lit "WARN"
    | LOG_SEVERITY_ERROR => lit "ERROR"
    | LOG_SEVERITY_FATAL => lit "FATAL"
    | LOG_SEVERITY_UNSPECIFIED => lit "UNSPECIFIED"
    end in
  let attrs :=
    match attributes record with
    | Some a =>
        if Nat.ltb 0 (attribute_count record)
        then (fun x => {| kv_key := key x; kv_string_value := string_value x |})
               <$> take (attribute_count record) a
        else []
    | None => []
    end in
  {| time_unix_nano := timestamp_nanos record;
     severity_number := severity_value (severity record);
     severity_text := text;
     LogRecord_body := body record;
     LogRecord_attributes := attrs;
     LogRecord_trace_id := tid;
     LogRecord_span_id := sid |}.

(** [n_attributes] of the wire record. *)
Definition n_attributes (record : otlp_log_record_t) : nat :=
  if Nat.ltb 0 (attribute_count record)
  then match attributes record with
       | Some _ => attribute_count record
       | None => 0%nat
       end
  else 0%nat.

(** [do_export], as in the span exporter, with the same block
    [attr_values]. *)
Definition do_export (fill : nat -> Z) (exporter : otlp_log_exporter_t)
    (records : list (option otlp_log_record_t)) (count : nat)
  : option (Z * option ExportLogsServiceRequest) :=
  if Nat.eqb count 0 then Some (0, None)
  else
    batch ← mapM id (take count records);
    _ ← attr_values.lifetime count (n_attributes <$> batch);
    Some (0, Some {| resource_attributes :=
                       [{| kv_key := lit "service.name";
                           kv_string_value := service_name exporter |}];
                     scope_name := lit "service-f-c";
                     scope_version := lit "1.0.0";
                     log_records := convert_record fill <$> batch |}).

(** The copy [otlp_export_log] stores. *)
Definition copy_record (record : otlp_log_record_t) : otlp_log_record_t :=
  let copied := match attributes record with
                | Some a => Nat.ltb 0 (attribute_count record)
                | None => false
                end in
  {| trace_id := strdup <$> trace_id record;
     span_id := strdup <$> span_id record;
     severity := severity record;
     body := Some (strdup (default (lit "") (body record)));
     timestamp_nanos := timestamp_nanos record;
     attributes :=
       if copied
       then Some ((fun x => {| key := strdup (key x);
                               string_value := strdup (string_value x) |})
                    <$> take (attribute_count record)
                             (default [] (attributes record)))
       else None;
     attribute_count := if copied then attribute_count record else 0%nat |}.

(** [otlp_export_log]: the return code and the exporter afterwards. *)
Definition otlp_export_log (exporter : option otlp_log_exporter_t)
    (record : option otlp_log_record_t) : Z * option otlp_log_exporter_t :=
  match exporter, record with
  | Some e, Some r =>
      if Nat.leb MAX_BATCH_SIZE (pending_count e) then (-1, Some e)
      else
        (0, Some {| endpoint := endpoint e; host := host e; port := port e;
                    service_name := service_name e;
                    pending_records :=
                      <[pending_count e := Some (copy_record r)]>
                        (pending_records e);
                    pending_count := S (pending_count e);
                    running := running e |})
  | _, _ => (-1, exporter)
  end.

End otlp_log_exporter.

(** ** otlp_metrics_exporter.c: the metrics exporter *)

Module otlp_metrics_exporter.

Import c_double.

Inductive metric_type_t :=
| METRIC_TYPE_COUNTER | METRIC_TYPE_GAUGE | METRIC_TYPE_HISTOGRAM.

Record metric_attribute_t := {
  key : cstring;
  string_value : cstring
}.

(** The anonymous union of [int_value] and [double_value] is kept as two
    fields: every read of the sources goes to the member that
    [is_double] names. *)
Record metric_data_point_t := {
  timestamp_nanos : Z;
  int_value : Z;
  double_value : double;
  is_double : bool;
  attributes : option (list metric_attribute_t);
  attribute_count : nat
}.

Record histogram_data_point_t := {
  h_timestamp_nanos : Z;
  count : Z;
  sum : double;
  bucket_counts : option (list double);
  explicit_bounds : option (list double);
  bucket_count : nat;
  h_attributes : option (list metric_attribute_t);
  h_attribute_count : nat
}.

Record otlp_metric_t := {
  name : option cstring;
  description : option cstring;
  unit : option cstring;
  type : metric_type_t;
  data_points : option (list metric_data_point_t);
  data_point_count : nat;
  histogram_points : option (list histogram_data_point_t);
  histogram_point_count : nat
}.

Record otlp_metrics_exporter_t := {
  endpoint : cstring;
  host : cstring;
  port : cstring;
  service_name : cstring
}.

(** This file's own copy of [parse_endpoint]. *)
Definition parse_endpoint (endpoint : cstring) : Z * cstring * cstring :=
  let ptr :=
    if strncmp_eq endpoint (lit "http://") 7 then drop 7 endpoint
    else if strncmp_eq endpoint (lit "https://") 8 then drop 8 endpoint
    else endpoint in
  match strchr ptr ":" with
  | Some host_len => (0, take host_len ptr, strdup (drop (S host_len) ptr))
  | None => (0, strdup ptr, strdup (lit "4317"))
  end.

(** Reading [a[0]] to [a[n-1]] through a nullable pointer: [None] when
    the pointer is NULL or the array is shorter than that. *)
Definition read_array {A} (a : option (list A)) (n : nat) : option (list A) :=
  match a with
  | Some l => if Nat.leb n (length l) then Some (take n l) else None
  | None => None
  end.

Inductive number_value :=
| as_double (d : double)
| as_int (v : Z).

Record NumberDataPoint := {
  time_unix_nano : Z;
  value : number_value;
  NumberDataPoint_attributes : list KeyValue
}.

Record HistogramDataPoint := {
  h_time_unix_nano : Z;
  h_count : Z;
  h_sum : double;
  has_sum : bool;
  h_bucket_counts : list Z;
  n_bucket_counts : nat;
  h_explicit_bounds : option (list double);
  n_explicit_bounds : nat
}.

Inductive metric_data :=
| DATA_NOT_SET
| DATA_SUM (is_monotonic : bool) (cumulative : bool) (points : list NumberDataPoint)
| DATA_GAUGE (points : list NumberDataPoint)
| DATA_HISTOGRAM (cumulative : bool) (points : list HistogramDataPoint).

Record Metric := {
  Metric_name : option cstring;
  Metric_description : option cstring;
  Metric_unit : option cstring;
  Metric_data : metric_data
}.

Record ExportMetricsServiceRequest := {
  resource_attributes : list KeyValue;
  scope_name : cstring;
  scope_version : cstring;
  metrics : list Metric
}.

Definition number_of (dp : metric_data_point_t) : number_value :=
  if is_double dp then as_double (double_value dp) else as_int (int_value dp).

(** A data point of a counter: value and attributes. *)
Definition convert_sum_point (dp : metric_data_point_t) : option NumberDataPoint :=
  attrs ← (if Nat.ltb 0 (attribute_count dp)
           then match attributes dp with
                | Some _ =>
                    fmap (fun x => {| kv_key := key x;
                                      kv_string_value := string_value x |})
                      <$> read_array (attributes dp) (attribute_count dp)
                | None => Some []
                end
           else Some []);
  Some {| time_unix_nano := timestamp_nanos dp;
          value := number_of dp;
          NumberDataPoint_attributes := attrs |}.

(** A data point of a gauge: the value only. *)
Definition convert_gauge_point (dp : metric_data_point_t) : NumberDataPoint :=
  {| time_unix_nano := timestamp_nanos dp;
     value := number_of dp;
     NumberDataPoint_attributes := [] |}.

(** A data point of a histogram. *)
Definition convert_histogram_point (dp : histogram_data_point_t)
  : option HistogramDataPoint :=
  let base bc nbc eb neb :=
    {| h_time_unix_nano := h_timestamp_nanos dp;
       h_count := count dp;
       h_sum := sum dp;
       has_sum := true;
       h_bucket_counts := bc; n_bucket_counts := nbc;
       h_explicit_bounds := eb; n_explicit_bounds := neb |} in
  if Nat.ltb 0 (bucket_count dp) then
    match bucket_counts dp with
    | Some _ =>
        provided ← read_array (bucket_counts dp) (bucket_count dp);
        copied ← mapM to_uint64 provided;
        match explicit_bounds dp with
        | Some _ =>
            Some (base copied (bucket_count dp) (explicit_bounds dp)
                       (if Nat.ltb 0 (bucket_count dp)
                        then (bucket_count dp - 1)%nat else 0%nat))
        | None => Some (base copied (bucket_count dp) None 0%nat)
        end
    | None => Some (base [] 0%nat None 0%nat)
    end
  else Some (base [] 0%nat None 0%nat).

(** The body of the conversion loop for one metric. *)
Definition convert_metric (metric : otlp_metric_t) : option Metric :=
  d ← match type metric with
      | METRIC_TYPE_COUNTER =>
          if Nat.ltb 0 (data_point_count metric) then
            dps ← read_array (data_points metric) (data_point_count metric);
            DATA_SUM true true <$> mapM convert_sum_point dps
          else Some DATA_NOT_SET
      | METRIC_TYPE_GAUGE =>
          if Nat.ltb 0 (data_point_count metric) then
            dps ← read_array (data_points metric) (data_point_count metric);
            Some (DATA_GAUGE (convert_gauge_point <$> dps))
          else Some DATA_NOT_SET
      | METRIC_TYPE_HISTOGRAM =>
          if Nat.ltb 0 (histogram_point_count metric) then
            dps ← read_array (histogram_points metric) (histogram_point_count metric);
            DATA_HISTOGRAM true <$> mapM convert_histogram_point dps
          else Some DATA_NOT_SET
      end;
  Some {| Metric_name := name metric;
          Metric_description := description metric;
          Metric_unit := unit metric;
          Metric_data := d |}.

(** The entries [cleanup_list[cleanup_count++] = ...] made for one data
    point of a counter: the point, and with attributes their array and,
    for each, the [KeyValue] and its [AnyValue]. *)
Definition sum_point_cleanup (dp : metric_data_point_t) : nat :=
  (1 + if Nat.ltb 0 (attribute_count dp)
       then match attributes dp with
            | Some _ => 1 + 2 * attribute_count dp
            | None => 0
            end
       else 0)%nat.

(** The entries made for one data point of a histogram: the point and,
    with buckets, the copy of the counts. *)
Definition histogram_point_cleanup (dp : histogram_data_point_t) : nat :=
  (1 + if Nat.ltb 0 (bucket_count dp)
       then match bucket_counts dp with
            | Some _ => 1
            | None => 0
            end
       else 0)%nat.

(** The entries made for one metric: the metric and, with data points,
    the [Sum], [Gauge] or [Histogram], the array of the points and what
    the points need; a point of a gauge needs one entry. *)
Definition metric_cleanup (metric : otlp_metric_t) : nat :=
  (1 + match type metric with
       | METRIC_TYPE_COUNTER =>
           if Nat.ltb 0 (data_point_count metric)
           then 2 + sum_list (sum_point_cleanup
                                <$> take (data_point_count metric)
                                         (default [] (data_points metric)))
           else 0
       | METRIC_TYPE_GAUGE =>
           if Nat.ltb 0 (data_point_count metric)
           then 2 + data_point_count metric
           else 0
       | METRIC_TYPE_HISTOGRAM =>
           if Nat.ltb 0 (histogram_point_count metric)
           then 2 + sum_list (histogram_point_cleanup
                                <$> take (histogram_point_count metric)
                                         (default [] (histogram_points metric)))
           else 0
       end)%nat.

(** Whether the entries made for the metrics [ms] fit the
    [count * 100] slots of [cleanup_list]. *)
Definition cleanup_list_fits (count : nat) (ms : list otlp_metric_t) : bool :=
  Nat.leb (sum_list (metric_cleanup <$> ms)) (count * 100).

(** How the unary call to the collector went. *)
Inductive export_outcome :=
| call_not_created
| batch_not_started
| completed (status_ok : bool)
| timed_out.

Definition result_of (o : export_outcome) : Z :=
  match o with
  | completed true => 0
  | _ => -1
  end.

(** [otlp_export_metrics]: [None] where the behaviour of the C code is
    undefined (an array read out of bounds, an undefined cast, an entry
    written behind the [count * 100] slots of [cleanup_list]);
    otherwise the return code and the request that was assembled. *)
Definition otlp_export_metrics (outcome : export_outcome)
    (exporter : option otlp_metrics_exporter_t)
    (metrics : option (list otlp_metric_t)) (count : nat)
  : option (Z * option ExportMetricsServiceRequest) :=
  match exporter, metrics with
  | Some e, Some _ =>
      if Nat.eqb count 0 then Some (-1, None)
      else
        ms ← read_array metrics count;
        proto_metrics ← mapM convert_metric ms;
        if cleanup_list_fits count ms then
          Some (result_of outcome,
                Some {| resource_attributes :=
                          [{| kv_key := lit "service.name";
                              kv_string_value := service_name e |}];
                        scope_name := lit "service-f-c";
                        scope_version := lit "1.0.0";
                        metrics := proto_metrics |})
        else None
  | _, _ => Some (-1, None)
  end.

End otlp_metrics_exporter.

(** ** main.c: metrics tick, trace context and the server loop *)

Module main.

Import c_double.
Import otlp_metrics_exporter.

(** *** Metrics state and the export thread *)

(** The globals the metrics thread reads. *)
Record globals := {
  g_shutdown : bool;
  g_metrics_exporter : option otlp_metrics_exporter_t;
  g_request_count : Z;
  g_total_duration_ms : double
}.

Definition uint64_max : Z := 2 ^ 64.

(** [(int64_t)n] for a [uint64_t]. *)
Definition to_int64 (n : Z) : Z := if n <? 2 ^ 63 then n else n - 2 ^ 64.

Definition record_request_metrics (duration_ms : double) (g : globals) : globals :=
  {| g_shutdown := g_shutdown g;
     g_metrics_exporter := g_metrics_exporter g;
     g_request_count := (g_request_count g + 1) mod uint64_max;
     g_total_duration_ms := PrimFloat.add (g_total_duration_ms g) duration_ms |}.

(** What one pass through the loop of [metrics_export_thread] did once
    [sleep(10)] returned: it left the loop, or it went on with the
    globals as given and, possibly, one call of [otlp_export_metrics]
    on the array given. *)
Inductive tick :=
| left_loop
| went_on (g : globals) (exported : option (list otlp_metric_t)).

Definition metrics_export_thread_step (timestamp_nanos : Z) (g : globals) : tick :=
  match g_shutdown g, g_metrics_exporter g with
  | false, Some _ =>
      let request_count := g_request_count g in
      let total_duration := g_total_duration_ms g in
      if request_count =? 0 then went_on g None
      else
        let counter_dp :=
          {| timestamp_nanos := timestamp_nanos;
             int_value := to_int64 request_count;
             double_value := PrimFloat.zero;
             is_double := false;
             attributes := None; attribute_count := 0 |} in
        let gauge_dp :=
          {| timestamp_nanos := timestamp_nanos;
             int_value := 0;
             double_value :=
               if 0 <? request_count
               then PrimFloat.div total_duration (of_uint64 request_count)
               else PrimFloat.zero;
             is_double := true;
             attributes := None; attribute_count := 0 |} in
        went_on g
          (Some [ {| name := Some (lit "grpcarch_service_f_requests_total");
                     description := Some (lit "Total number of requests");
                     unit := Some (lit "1");
                     type := METRIC_TYPE_COUNTER;
                     data_points := Some [counter_dp];
                     data_point_count := 1;
                     histogram_points := None;
                     histogram_point_count := 0 |};
                  {| name := Some (lit "grpcarch_service_f_request_duration_ms");
                     description :=
                       Some (lit "Average request duration in milliseconds");
                     unit := Some (lit "ms");
                     type := METRIC_TYPE_GAUGE;
                     data_points := Some [gauge_dp];
                     data_point_count := 1;
                     histogram_points := None;
                     histogram_point_count := 0 |} ])
  | _, _ => left_loop
  end.

(** *** Trace context *)

Definition hex : cstring := lit "0123456789abcdef".

(** The write [out[i] = hex[rand() % 16]] for [n] indices from [i];
    [calls] counts the calls of [rand] so far. *)
Fixpoint fill_random (rand : rand_stream) (calls : nat) (out : buffer)
    (i n : nat) : buffer * nat :=
  match n with
  | O => (out, calls)
  | S n' =>
      fill_random rand (S calls)
        (<[i := default NUL (hex !! (rand calls mod 16)%nat)]> out) (S i) n'
  end.

(** [generate_trace_id(out, len)] for [len >= 1]. *)
Definition generate_trace_id (rand : rand_stream) (calls : nat)
    (out : buffer) (len : nat) : buffer * nat :=
  let '(out', calls') := fill_random rand calls out 0 (Nat.min (len - 1) 32) in
  (<[(len - 1)%nat := NUL]> out', calls').

(** [generate_span_id(out, len)] for [len >= 1]. *)
Definition generate_span_id (rand : rand_stream) (calls : nat)
    (out : buffer) (len : nat) : buffer * nat :=
  let '(out', calls') := fill_random rand calls out 0 (Nat.min (len - 1) 16) in
  (<[(len - 1)%nat := NUL]> out', calls').

(** One entry of a [grpc_metadata_array]: two slices. *)
Record grpc_metadata := {
  md_key : list ascii;
  md_value : list ascii
}.

(** [grpc_slice_to_c_string]: the bytes of the slice followed by a NUL,
    so the C string stops at the first NUL of the slice, if any. *)
Definition grpc_slice_to_c_string (slice : list ascii) : cstring := c_str slice.

(** The body of the loop over the metadata. *)
Definition scan_entry (bufs : buffer * buffer) (md : grpc_metadata)
  : buffer * buffer :=
  let key := grpc_slice_to_c_string (md_key md) in
  if strcmp_eq key (lit "traceparent") then
    let value := grpc_slice_to_c_string (md_value md) in
    if Nat.leb 55 (strlen value) then
      (<[32%nat := NUL]> (strncpy bufs.1 (drop 3 value) 32),
       <[16%nat := NUL]> (strncpy bufs.2 (drop 36 value) 16))
    else bufs
  else bufs.

(** [extract_trace_context]: the two buffers afterwards and the number
    of calls of [rand]. *)
Definition extract_trace_context (rand : rand_stream) (calls : nat)
    (metadata : list grpc_metadata)
    (trace_id : buffer) (trace_id_len : nat)
    (parent_span_id : buffer) (parent_span_len : nat)
  : buffer * buffer * nat :=
  let '(t, p) :=
    foldl scan_entry (<[0%nat := NUL]> trace_id, <[0%nat := NUL]> parent_span_id)
          metadata in
  match t with
  | c :: _ =>
      if nonzero c then (t, p, calls)
      else let '(t', calls') := generate_trace_id rand calls t trace_id_len in
           (t', p, calls')
  | [] => (t, p, calls)
  end.

(** The first step of [handle_fetch_legacy_data]: the buffers
    [char trace_id[64] = {0}] and [char parent_span_id[32] = {0}] are
    handed to [extract_trace_context]; the result is the two strings. *)
Definition handler_trace_context (rand : rand_stream) (calls : nat)
    (metadata : list grpc_metadata) : cstring * cstring * nat :=
  let '(t, p, calls') :=
    extract_trace_context rand calls metadata
      (replicate 64 NUL) 64 (replicate 32 NUL) 32 in
  (c_str t, c_str p, calls').

(** *** The server loop *)

Inductive grpc_completion_type :=
| GRPC_QUEUE_SHUTDOWN | GRPC_QUEUE_TIMEOUT | GRPC_OP_COMPLETE.

Record grpc_event := {
  ev_type : grpc_completion_type;
  success : bool;
  tag : Z
}.

Inductive grpc_status_code :=
| GRPC_STATUS_OK | GRPC_STATUS_UNIMPLEMENTED.

Inductive grpc_op :=
| GRPC_OP_SEND_INITIAL_METADATA
| GRPC_OP_SEND_MESSAGE
| GRPC_OP_SEND_STATUS_FROM_SERVER (status : grpc_status_code) (details : cstring)
| GRPC_OP_RECV_MESSAGE.

Record call_context_t := {
  request_id : Z
}.

(** What the server does that can be seen from outside. *)
Inductive action :=
| grpc_server_request_call (tag : Z)
| grpc_call_start_batch (call : Z) (ops : list grpc_op) (tag : Z)
| print_unknown_method (method : cstring)
| handle_fetch_legacy_data (call : Z)
| cleanup_call_context (call : Z).

(** Where the thread of [run_server] waits for its next event: at the
    top of the main loop, or in one of the three [do ... while] loops
    that wait for the tag 1 (message received), 2 (response sent, inside
    [handle_fetch_legacy_data]) or 3 (status sent). *)
Inductive position :=
| main_loop
| wait_message (ctx : call_context_t)
| wait_response (ctx : call_context_t)
| wait_status (ctx : call_context_t)
| null_dereference
| loop_left.

Record server := {
  at_ : position;
  pending_ctx : option call_context_t;
  request_counter : Z
}.

(** The environment of the server: whether [grpc_server_request_call]
    accepts the registration with a given tag, and the method of the
    call that arrives under it. *)
Record environment := {
  request_accepted : Z -> bool;
  arriving_method : Z -> list ascii
}.

(** A value of the type [int], 32 bits wide. A result that leaves the
    range wraps around: ISO C leaves the overflow of [++request_counter]
    undefined, and the wrap is what it does on the two's complement
    machines the service is built for. *)
Definition to_int (n : Z) : Z := (n + 2 ^ 31) mod 2 ^ 32 - 2 ^ 31.

(** [request_call]: the new context (NULL on error), the counter and
    the registration made. [request_counter] and [request_id] are
    [int]s; the tag of the registration is the request ID. *)
Definition request_call (env : environment) (counter : Z)
  : option call_context_t * Z * list action :=
  let id := to_int (counter + 1) in
  (if request_accepted env id then Some {| request_id := id |} else None,
   id, [grpc_server_request_call id]).

Definition is_op_complete (ev : grpc_event) : bool :=
  match ev_type ev with
  | GRPC_OP_COMPLETE => true
  | _ => false
  end.

(** One event taken from the completion queue by [run_server]. *)
Definition step (env : environment) (s : server) (ev : grpc_event)
  : server * list action :=
  match at_ s with
  | main_loop =>
      if is_op_complete ev && success ev then
        match pending_ctx s with
        | None => ({| at_ := null_dereference; pending_ctx := None;
                      request_counter := request_counter s |}, [])
        | Some ctx =>
            if tag ev =? request_id ctx then
              let '(pending', counter', registered) :=
                request_call env (request_counter s) in
              let method :=
                grpc_slice_to_c_string (arriving_method env (request_id ctx)) in
              match strstr method (lit "FetchLegacyData") with
              | Some _ =>
                  ({| at_ := wait_message ctx; pending_ctx := pending';
                      request_counter := counter' |},
                   registered ++
                   [grpc_call_start_batch (request_id ctx) [GRPC_OP_RECV_MESSAGE] 1])
              | None =>
                  ({| at_ := wait_status ctx; pending_ctx := pending';
                      request_counter := counter' |},
                   registered ++
                   [print_unknown_method method;
                    grpc_call_start_batch (request_id ctx)
                      [GRPC_OP_SEND_INITIAL_METADATA;
                       GRPC_OP_SEND_STATUS_FROM_SERVER GRPC_STATUS_UNIMPLEMENTED
                         (lit "Method not implemented")] 3])
              end
            else (s, [])
        end
      else
        match ev_type ev with
        | GRPC_QUEUE_SHUTDOWN =>
            ({| at_ := loop_left; pending_ctx := pending_ctx s;
                request_counter := request_counter s |}, [])
        | _ => (s, [])
        end
  | wait_message ctx =>
      if is_op_complete ev && (tag ev =? 1) then
        ({| at_ := wait_response ctx; pending_ctx := pending_ctx s;
            request_counter := request_counter s |},
         [handle_fetch_legacy_data (request_id ctx);
          grpc_call_start_batch (request_id ctx)
            [GRPC_OP_SEND_INITIAL_METADATA; GRPC_OP_SEND_MESSAGE;
             GRPC_OP_SEND_STATUS_FROM_SERVER GRPC_STATUS_OK (lit "OK")] 2])
      else (s, [])
  | wait_response ctx =>
      if is_op_complete ev && (tag ev =? 2) then
        ({| at_ := main_loop; pending_ctx := pending_ctx s;
            request_counter := request_counter s |},
         [cleanup_call_context (request_id ctx)])
      else (s, [])
  | wait_status ctx =>
      if is_op_complete ev && (tag ev =? 3) then
        ({| at_ := main_loop; pending_ctx := pending_ctx s;
            request_counter := request_counter s |},
         [cleanup_call_context (request_id ctx)])
      else (s, [])
  | null_dereference => (s, [])
  | loop_left => (s, [])
  end.

(** The server fed a sequence of events: where it ends and all it did. *)
Fixpoint run (env : environment) (s : server) (evs : list grpc_event)
  : server * list action :=
  match evs with
  | [] => (s, [])
  | ev :: rest =>
      let '(s', done) := step env s ev in
      let '(s'', done') := run env s' rest in
      (s'', done ++ done')
  end.

(** [run_server] up to its loop: the first [request_call]. *)
Definition run_server_start (env : environment) : server * list action :=
  let '(pending, counter, registered) := request_call env 0 in
  ({| at_ := main_loop; pending_ctx := pending; request_counter := counter |},
   registered).

End main.

(** ** Vocabulary of the statements *)

Module spec.

(** [rest] is [endpoint] without a leading [http://] or [https://]. *)
Definition without_scheme (endpoint rest : cstring) : Prop :=
  endpoint = lit "http://" ++ rest
  \/ endpoint = lit "https://" ++ rest
  \/ (rest = endpoint
      /\ ~ lit "http://" `prefix_of` endpoint
      /\ ~ lit "https://" `prefix_of` endpoint).

(** [rest] cut at its first colon, the port being 4317 without one. *)
Definition cut_at_first_colon (rest host port : cstring) : Prop :=
  (~ In ":"%char rest /\ host = rest /\ port = lit "4317")
  \/ (rest = host ++ ":"%char :: port /\ ~ In ":"%char host).

(** The offset of the last occurrence of [c] in [s]. *)
Fixpoint last_index (s : cstring) (c : ascii) : option nat :=
  match s with
  | [] => None
  | x :: s' =>
      match last_index s' c with
      | Some i => Some (S i)
      | None => if Ascii.eqb x c then Some O else None
      end
  end.

(** The endpoint parser as the specification words it: the scheme is
    stripped and the remainder is split on its last colon. *)
Definition parse_endpoint_last_colon (endpoint : cstring)
  : Z * cstring * cstring :=
  let ptr :=
    if strncmp_eq endpoint (lit "http://") 7 then drop 7 endpoint
    else if strncmp_eq endpoint (lit "https://") 8 then drop 8 endpoint
    else endpoint in
  match last_index ptr ":" with
  | Some i => (0, take i ptr, drop (S i) ptr)
  | None => (0, ptr, lit "4317")
  end.

(** The characters of a lowercase hexadecimal string. *)
Definition lower_hex (c : ascii) : Prop := In c (lit "0123456789abcdef").

Definition hex_char (n : Z) : ascii :=
  default NUL (lit "0123456789abcdef" !! Z.to_nat n).

(** Modelled from the spec: the rendering of raw bytes as lowercase
    hexadecimal text, the bytes-to-hex direction of the identifier
    codec; the sources only hold the direction from hex to bytes. *)
Definition bytes_to_hex (bytes : list Z) : cstring :=
  flat_map (fun b => [hex_char (b / 16); hex_char (b mod 16)]) bytes.

(** The value of a metadata entry that [extract_trace_context] takes
    as the trace context: the key is [traceparent] and the value has at
    least 55 characters. *)
Definition traceparent_of (md : main.grpc_metadata) : option cstring :=
  let value := main.grpc_slice_to_c_string (main.md_value md) in
  if strcmp_eq (main.grpc_slice_to_c_string (main.md_key md)) (lit "traceparent")
     && Nat.leb 55 (strlen value)
  then Some value else None.

(** [n] characters [hex[rand() % 16]] from the call number [calls] on. *)
Definition random_hex (rand : rand_stream) (calls n : nat) : cstring :=
  (fun k => default NUL (main.hex !! (rand (calls + k)%nat mod 16)%nat)) <$> seq 0 n.

(** What the loop over the metadata leaves in the two buffers of the
    handler: nothing but NULs without a trace context, and otherwise the
    two terminated substrings of the last trace context of the list. *)
Definition scanned (bufs : buffer * buffer) (found : option cstring) : Prop :=
  length bufs.1 = 64%nat /\ length bufs.2 = 32%nat /\
  match found with
  | Some value =>
      (exists rest, bufs.1 = take 32 (drop 3 value) ++ NUL :: rest)
      /\ (exists rest, bufs.2 = take 16 (drop 36 value) ++ NUL :: rest)
  | None => bufs = (replicate 64 NUL, replicate 32 NUL)
  end.

(** The pending batch of a span exporter holds [stored], in this order,
    in its first slots and NULL in all the others. *)
Definition holds (e : otlp_exporter.otlp_exporter_t)
    (stored : list otlp_exporter.otlp_span_t) : Prop :=
  otlp_exporter.pending_count e = length stored
  /\ otlp_exporter.pending_spans e
     = (Some <$> stored)
         ++ replicate (otlp_exporter.MAX_BATCH_SIZE - length stored) None.

(** A span as the handler builds it: identifiers and name present, no
    status message, and an attribute array with its exact count. *)
Definition plain (s : otlp_exporter.otlp_span_t) : Prop :=
  is_Some (otlp_exporter.trace_id s)
  /\ is_Some (otlp_exporter.span_id s)
  /\ is_Some (otlp_exporter.name s)
  /\ otlp_exporter.status_message s = None
  /\ exists a, otlp_exporter.attributes s = Some a
               /\ otlp_exporter.attribute_count s = length a
               /\ a <> [].

(** A span whose attributes fit the 16 slots that [do_export] keeps for
    each span of a batch. *)
Definition fits (s : otlp_exporter.otlp_span_t) : Prop :=
  (otlp_exporter.n_attributes s <= 16)%nat.

(** A log record whose attributes fit the 16 slots. *)
Definition log_fits (r : otlp_log_exporter.otlp_log_record_t) : Prop :=
  (otlp_log_exporter.n_attributes r <= 16)%nat.


(** An identifier that is NULL or has fewer than [n] characters. *)
Definition absent_or_short (id : option cstring) (n : nat) : Prop :=
  match id with
  | Some s => (length s < n)%nat
  | None => True
  end.

(** [needle] occurs in [hay]. *)
Definition contains (hay needle : cstring) : Prop :=
  exists before behind, hay = before ++ needle ++ behind.

(** The completion of the registration [id]: a call has arrived. *)
Definition call_arrived (id : Z) : main.grpc_event :=
  {| main.ev_type := main.GRPC_OP_COMPLETE; main.success := true; main.tag := id |}.

(** The completion of the batch started with the tag [t]. *)
Definition batch_done (t : Z) : main.grpc_event :=
  {| main.ev_type := main.GRPC_OP_COMPLETE; main.success := true; main.tag := t |}.

(** An event that is not the completion of a batch tagged [t]. *)
Definition other_than (t : Z) (ev : main.grpc_event) : Prop :=
  main.is_op_complete ev = false \/ main.tag ev <> t.

(** An event the main loop passes over while the registration [id] is
    pending: neither the arrival of the call [id] nor the shutdown of
    the queue. *)
Definition passed_over (id : Z) (ev : main.grpc_event) : Prop :=
  main.ev_type ev <> main.GRPC_QUEUE_SHUTDOWN
  /\ (main.is_op_complete ev = true -> main.success ev = true ->
      main.tag ev <> id).

(** The batch that answers an unknown method. *)
Definition unimplemented_batch (call : Z) : main.action :=
  main.grpc_call_start_batch call
    [main.GRPC_OP_SEND_INITIAL_METADATA;
     main.GRPC_OP_SEND_STATUS_FROM_SERVER main.GRPC_STATUS_UNIMPLEMENTED
       (lit "Method not implemented")] 3.

(** The one method the service registers; the sibling implementation
    [main.cpp] registers it through [grpcarch::ServiceF::Service]. *)
Definition registered_method : cstring :=
  lit "/grpcarch.ServiceF/FetchLegacyData".

End spec.
Import spec.

(** ** Concrete inputs *)

Module sample.

(** The exporter [otlp_exporter_create("http://otel-collector:4317",
    "service-f")] returns. *)
Definition exporter : otlp_exporter.otlp_exporter_t :=
  {| otlp_exporter.endpoint := lit "http://otel-collector:4317";
     otlp_exporter.host := lit "otel-collector";
     otlp_exporter.port := lit "4317";
     otlp_exporter.service_name := lit "service-f";
     otlp_exporter.pending_spans := replicate otlp_exporter.MAX_BATCH_SIZE None;
     otlp_exporter.pending_count := 0;
     otlp_exporter.running := true |}.

(** A span as [handle_fetch_legacy_data] builds it. *)
Definition span (parent : option cstring) : otlp_exporter.otlp_span_t :=
  {| otlp_exporter.trace_id := Some (lit "0af7651916cd43dd8448eb211c80319c");
     otlp_exporter.span_id := Some (lit "b7ad6b7169203331");
     otlp_exporter.parent_span_id := parent;
     otlp_exporter.name := Some (lit "FetchLegacyData");
     otlp_exporter.kind := otlp_exporter.SPAN_KIND_SERVER;
     otlp_exporter.start_time_nanos := 1000;
     otlp_exporter.end_time_nanos := 2000;
     otlp_exporter.status_code := otlp_exporter.SPAN_STATUS_OK;
     otlp_exporter.status_message := None;
     otlp_exporter.attributes :=
       Some [ {| otlp_exporter.key := lit "rpc.system";
                 otlp_exporter.string_value := lit "grpc" |} ];
     otlp_exporter.attribute_count := 1 |}.

(** A span that failed, with a status message. *)
Definition failed_span : otlp_exporter.otlp_span_t :=
  {| otlp_exporter.trace_id := Some (lit "0af7651916cd43dd8448eb211c80319c");
     otlp_exporter.span_id := Some (lit "b7ad6b7169203331");
     otlp_exporter.parent_span_id := None;
     otlp_exporter.name := Some (lit "FetchLegacyData");
     otlp_exporter.kind := otlp_exporter.SPAN_KIND_SERVER;
     otlp_exporter.start_time_nanos := 1000;
     otlp_exporter.end_time_nanos := 2000;
     otlp_exporter.status_code := otlp_exporter.SPAN_STATUS_ERROR;
     otlp_exporter.status_message := Some (lit "table not found");
     otlp_exporter.attributes :=
       Some [ {| otlp_exporter.key := lit "rpc.system";
                 otlp_exporter.string_value := lit "grpc" |} ];
     otlp_exporter.attribute_count := 1 |}.

(** A span with 17 attributes. *)
Definition wide_span : otlp_exporter.otlp_span_t :=
  {| otlp_exporter.trace_id := Some (lit "0af7651916cd43dd8448eb211c80319c");
     otlp_exporter.span_id := Some (lit "b7ad6b7169203331");
     otlp_exporter.parent_span_id := None;
     otlp_exporter.name := Some (lit "FetchLegacyData");
     otlp_exporter.kind := otlp_exporter.SPAN_KIND_SERVER;
     otlp_exporter.start_time_nanos := 1000;
     otlp_exporter.end_time_nanos := 2000;
     otlp_exporter.status_code := otlp_exporter.SPAN_STATUS_OK;
     otlp_exporter.status_message := None;
     otlp_exporter.attributes :=
       Some (replicate 17 {| otlp_exporter.key := lit "db.column";
                             otlp_exporter.string_value := lit "id" |});
     otlp_exporter.attribute_count := 17 |}.

End sample.

Module sample_log.

Definition exporter : otlp_log_exporter.otlp_log_exporter_t :=
  {| otlp_log_exporter.endpoint := lit "http://otel-collector:4317";
     otlp_log_exporter.host := lit "otel-collector";
     otlp_log_exporter.port := lit "4317";
     otlp_log_exporter.service_name := lit "service-f";
     otlp_log_exporter.pending_records :=
       replicate otlp_log_exporter.MAX_BATCH_SIZE None;
     otlp_log_exporter.pending_count := 0;
     otlp_log_exporter.running := true |}.

(** A record as [log_otlp] builds it. *)
Definition record (trace_id span_id : option cstring)
  : otlp_log_exporter.otlp_log_record_t :=
  {| otlp_log_exporter.trace_id := trace_id;
     otlp_log_exporter.span_id := span_id;
     otlp_log_exporter.severity := otlp_log_exporter.LOG_SEVERITY_INFO;
     otlp_log_exporter.body := Some (lit "FetchLegacyData called");
     otlp_log_exporter.timestamp_nanos := 1000;
     otlp_log_exporter.attributes :=
       Some [ {| otlp_log_exporter.key := lit "service.name";
                 otlp_log_exporter.string_value := lit "service-f" |} ];
     otlp_log_exporter.attribute_count := 1 |}.

End sample_log.

Module sample_metrics.

Import otlp_metrics_exporter.

Definition exporter : otlp_metrics_exporter_t :=
  {| endpoint := lit "http://otel-collector:4317";
     host := lit "otel-collector";
     port := lit "4317";
     service_name := lit "service-f" |}.

(** The globals of [main.c] when the metrics thread starts. *)
Definition at_start : main.globals :=
  {| main.g_shutdown := false;
     main.g_metrics_exporter := Some exporter;
     main.g_request_count := 0;
     main.g_total_duration_ms := 0%float |}.

(** The globals after three requests of 10 ms each. *)
Definition after_three_requests : main.globals :=
  main.record_request_metrics 10%float
    (main.record_request_metrics 10%float
       (main.record_request_metrics 10%float at_start)).

(** A histogram data point with two buckets, one of whose counts is not
    a whole number, and one boundary. *)
Definition fractional_histogram : histogram_data_point_t :=
  {| h_timestamp_nanos := 1000;
     count := 3;
     sum := 42%float;
     bucket_counts := Some [1.5%float; 2%float];
     explicit_bounds := Some [10%float];
     bucket_count := 2;
     h_attributes := None;
     h_attribute_count := 0 |}.

(** A histogram data point with three whole-number counts and two
    boundaries. *)
Definition whole_histogram : histogram_data_point_t :=
  {| h_timestamp_nanos := 1000;
     count := 6;
     sum := 42%float;
     bucket_counts := Some [1%float; 2%float; 3%float];
     explicit_bounds := Some [10%float; 20%float];
     bucket_count := 3;
     h_attributes := None;
     h_attribute_count := 0 |}.

(** A histogram metric made of one data point. *)
Definition histogram_metric (dp : histogram_data_point_t) : otlp_metric_t :=
  {| name := Some (lit "latency");
     description := Some (lit "Request latency");
     unit := Some (lit "ms");
     type := METRIC_TYPE_HISTOGRAM;
     data_points := None;
     data_point_count := 0;
     histogram_points := Some [dp];
     histogram_point_count := 1 |}.

End sample_metrics.

Module sample_server.

(** An environment in which every registration is accepted and every
    call that arrives asks for [method]. *)
Definition env (method : cstring) : main.environment :=
  {| main.request_accepted := fun _ => true;
     main.arriving_method := fun _ => method |}.

(** The server as [run_server] enters its loop. *)
Definition started (method : cstring) : main.server :=
  (main.run_server_start (env method)).1.

End sample_server.

(** ** More of otlp_exporter.c: the channel target, the life of the queue *)

Module otlp_exporter_life.

Import otlp_exporter.

(** [snprintf(target, sizeof(target), "%s:%s", host, port)] with
    [char target[256]]: the string left in [target]. *)
Definition snprintf_target (host port : cstring) : cstring :=
  take 255 (host ++ lit ":" ++ port).

(** The target [otlp_exporter_create] hands to [grpc_channel_create]. *)
Definition channel_target (endpoint : cstring) : cstring :=
  let '(_, h, p) := parse_endpoint endpoint in
  snprintf_target h p.

(** What the threads do to one exporter, each under its mutex: a call of
    [otlp_export_span], a call of [otlp_exporter_flush], or a pass of
    [export_thread_func]. *)
Inductive operation :=
| call_export_span (span : otlp_span_t)
| call_flush
| thread_pass.

(** What is seen of an operation: the return code of
    [otlp_export_span], or the batch a drain handed to [do_export]. *)
Inductive observation :=
| export_span_returned (span : otlp_span_t) (rc : Z)
| batch_exported (batch : list (option otlp_span_t))
                 (request : option ExportTraceServiceRequest).

(** The spans the operations hand to [otlp_export_span]. *)
Fixpoint given (ops : list operation) : list otlp_span_t :=
  match ops with
  | [] => []
  | call_export_span s :: rest => s :: given rest
  | _ :: rest => given rest
  end.

(** The operations one after the other; [None] where the behaviour of
    [do_export] is undefined. *)
Fixpoint interleave (fill : nat -> Z) (e : otlp_exporter_t)
    (ops : list operation) : option (otlp_exporter_t * list observation) :=
  match ops with
  | [] => Some (e, [])
  | call_export_span s :: rest =>
      match otlp_export_span (Some e) (Some s) with
      | (rc, Some e') =>
          r ← interleave fill e' rest;
          Some (r.1, export_span_returned s rc :: r.2)
      | (_, None) => None
      end
  | call_flush :: rest =>
      f ← otlp_exporter_flush fill (Some e);
      match f.2 with
      | Some d =>
          r ← interleave fill (after d) rest;
          Some (r.1, batch_exported (batch d) (request d) :: r.2)
      | None => None
      end
  | thread_pass :: rest =>
      d ← export_thread_func_step fill e;
      r ← interleave fill (after d) rest;
      Some (r.1, batch_exported (batch d) (request d) :: r.2)
  end.

(** The spans whose [otlp_export_span] returned 0. *)
Fixpoint accepted (obs : list observation) : list otlp_span_t :=
  match obs with
  | [] => []
  | export_span_returned s rc :: rest =>
      if rc =? 0 then s :: accepted rest else accepted rest
  | batch_exported _ _ :: rest => accepted rest
  end.

(** The entries of all the batches handed to [do_export], in order. *)
Fixpoint exported (obs : list observation) : list (option otlp_span_t) :=
  match obs with
  | [] => []
  | export_span_returned _ _ :: rest => exported rest
  | batch_exported b _ :: rest => b ++ exported rest
  end.

(** [otlp_exporter_destroy]: nothing for NULL; otherwise [running] is
    cleared and the thread joined, the thread finishing the pass it may
    be in ([last_pass]), then the remaining spans are flushed and the
    exporter is freed. The result is what the two drains did. *)
Definition otlp_exporter_destroy (fill : nat -> Z) (last_pass : bool)
    (exporter : option otlp_exporter_t) : option (list drained) :=
  match exporter with
  | None => Some []
  | Some e =>
      let stopped :=
        {| endpoint := endpoint e; host := host e; port := port e;
           service_name := service_name e;
           pending_spans := pending_spans e;
           pending_count := pending_count e;
           running := false |} in
      by_thread ← (if last_pass
                   then (fun d => [d]) <$> export_thread_func_step fill stopped
                   else Some []);
      let joined := default stopped (after <$> last by_thread) in
      f ← otlp_exporter_flush fill (Some joined);
      match f.2 with
      | Some d => Some (by_thread ++ [d])
      | None => None
      end
  end.

End otlp_exporter_life.

(** ** More of otlp_log_exporter.c: the drain *)

Module otlp_log_exporter_drain.

Import otlp_log_exporter.

Record drained := {
  after : otlp_log_exporter_t;
  batch : list (option otlp_log_record_t);
  request : option ExportLogsServiceRequest
}.

(** The loop [batch[i] = pending[i]; pending[i] = NULL] for [i < n]. *)
Fixpoint clear_from (pending : list (option otlp_log_record_t)) (i n : nat)
  : list (option otlp_log_record_t) :=
  match n with
  | O => pending
  | S n' => clear_from (<[i := None]> pending) (S i) n'
  end.

Definition take_batch (exporter : otlp_log_exporter_t) : drained :=
  let batch_count := pending_count exporter in
  {| after := {| endpoint := endpoint exporter; host := host exporter;
                 port := port exporter;
                 service_name := service_name exporter;
                 pending_records :=
                   clear_from (pending_records exporter) 0 batch_count;
                 pending_count := 0;
                 running := running exporter |};
     batch := take batch_count (pending_records exporter);
     request := None |}.

(** [otlp_log_exporter_flush]: the return code and what the drain did. *)
Definition otlp_log_exporter_flush (fill : nat -> Z)
    (exporter : option otlp_log_exporter_t) : option (Z * option drained) :=
  match exporter with
  | None => Some (-1, None)
  | Some e =>
      if Nat.ltb 0 (pending_count e) then
        let d := take_batch e in
        r ← do_export fill e (batch d) (pending_count e);
        Some (0, Some {| after := after d; batch := batch d; request := r.2 |})
      else Some (0, Some {| after := e; batch := []; request := None |})
  end.

(** One iteration of [export_thread_func] after its sleep. *)
Definition export_thread_func_step (fill : nat -> Z)
    (exporter : otlp_log_exporter_t) : option drained :=
  if Nat.ltb 0 (pending_count exporter) then
    let d := take_batch exporter in
    r ← do_export fill exporter (batch d) (pending_count exporter);
    Some {| after := after d; batch := batch d; request := r.2 |}
  else Some {| after := exporter; batch := []; request := None |}.

End otlp_log_exporter_drain.

(** ** More of main.c: logging and the telemetry of the handler *)

Module main_telemetry.

Import c_double.

(** [level_str] of [log_otlp]. *)
Definition level_str (severity : otlp_log_exporter.log_severity_t) : cstring :=
  match severity with
  | otlp_log_exporter.LOG_SEVERITY_DEBUG => lit "DEBUG"
  | otlp_log_exporter.LOG_SEVERITY_INFO => lit "INFO"
  | otlp_log_exporter.LOG_SEVERITY_WARN => lit "WARN"
  | otlp_log_exporter.LOG_SEVERITY_ERROR => lit "ERROR"
  | otlp_log_exporter.LOG_SEVERITY_FATAL => lit "FATAL"
  | _ => lit "INFO"
  end.

(** The newline character. *)
Definition newline : ascii := ascii_of_nat 10.

(** [log_otlp]: the line printed and [g_log_exporter] afterwards; the
    return code of [otlp_export_log] is not looked at. *)
Definition log_otlp (g_service_name : cstring) (timestamp_nanos : Z)
    (g_log_exporter : option otlp_log_exporter.otlp_log_exporter_t)
    (severity : otlp_log_exporter.log_severity_t)
    (trace_id span_id : option cstring) (message : cstring)
  : cstring * option otlp_log_exporter.otlp_log_exporter_t :=
  let line :=
    lit "[" ++ level_str severity ++ lit "] " ++ message
      ++ lit " | trace_id=" ++ default (lit "") trace_id
      ++ lit " span_id=" ++ default (lit "") span_id ++ [newline] in
  match g_log_exporter with
  | Some _ =>
      let record :=
        {| otlp_log_exporter.trace_id := trace_id;
           otlp_log_exporter.span_id := span_id;
           otlp_log_exporter.severity := severity;
           otlp_log_exporter.body := Some message;
           otlp_log_exporter.timestamp_nanos := timestamp_nanos;
           otlp_log_exporter.attributes :=
             Some [ {| otlp_log_exporter.key := lit "service.name";
                       otlp_log_exporter.string_value := g_service_name |} ];
           otlp_log_exporter.attribute_count := 1 |} in
      (line, (otlp_log_exporter.otlp_export_log g_log_exporter (Some record)).2)
  | None => (line, None)
  end.

(** The globals the handler's telemetry goes to, and the state of
    [rand]. *)
Record telemetry := {
  metrics : main.globals;
  g_log_exporter : option otlp_log_exporter.otlp_log_exporter_t;
  g_trace_exporter : option otlp_exporter.otlp_exporter_t;
  g_service_name : cstring;
  rand_calls : nat
}.

(** The two strings of an unpacked [LegacyDataRequest]. *)
Record LegacyDataRequest := {
  record_id : option cstring;
  table_name : option cstring
}.

(** The four readings of the clock during one call: [start_time], the
    time stamps of the two log records, [end_time]. *)
Record clock := {
  start_time : Z;
  first_log_time : Z;
  end_time : Z;
  second_log_time : Z
}.

(** [snprintf] into [char log_msg[256]]. *)
Definition snprintf_256 (s : cstring) : cstring := take 255 s.

(** [simulate_db_delay]: the milliseconds slept and the number of calls
    of [rand] afterwards. *)
Definition simulate_db_delay (rand : rand_stream) (calls : nat) : nat * nat :=
  ((3 + rand calls mod 6)%nat, S calls).

(** The loop [do { ev = grpc_completion_queue_next(...); } while
    (ev.type != GRPC_OP_COMPLETE || ev.tag != t)] on what the queue
    yields: the events left in the queue when the loop ends, [None] when
    it does not end on these events. *)
Fixpoint wait_for_tag (t : Z) (queue : list main.grpc_event)
  : option (list main.grpc_event) :=
  match queue with
  | [] => None
  | ev :: rest =>
      if main.is_op_complete ev && (main.tag ev =? t) then Some rest
      else wait_for_tag t rest
  end.

(** What the handler has done: the globals, the lines printed and the
    milliseconds slept. *)
Record progress := {
  globals : telemetry;
  printed : list cstring;
  delay_ms : nat
}.

(** The handler has returned, leaving the rest of the events in the
    queue, or it is still in its wait for the completion of the
    response batch. *)
Inductive outcome :=
| returned (p : progress) (queue : list main.grpc_event)
| still_waiting (p : progress).

Section handler.

(** [printf]'s conversion [%.2f] of a [double]. *)
Variable printf_2f : PrimFloat.float -> cstring.

Variable rand : rand_stream.

(** [handle_fetch_legacy_data] on the events [queue] that the completion
    queue yields from the start of the batch of the response on: the
    identifiers, the first log record, the delay, the wait for the
    completion tagged 2, the second log record, the metrics and the
    span. The response message, which reads none of these and which
    none of these read, is left out. *)
Definition handle_fetch_legacy_data (t : telemetry) (now : clock)
    (metadata : list main.grpc_metadata) (request : option LegacyDataRequest)
    (queue : list main.grpc_event) : outcome :=
  let '(trace_id, parent_span_id, calls1) :=
    main.handler_trace_context rand (rand_calls t) metadata in
  let '(span_buf, calls2) :=
    main.generate_span_id rand calls1 (replicate 32 NUL) 32 in
  let span_id := c_str span_buf in
  let record_id := default (lit "unknown") (request ≫= record_id) in
  let table_name := default (lit "unknown") (request ≫= table_name) in
  let msg1 :=
    snprintf_256 (lit "FetchLegacyData called - record_id: " ++ record_id
                    ++ lit ", table: " ++ table_name) in
  let '(line1, log1) :=
    log_otlp (g_service_name t) (first_log_time now) (g_log_exporter t)
      otlp_log_exporter.LOG_SEVERITY_INFO (Some trace_id) (Some span_id) msg1 in
  let '(delay, calls3) := simulate_db_delay rand calls2 in
  match wait_for_tag 2 queue with
  | None =>
      still_waiting
        {| globals := {| metrics := metrics t;
                         g_log_exporter := log1;
                         g_trace_exporter := g_trace_exporter t;
                         g_service_name := g_service_name t;
                         rand_calls := calls3 |};
           printed := [line1];
           delay_ms := delay |}
  | Some queue' =>
      let duration_ms :=
        PrimFloat.div
          (of_uint64 ((end_time now - start_time now) mod main.uint64_max))
          1000000%float in
      let msg2 :=
        snprintf_256 (lit "Record fetched successfully (duration: "
                        ++ printf_2f duration_ms ++ lit "ms)") in
      let '(line2, log2) :=
        log_otlp (g_service_name t) (second_log_time now) log1
          otlp_log_exporter.LOG_SEVERITY_INFO (Some trace_id) (Some span_id)
          msg2 in
      let traces :=
        match g_trace_exporter t with
        | Some _ =>
            let span :=
              {| otlp_exporter.trace_id := Some trace_id;
                 otlp_exporter.span_id := Some span_id;
                 otlp_exporter.parent_span_id :=
                   match parent_span_id with
                   | [] => None
                   | _ :: _ => Some parent_span_id
                   end;
                 otlp_exporter.name := Some (lit "FetchLegacyData");
                 otlp_exporter.kind := otlp_exporter.SPAN_KIND_SERVER;
                 otlp_exporter.start_time_nanos := start_time now;
                 otlp_exporter.end_time_nanos := end_time now;
                 otlp_exporter.status_code := otlp_exporter.SPAN_STATUS_OK;
                 otlp_exporter.status_message := None;
                 otlp_exporter.attributes :=
                   Some [ {| otlp_exporter.key := lit "rpc.system";
                             otlp_exporter.string_value := lit "grpc" |};
                          {| otlp_exporter.key := lit "rpc.service";
                             otlp_exporter.string_value :=
                               lit "grpcarch.ServiceF" |};
                          {| otlp_exporter.key := lit "rpc.method";
                             otlp_exporter.string_value :=
                               lit "FetchLegacyData" |};
                          {| otlp_exporter.key := lit "db.table";
                             otlp_exporter.string_value := table_name |} ];
                 otlp_exporter.attribute_count := 4 |} in
            (otlp_exporter.otlp_export_span (g_trace_exporter t) (Some span)).2
        | None => None
        end in
      returned
        {| globals := {| metrics :=
                           main.record_request_metrics duration_ms (metrics t);
                         g_log_exporter := log2;
                         g_trace_exporter := traces;
                         g_service_name := g_service_name t;
                         rand_calls := calls3 |};
           printed := [line1; line2];
           delay_ms := delay |}
        queue'
  end.

End handler.

(** [record_request_metrics] for one request after the other. *)
Fixpoint record_requests (durations : list PrimFloat.float) (g : main.globals)
  : main.globals :=
  match durations with
  | [] => g
  | d :: rest => record_requests rest (main.record_request_metrics d g)
  end.

(** The tags of the registrations in what the server did. *)
Fixpoint registrations (did : list main.action) : list Z :=
  match did with
  | [] => []
  | main.grpc_server_request_call t :: rest => t :: registrations rest
  | _ :: rest => registrations rest
  end.

End main_telemetry.

(** ** More vocabulary *)

Module spec_more.

(** The length field of a binary datum is the number of its bytes. *)
Definition consistent (b : ProtobufCBinaryData) : Prop :=
  match data b with
  | Some bytes => length bytes = len b
  | None => len b = 0%nat
  end.

(** The pending batch of a log exporter holds [stored], in this order,
    in its first slots and NULL in all the others. *)
Definition log_holds (e : otlp_log_exporter.otlp_log_exporter_t)
    (stored : list otlp_log_exporter.otlp_log_record_t) : Prop :=
  otlp_log_exporter.pending_count e = length stored
  /\ otlp_log_exporter.pending_records e
     = (Some <$> stored)
         ++ replicate (otlp_log_exporter.MAX_BATCH_SIZE - length stored) None.

(** The line [log_otlp] prints at the level INFO. *)
Definition info_line (message trace_id span_id : cstring) : cstring :=
  lit "[INFO] " ++ message ++ lit " | trace_id=" ++ trace_id
    ++ lit " span_id=" ++ span_id ++ [main_telemetry.newline].

(** The two messages of the handler, cut to the 255 characters of
    [log_msg]. *)
Definition called_message (request : option main_telemetry.LegacyDataRequest)
  : cstring :=
  take 255
    (lit "FetchLegacyData called - record_id: "
       ++ default (lit "unknown") (request ≫= main_telemetry.record_id)
       ++ lit ", table: "
       ++ default (lit "unknown") (request ≫= main_telemetry.table_name)).

Definition fetched_message (duration : cstring) : cstring :=
  take 255 (lit "Record fetched successfully (duration: " ++ duration ++ lit "ms)").

(** The duration of a call in milliseconds, from the clock. *)
Definition duration_of (now : main_telemetry.clock) : PrimFloat.float :=
  PrimFloat.div
    (c_double.of_uint64
       ((main_telemetry.end_time now - main_telemetry.start_time now) mod 2 ^ 64))
    1000000%float.

(** The bytes of a binary datum rendered as lowercase hex. *)
Definition rendered (b : ProtobufCBinaryData) : option cstring :=
  bytes_to_hex <$> data b.

End spec_more.
Import spec_more.

Module sample_more.

(** An exporter with one span pending. *)
Definition one_pending : otlp_exporter.otlp_exporter_t :=
  {| otlp_exporter.endpoint := lit "http://otel-collector:4317";
     otlp_exporter.host := lit "otel-collector";
     otlp_exporter.port := lit "4317";
     otlp_exporter.service_name := lit "service-f";
     otlp_exporter.pending_spans :=
       Some (sample.span None) :: replicate 63 None;
     otlp_exporter.pending_count := 1;
     otlp_exporter.running := true |}.

(** A buffer of 40 bytes that holds no NUL. *)
Definition dirty_buffer : list ascii := replicate 40 "x"%char.

(** The globals of the handler when the exporters have just been
    created. *)
Definition fresh_telemetry : main_telemetry.telemetry :=
  {| main_telemetry.metrics := sample_metrics.at_start;
     main_telemetry.g_log_exporter := Some sample_log.exporter;
     main_telemetry.g_trace_exporter := Some sample.exporter;
     main_telemetry.g_service_name := lit "service-f";
     main_telemetry.rand_calls := 0 |}.

Definition a_clock : main_telemetry.clock :=
  {| main_telemetry.start_time := 1000000;
     main_telemetry.first_log_time := 1000100;
     main_telemetry.end_time := 6000000;
     main_telemetry.second_log_time := 6000100 |}.

(** A metadata array with a trace context. *)
Definition with_traceparent : list main.grpc_metadata :=
  [ {| main.md_key := lit "traceparent";
       main.md_value :=
         lit "00-0af7651916cd43dd8448eb211c80319c-b7ad6b7169203331-01" |} ].




(** A log record with 17 attributes. *)
Definition wide_record : otlp_log_exporter.otlp_log_record_t :=
  {| otlp_log_exporter.trace_id := None;
     otlp_log_exporter.span_id := None;
     otlp_log_exporter.severity := otlp_log_exporter.LOG_SEVERITY_INFO;
     otlp_log_exporter.body := Some (lit "row read");
     otlp_log_exporter.timestamp_nanos := 1000;
     otlp_log_exporter.attributes :=
       Some (replicate 17 {| otlp_log_exporter.key := lit "db.column";
                             otlp_log_exporter.string_value := lit "id" |});
     otlp_log_exporter.attribute_count := 17 |}.

(** What the queue yields while a response is sent: a time-out, then
    the completion of the batch, then something else. *)
Definition response_sent : list main.grpc_event :=
  [ {| main.ev_type := main.GRPC_QUEUE_TIMEOUT;
       main.success := false; main.tag := 0 |};
    batch_done 2;
    batch_done 9 ].

End sample_more.

(** ** Facts about the C library model *)

Lemma strncmp_eq_prefix (p e : cstring) :
  strncmp_eq e p (length p) = true <-> p `prefix_of` e.
Proof.
  revert e. induction p as [|y p IH]; intros e; simpl.
  - split; [intros _; apply prefix_nil | by destruct e].
  - destruct e as [|x e]; simpl.
    + split; [done | intros [k Hk]; discriminate].
    + destruct (Ascii.eqb_spec x y) as [->|Hne].
      * rewrite IH. split; [apply prefix_cons | apply prefix_cons_inv_2].
      * split; [done | intros H; apply prefix_cons_inv_1 in H; congruence].
Qed.

Lemma strcmp_eq_eq (a b : cstring) : strcmp_eq a b = true <-> a = b.
Proof.
  revert b. induction a as [|x a IH]; intros [|y b]; simpl; try done.
  destruct (Ascii.eqb_spec x y) as [->|Hne].
  - rewrite IH. split; [by intros -> | by intros [= ->]].
  - split; [done | by intros [= -> _]].
Qed.

Lemma strchr_None (s : cstring) (c : ascii) :
  strchr s c = None <-> ~ In c s.
Proof.
  induction s as [|x s IH]; simpl; [tauto|].
  destruct (Ascii.eqb_spec x c) as [->|Hne].
  - split; [done | intros H; exfalso; apply H; by left].
  - destruct (strchr s c) eqn:E; simpl.
    + split; [done|]. intros H.
      assert (Some n = None) as Habs; [|done].
      apply IH. intros Hin. apply H. by right.
    + split; [|done]. intros _ [->|Hin]; [done|]. by apply IH.
Qed.

Lemma strchr_Some (s : cstring) (c : ascii) (i : nat) :
  strchr s c = Some i ->
  s = take i s ++ c :: drop (S i) s /\ ~ In c (take i s).
Proof.
  revert i. induction s as [|x s IH]; intros i; simpl; [done|].
  destruct (Ascii.eqb_spec x c) as [->|Hne].
  - intros [= <-]. simpl. rewrite drop_0. split; [done | tauto].
  - destruct (strchr s c) as [j|] eqn:E; simpl; [|done].
    intros [= <-]. destruct (IH j eq_refl) as [Hs Hnot]. simpl.
    split; [by rewrite <- Hs|]. intros [->|Hin]; [done | by apply Hnot].
Qed.

(** ** The endpoint parser *)

Lemma metrics_parse_endpoint_same (endpoint : cstring) :
  otlp_metrics_exporter.parse_endpoint endpoint
  = otlp_exporter.parse_endpoint endpoint.
Proof. reflexivity. Qed.

Lemma strip_scheme_spec (endpoint : cstring) :
  without_scheme endpoint
    (if strncmp_eq endpoint (lit "http://") 7 then drop 7 endpoint
     else if strncmp_eq endpoint (lit "https://") 8 then drop 8 endpoint
     else endpoint).
Proof.
  unfold without_scheme.
  destruct (strncmp_eq endpoint (lit "http://") 7) eqn:E1.
  - left. apply (strncmp_eq_prefix (lit "http://")) in E1 as [k ->]. done.
  - destruct (strncmp_eq endpoint (lit "https://") 8) eqn:E2.
    + right; left. apply (strncmp_eq_prefix (lit "https://")) in E2 as [k ->]. done.
    + right; right. split; [done|]. split; intros Hp.
      * apply (strncmp_eq_prefix (lit "http://")) in Hp.
        change (length (lit "http://")) with 7%nat in Hp. congruence.
      * apply (strncmp_eq_prefix (lit "https://")) in Hp.
        change (length (lit "https://")) with 8%nat in Hp. congruence.
Qed.

Example parse_endpoint_collector :
  otlp_exporter.parse_endpoint (lit "http://otel-collector:4317")
  = (0, lit "otel-collector", lit "4317").
Proof. reflexivity. Qed.

Example parse_endpoint_default_port :
  otlp_exporter.parse_endpoint (lit "https://localhost")
  = (0, lit "localhost", lit "4317").
Proof. reflexivity. Qed.

(** C2, as amended: for every endpoint string the parser of the span
    exporter and the parser of the metrics exporter return 0 with the same
    host and port, where the endpoint is first stripped of a leading
    [http://] or [https://] and the remainder is cut at its FIRST colon:
    the host is the text before that colon (it holds no colon itself) and
    the port is all the text after it; a remainder without a colon is the
    host and the port is then [4317]. *)
Theorem parse_endpoint_first_colon (endpoint : cstring) :
  exists rest host port,
    otlp_exporter.parse_endpoint endpoint = (0, host, port)
    /\ otlp_metrics_exporter.parse_endpoint endpoint = (0, host, port)
    /\ without_scheme endpoint rest
    /\ cut_at_first_colon rest host port.
Proof.
  pose proof (strip_scheme_spec endpoint) as Hrest.
  unfold otlp_metrics_exporter.parse_endpoint, otlp_exporter.parse_endpoint.
  set (ptr := if strncmp_eq endpoint (lit "http://") 7 then _ else _) in *.
  clearbody ptr. exists ptr.
  destruct (strchr ptr ":") as [i|] eqn:E.
  - exists (take i ptr), (drop (S i) ptr).
    apply strchr_Some in E as [Hsplit Hfree].
    repeat split; [done|]. right. split; [exact Hsplit | exact Hfree].
  - exists ptr, (lit "4317"). apply strchr_None in E.
    repeat split; [done|]. left. done.
Qed.

(** C2, as stated, fails: on the endpoint [http://[::1]:4317] the exporter
    yields the host "[" and the port ":1]:4317", while the split on the
    last colon yields the host "[::1]" and the port "4317". *)
Lemma parse_endpoint_not_last_colon :
  otlp_exporter.parse_endpoint (lit "http://[::1]:4317")
    = (0, lit "[", lit ":1]:4317")
  /\ parse_endpoint_last_colon (lit "http://[::1]:4317")
    = (0, lit "[::1]", lit "4317")
  /\ otlp_exporter.parse_endpoint (lit "http://[::1]:4317")
     <> parse_endpoint_last_colon (lit "http://[::1]:4317").
Proof. repeat split. vm_compute. discriminate. Qed.

(** ** The hex codec *)

Lemma log_hex_to_bytes_same (hex : cstring) (bytes : list Z) (len : nat) :
  otlp_log_exporter.hex_to_bytes hex bytes len
  = otlp_exporter.hex_to_bytes hex bytes len.
Proof. reflexivity. Qed.

(** A lowercase hex digit is no white space and no sign, it has a value
    below 16, and that value is rendered as the digit itself. *)
Lemma lower_hex_digit (c : ascii) :
  lower_hex c ->
  isspace c = false /\ Ascii.eqb c "-" = false /\ Ascii.eqb c "+" = false
  /\ exists v, hex_digit_value c = Some v /\ 0 <= v < 16 /\ hex_char v = c.
Proof.
  unfold lower_hex. simpl.
  intros H. repeat (destruct H as [<-|H]; [repeat split; eexists;
    (split; [reflexivity|]); split;
    [vm_compute; split; [discriminate | reflexivity] | reflexivity] |]).
  destruct H.
Qed.

Lemma sscanf_2x_lower_hex (c d : ascii) (rest : cstring) :
  lower_hex c -> lower_hex d ->
  exists b, sscanf_2x (c :: d :: rest) = Some b
            /\ 0 <= b < 256
            /\ [hex_char (b / 16); hex_char (b mod 16)] = [c; d].
Proof.
  intros (Hsp & Hm & Hp & hi & Hhi & Hrhi & Hchi)%lower_hex_digit
         (_ & _ & _ & lo & Hlo & Hrlo & Hclo)%lower_hex_digit.
  exists (16 * hi + lo). unfold sscanf_2x. simpl. rewrite Hsp, Hm, Hp, Hhi, Hlo.
  split; [done|]. split; [lia|].
  replace ((16 * hi + lo) / 16) with hi by (apply Z.div_unique with lo; lia).
  replace ((16 * hi + lo) mod 16) with lo by (apply Z.mod_unique with hi; lia).
  by rewrite Hchi, Hclo.
Qed.

(** The loop of [hex_to_bytes] from index [i], on a buffer of [i + n]
    bytes and a string of [2 * (i + n)] lowercase hex digits: it succeeds,
    leaves the bytes before [i] alone and writes behind them the bytes
    whose rendering is the rest of the string. *)
Lemma hex_to_bytes_from_lower_hex (n i : nat) (hex : cstring) (bytes : list Z) :
  length bytes = (i + n)%nat ->
  length hex = (2 * (i + n))%nat ->
  Forall lower_hex hex ->
  exists out,
    otlp_exporter.hex_to_bytes_from hex bytes i n = (0, out)
    /\ length out = length bytes
    /\ take i out = take i bytes
    /\ bytes_to_hex (drop i out) = drop (2 * i) hex.
Proof.
  revert i bytes. induction n as [|n IH]; intros i bytes Hb Hh Hall; simpl.
  - exists bytes. repeat split; [done..|].
    rewrite !drop_ge by lia. done.
  - replace (i * 2)%nat with (2 * i)%nat by lia.
    destruct (drop (2 * i) hex) as [|c [|d rest]] eqn:Hd.
    { apply (f_equal length) in Hd. rewrite length_drop in Hd. simpl in Hd. lia. }
    { apply (f_equal length) in Hd. rewrite length_drop in Hd. simpl in Hd. lia. }
    assert (Forall lower_hex (c :: d :: rest)) as Hcd
      by (rewrite <- Hd; by apply Forall_drop).
    destruct (sscanf_2x_lower_hex c d rest) as (b & Hscan & Hrange & Hrender).
    { by inversion Hcd. }
    { inversion Hcd as [|? ? _ Hcd']. by inversion Hcd'. }
    rewrite Hscan. rewrite Z.mod_small by lia.
    destruct (IH (S i) (<[i := b]> bytes)) as (out & Hrun & Hlen & Htake & Hhex).
    { rewrite length_insert. lia. }
    { lia. }
    { done. }
    exists out. rewrite length_insert in Hlen.
    assert (out !! i = Some b) as Hi.
    { rewrite <- (lookup_take_lt out (S i) i), Htake by lia.
      rewrite lookup_take_lt by lia. apply list_lookup_insert_eq. lia. }
    split; [done|]. split; [done|]. split.
    + apply (f_equal (take i)) in Htake.
      rewrite !take_take in Htake. rewrite !Nat.min_l in Htake by lia.
      rewrite Htake. apply take_insert_ge. lia.
    + rewrite (drop_S out b i Hi).
      change (bytes_to_hex (b :: drop (S i) out))
        with ([hex_char (b / 16); hex_char (b mod 16)]
                ++ bytes_to_hex (drop (S i) out)).
      rewrite Hrender, Hhex.
      replace (2 * S i)%nat with (2 * i + 2)%nat by lia.
      rewrite <- drop_drop, Hd. done.
Qed.

Example hex_to_bytes_trace_id :
  otlp_exporter.hex_to_bytes (lit "0af7651916cd43dd8448eb211c80319c")
    (replicate 16 255) 16
  = (0, [10; 247; 101; 25; 22; 205; 67; 221; 132; 72; 235; 33; 28; 128; 49; 156]).
Proof. reflexivity. Qed.

(** A string that is not hexadecimal stops the conversion with -1 and
    leaves the rest of the buffer as it was. *)
Example hex_to_bytes_not_hex :
  otlp_exporter.hex_to_bytes (lit "0azz") [255; 255] 2 = (-1, [10; 255]).
Proof. reflexivity. Qed.

(** C4: for every string of 32 lowercase hexadecimal digits, [hex_to_bytes]
    with length 16 succeeds (returns 0) whatever the 16-byte buffer held,
    and the 16 bytes it leaves there, rendered back as lowercase
    hexadecimal text, are the string it was given. *)
Theorem hex_round_trip (hex : cstring) (buf : list Z) :
  length hex = 32%nat ->
  Forall lower_hex hex ->
  length buf = 16%nat ->
  exists bytes,
    otlp_exporter.hex_to_bytes hex buf 16 = (0, bytes)
    /\ length bytes = 16%nat
    /\ bytes_to_hex bytes = hex.
Proof.
  intros Hlen Hall Hbuf.
  destruct (hex_to_bytes_from_lower_hex 16 0 hex buf)
    as (out & Hrun & Hout & _ & Hhex); [done..|].
  exists out. split; [exact Hrun|]. split; [congruence|].
  by rewrite drop_0 in Hhex.
Qed.

Lemma hex_round_trip_witness :
  exists bytes,
    otlp_exporter.hex_to_bytes (lit "0af7651916cd43dd8448eb211c80319c")
      (replicate 16 255) 16 = (0, bytes)
    /\ length bytes = 16%nat
    /\ bytes_to_hex bytes = lit "0af7651916cd43dd8448eb211c80319c".
Proof.
  apply hex_round_trip.
  - reflexivity.
  - repeat (constructor; [unfold lower_hex; simpl; tauto|]). constructor.
  - reflexivity.
Defined.

(** ** Trace context *)

Lemma c_str_nonzero (buf : buffer) : Forall (fun c => nonzero c = true) (c_str buf).
Proof.
  induction buf as [|c buf IH]; simpl; [constructor|].
  destruct (nonzero c) eqn:E; by constructor.
Qed.

Lemma c_str_terminated (s : cstring) (rest : buffer) :
  Forall (fun c => nonzero c = true) s -> c_str (s ++ NUL :: rest) = s.
Proof.
  induction 1 as [|c s Hc _ IH]; simpl; [done|]. by rewrite Hc, IH.
Qed.

Lemma traceparent_of_Some (md : main.grpc_metadata) (value : cstring) :
  traceparent_of md = Some value <->
  strcmp_eq (main.grpc_slice_to_c_string (main.md_key md)) (lit "traceparent") = true
  /\ value = main.grpc_slice_to_c_string (main.md_value md)
  /\ (55 <= length value)%nat.
Proof.
  unfold traceparent_of, strlen.
  set (value' := main.grpc_slice_to_c_string (main.md_value md)).
  clearbody value'. destruct (strcmp_eq _ _); cbn [andb].
  - destruct (Nat.leb_spec 55 (length value')) as [Hle|Hlt].
    + split.
      * intros [= Heq]. subst value. done.
      * intros (_ & Heq & _). by subst value.
    + split; [done|]. intros (_ & Heq & Hle). subst value. lia.
  - split; [done|]. intros (Habs & _). discriminate.
Qed.

Lemma scan_entry_spec (bufs : buffer * buffer) (md : main.grpc_metadata) :
  main.scan_entry bufs md =
  match traceparent_of md with
  | Some value =>
      (<[32%nat := NUL]> (strncpy bufs.1 (drop 3 value) 32),
       <[16%nat := NUL]> (strncpy bufs.2 (drop 36 value) 16))
  | None => bufs
  end.
Proof.
  unfold main.scan_entry, traceparent_of.
  destruct (strcmp_eq _ _); cbn [andb]; [|done].
  by destruct (Nat.leb _ _).
Qed.

(** Copying [n] characters of a long enough string into a longer buffer
    and terminating them: the buffer then starts with these characters
    and a NUL. *)
Lemma strncpy_terminated (dst : buffer) (src : cstring) (n : nat) :
  (n <= length src)%nat -> (n < length dst)%nat ->
  exists rest, <[n := NUL]> (strncpy dst src n) = take n src ++ NUL :: rest
               /\ length rest = (length dst - S n)%nat.
Proof.
  intros Hsrc Hdst. unfold strncpy.
  rewrite take_app_le by done.
  destruct (drop n dst) as [|x rest] eqn:Hd.
  { apply (f_equal length) in Hd. rewrite length_drop in Hd. simpl in Hd. lia. }
  exists rest. split.
  - rewrite insert_app_r_alt by (rewrite length_take; lia).
    rewrite length_take, Nat.min_l, Nat.sub_diag by lia. done.
  - apply (f_equal length) in Hd. rewrite length_drop in Hd. simpl in Hd. lia.
Qed.

Lemma scan_metadata (metadata : list main.grpc_metadata) :
  scanned (foldl main.scan_entry (replicate 64 NUL, replicate 32 NUL) metadata)
          (last (omap traceparent_of metadata)).
Proof.
  induction metadata as [|md metadata IH] using rev_ind.
  - repeat split.
  - rewrite foldl_app, omap_app. cbn [foldl omap list_omap].
    rewrite scan_entry_spec.
    set (bufs := foldl main.scan_entry _ metadata) in *.
    destruct (traceparent_of md) as [value|] eqn:E.
    + rewrite last_snoc. apply traceparent_of_Some in E as (_ & _ & Hlen).
      destruct IH as (H1 & H2 & _). clearbody bufs.
      destruct (strncpy_terminated bufs.1 (drop 3 value) 32)
        as (r1 & Hr1 & Hl1); [rewrite length_drop; lia | lia |].
      destruct (strncpy_terminated bufs.2 (drop 36 value) 16)
        as (r2 & Hr2 & Hl2); [rewrite length_drop; lia | lia |].
      rewrite Hr1, Hr2. unfold scanned. cbn [fst snd].
      rewrite !length_app, !length_take, !length_drop. cbn [length].
      repeat split; [lia | lia | by exists r1 | by exists r2].
    + by rewrite app_nil_r.
Qed.

Lemma hex_digit_at (k : nat) :
  (k < 16)%nat ->
  exists c, main.hex !! k = Some c /\ lower_hex c /\ nonzero c = true.
Proof.
  intros Hk.
  do 16 (destruct k as [|k];
         [eexists; split; [reflexivity|]; split;
            [unfold lower_hex; simpl; tauto | reflexivity] |]).
  lia.
Qed.

Lemma random_hex_S (rand : rand_stream) (calls n : nat) :
  random_hex rand calls (S n)
  = default NUL (main.hex !! (rand calls mod 16)%nat) :: random_hex rand (S calls) n.
Proof.
  unfold random_hex. cbn [seq fmap list_fmap]. rewrite Nat.add_0_r. f_equal.
  rewrite <- fmap_S_seq, <- list_fmap_compose.
  apply list_fmap_ext. intros _ k _. simpl. by rewrite Nat.add_succ_r.
Qed.

Lemma random_hex_digits (rand : rand_stream) (calls n : nat) :
  length (random_hex rand calls n) = n
  /\ Forall lower_hex (random_hex rand calls n)
  /\ Forall (fun c => nonzero c = true) (random_hex rand calls n).
Proof.
  split; [unfold random_hex; by rewrite length_fmap, length_seq|].
  revert calls. induction n as [|n IH]; intros calls.
  - split; constructor.
  - rewrite random_hex_S.
    destruct (hex_digit_at (rand calls mod 16)) as (c & -> & Hc & Hnz).
    { apply Nat.mod_upper_bound. lia. }
    destruct (IH (S calls)). split; by constructor.
Qed.

(** The loop of [generate_trace_id]: [n] slots from [i] are overwritten
    with random hex digits and [rand] has been called [n] more times. *)
Lemma fill_random_spec (rand : rand_stream) (n calls i : nat) (out : buffer) :
  (i + n <= length out)%nat ->
  main.fill_random rand calls out i n
  = (take i out ++ random_hex rand calls n ++ drop (i + n) out, (calls + n)%nat).
Proof.
  revert calls i out. induction n as [|n IH]; intros calls i out Hlen.
  - cbn [main.fill_random]. rewrite !Nat.add_0_r. cbn [random_hex seq fmap list_fmap app].
    by rewrite take_drop.
  - cbn [main.fill_random]. rewrite IH by (rewrite length_insert; lia).
    rewrite random_hex_S.
    rewrite (take_S_r _ i (default NUL (main.hex !! (rand calls mod 16)%nat)))
      by (apply list_lookup_insert_eq; lia).
    rewrite take_insert_ge by lia.
    rewrite drop_insert_lt by lia.
    rewrite <- app_assoc. cbn [app].
    replace (S i + n)%nat with (i + S n)%nat by lia.
    replace (S calls + n)%nat with (calls + S n)%nat by lia. done.
Qed.

(** C5: the trace context the handler works with, for every metadata list
    and every state of the random generator. When the list holds a
    [traceparent] entry whose value has at least 55 characters (the last
    such entry, should there be several), the trace ID is the 32
    characters of that value from offset 3 and the parent span ID is the
    16 characters from offset 36, whatever these characters are; [rand] is
    not called. When the list holds no such entry (no [traceparent] key,
    or only values shorter than 55 characters), the trace ID is made of 32
    fresh characters [hex[rand() % 16]], all of them lowercase hex digits,
    and the parent span ID is empty. The function is total: there is no
    failing case. *)
Theorem extract_trace_context_result (rand : rand_stream) (calls : nat)
    (metadata : list main.grpc_metadata) :
  match last (omap traceparent_of metadata) with
  | Some value =>
      (exists md, In md metadata /\ traceparent_of md = Some value)
      /\ (55 <= length value)%nat
      /\ main.handler_trace_context rand calls metadata
         = (take 32 (drop 3 value), take 16 (drop 36 value), calls)
      /\ length (take 32 (drop 3 value)) = 32%nat
      /\ length (take 16 (drop 36 value)) = 16%nat
  | None =>
      omap traceparent_of metadata = []
      /\ main.handler_trace_context rand calls metadata
         = (random_hex rand calls 32, [], (calls + 32)%nat)
      /\ length (random_hex rand calls 32) = 32%nat
      /\ Forall lower_hex (random_hex rand calls 32)
  end.
Proof.
  pose proof (scan_metadata metadata) as Hscan.
  unfold main.handler_trace_context, main.extract_trace_context.
  change (<[0%nat := NUL]> (replicate 64 NUL)) with (replicate 64 NUL).
  change (<[0%nat := NUL]> (replicate 32 NUL)) with (replicate 32 NUL).
  destruct (foldl main.scan_entry _ metadata) as [t p].
  destruct (last (omap traceparent_of metadata)) as [value|] eqn:Hlast.
  - destruct Hscan as (_ & _ & [r1 Ht] & [r2 Hp]). cbn [fst snd] in *.
    apply last_Some_elem_of in Hlast.
    apply list_elem_of_omap in Hlast as (md & Hin & Hmd).
    split; [exists md; split; [by apply list_elem_of_In | exact Hmd]|].
    apply traceparent_of_Some in Hmd as (_ & Hvalue & Hlen).
    assert (Forall (fun c => nonzero c = true) value) as Hnz
      by (rewrite Hvalue; apply c_str_nonzero).
    assert (length (take 32 (drop 3 value)) = 32%nat) as Hl1
      by (rewrite length_take, length_drop; lia).
    assert (length (take 16 (drop 36 value)) = 16%nat) as Hl2
      by (rewrite length_take, length_drop; lia).
    assert (Forall (fun c => nonzero c = true) (take 32 (drop 3 value))) as Hn1
      by (by apply Forall_take, Forall_drop).
    assert (Forall (fun c => nonzero c = true) (take 16 (drop 36 value))) as Hn2
      by (by apply Forall_take, Forall_drop).
    split; [done|]. split; [|done].
    subst t p. destruct Hn1 as [|c a Hc Ha]; [discriminate|].
    cbn [app]. rewrite Hc.
    change (c :: a ++ NUL :: r1) with ((c :: a) ++ NUL :: r1).
    rewrite !c_str_terminated by (done || by constructor). done.
  - destruct Hscan as (_ & _ & [= -> ->]).
    split; [by apply last_None|].
    destruct (random_hex_digits rand calls 32) as (Hlen & Hhex & Hnz).
    split; [|done].
    change (nonzero NUL) with false. cbn match.
    unfold main.generate_trace_id.
    change (Nat.min (64 - 1) 32) with 32%nat.
    rewrite fill_random_spec by (cbn [length]; lia).
    cbn [take app drop Nat.add Nat.sub].
    rewrite insert_app_r_alt by (rewrite Hlen; lia).
    rewrite Hlen. cbn [Nat.sub insert list_insert].
    rewrite c_str_terminated by done. done.
Qed.

(** ** The block [attr_values] *)

Lemma store_spec (n : nat) (block : list (option (nat * nat))) (i j : nat) :
  (i * 16 + j + n <= length block)%nat ->
  exists block',
    attr_values.store block i j n = Some block'
    /\ length block' = length block
    /\ (forall k, (k < i * 16 + j \/ i * 16 + j + n <= k)%nat ->
                  block' !! k = block !! k)
    /\ (forall j', (j <= j' < j + n)%nat ->
                   block' !! (i * 16 + j')%nat = Some (Some (i, j'))).
Proof.
  revert block j. induction n as [|n IH]; intros block j Hroom.
  - exists block. split; [done|]. split; [done|]. split; [done|].
    intros j' Hj'. lia.
  - cbn [attr_values.store].
    destruct (Nat.ltb_spec (i * 16 + j) (length block)) as [Hlt|Hge]; [|lia].
    destruct (IH (<[(i * 16 + j)%nat := Some (i, j)]> block) (S j))
      as (block' & Hrun & Hlen & Hout & Hin);
      [rewrite length_insert; lia|].
    exists block'. split; [exact Hrun|].
    split; [by rewrite Hlen, length_insert|]. split.
    + intros k Hk. rewrite Hout by lia.
      apply list_lookup_insert_ne. lia.
    + intros j' Hj'. destruct (decide (j' = j)) as [->|Hne].
      * rewrite Hout by lia. by apply list_lookup_insert_eq.
      * apply Hin. lia.
Qed.

Lemma store_all_spec (counts : list nat) (block : list (option (nat * nat)))
    (i : nat) :
  Forall (fun n => n <= 16)%nat counts ->
  ((i + length counts) * 16 <= length block)%nat ->
  exists block',
    attr_values.store_all block i counts = Some block'
    /\ length block' = length block
    /\ (forall k, (k < i * 16)%nat -> block' !! k = block !! k)
    /\ (forall d n j, counts !! d = Some n -> (j < n)%nat ->
                      block' !! ((i + d) * 16 + j)%nat = Some (Some ((i + d)%nat, j))).
Proof.
  intros Hfit. revert block i.
  induction Hfit as [|n counts Hn _ IH]; intros block i Hroom.
  - exists block. split; [done|]. split; [done|]. split; [done|].
    intros d n j Hd. done.
  - cbn [length] in Hroom. cbn [attr_values.store_all].
    destruct (store_spec n block i 0) as (block1 & Hrun1 & Hlen1 & Hout1 & Hin1);
      [lia|].
    rewrite Hrun1. cbn [mbind option_bind].
    destruct (IH block1 (S i)) as (block' & Hrun & Hlen & Hout & Hin); [lia|].
    exists block'. split; [exact Hrun|]. split; [congruence|]. split.
    + intros k Hk. rewrite Hout by lia. apply Hout1. lia.
    + intros d m j Hd Hj. destruct d as [|d].
      * cbn in Hd. injection Hd as ->. rewrite Nat.add_0_r.
        rewrite Hout by lia. apply Hin1. lia.
      * cbn in Hd. replace (i + S d)%nat with (S i + d)%nat by lia.
        exact (Hin d m j Hd Hj).
Qed.

Lemma release_spec (n : nat) (block : list (option (nat * nat)))
    (freed : list (nat * nat)) (i j : nat) :
  (forall j', (j <= j' < j + n)%nat ->
              block !! (i * 16 + j')%nat = Some (Some (i, j'))) ->
  (forall p, p ∈ freed -> (p.1 < i \/ (p.1 = i /\ p.2 < j))%nat) ->
  exists freed',
    attr_values.release block freed i j n = Some freed'
    /\ (forall p, p ∈ freed' -> (p.1 <= i)%nat).
Proof.
  revert freed j. induction n as [|n IH]; intros freed j Hblock Hfreed.
  - exists freed. split; [done|]. intros p Hp. destruct (Hfreed p Hp); lia.
  - cbn [attr_values.release]. rewrite Hblock by lia.
    rewrite bool_decide_eq_false_2.
    + apply IH.
      * intros j' Hj'. apply Hblock. lia.
      * intros p [->|Hp]%elem_of_cons; [simpl; lia|].
        destruct (Hfreed p Hp); lia.
    + intros Hin. destruct (Hfreed _ Hin) as [H|H]; simpl in H; lia.
Qed.

Lemma release_all_spec (counts : list nat) (block : list (option (nat * nat)))
    (freed : list (nat * nat)) (i : nat) :
  (forall d n j, counts !! d = Some n -> (j < n)%nat ->
                 block !! ((i + d) * 16 + j)%nat = Some (Some ((i + d)%nat, j))) ->
  (forall p, p ∈ freed -> (p.1 < i)%nat) ->
  is_Some (attr_values.release_all block freed i counts).
Proof.
  revert freed i. induction counts as [|n counts IH]; intros freed i Hblock Hfreed.
  - by eexists.
  - cbn [attr_values.release_all].
    destruct (release_spec n block freed i 0) as (freed1 & Hrun1 & Hfreed1).
    + intros j' Hj'. specialize (Hblock 0%nat n j' eq_refl).
      rewrite Nat.add_0_r in Hblock. apply Hblock. lia.
    + intros p Hp. left. by apply Hfreed.
    + rewrite Hrun1. cbn [mbind option_bind]. apply IH.
      * intros d m j Hd Hj. replace (S i + d)%nat with (i + S d)%nat by lia.
        exact (Hblock (S d) m j Hd Hj).
      * intros p Hp. specialize (Hfreed1 p Hp). lia.
Qed.

(** With at most 16 attributes per item no write leaves the block and
    no pointer is freed twice. *)
Lemma lifetime_spec (count : nat) (counts : list nat) :
  Forall (fun n => n <= 16)%nat counts ->
  (length counts <= count)%nat ->
  attr_values.lifetime count counts = Some tt.
Proof.
  intros Hfit Hcount. unfold attr_values.lifetime.
  destruct (store_all_spec counts (replicate (count * 16) None) 0 Hfit)
    as (block & Hrun & _ & _ & Hin); [rewrite length_replicate; lia|].
  rewrite Hrun. cbn [mbind option_bind].
  destruct (release_all_spec counts block [] 0) as [freed ->]; [exact Hin| |done].
  intros p Hp. by apply elem_of_nil in Hp.
Qed.

(** ** The pending batch of the span exporter *)

Lemma export_span_stores (e : otlp_exporter.otlp_exporter_t)
    (stored : list otlp_exporter.otlp_span_t) (s : otlp_exporter.otlp_span_t) :
  holds e stored ->
  (length stored < otlp_exporter.MAX_BATCH_SIZE)%nat ->
  exists e',
    otlp_exporter.otlp_export_span (Some e) (Some s) = (0, Some e')
    /\ holds e' (stored ++ [otlp_exporter.copy_span s])
    /\ otlp_exporter.service_name e' = otlp_exporter.service_name e.
Proof.
  intros [Hcount Hslots] Hroom. unfold otlp_exporter.otlp_export_span.
  rewrite Hcount. destruct (Nat.leb_spec otlp_exporter.MAX_BATCH_SIZE (length stored)); [lia|].
  eexists. split; [reflexivity|]. split; [|reflexivity].
  split; cbn [otlp_exporter.pending_count otlp_exporter.pending_spans].
  - rewrite length_app. simpl. lia.
  - rewrite Hslots, length_app, fmap_app. cbn [length fmap list_fmap].
    rewrite insert_app_r_alt by (rewrite length_fmap; lia).
    rewrite length_fmap, Nat.sub_diag.
    destruct (otlp_exporter.MAX_BATCH_SIZE - length stored)%nat as [|k] eqn:Hk; [lia|].
    replace (otlp_exporter.MAX_BATCH_SIZE - (length stored + 1))%nat with k by lia.
    cbn [replicate insert list_insert]. by rewrite <- app_assoc.
Qed.

Lemma export_span_full (e : otlp_exporter.otlp_exporter_t)
    (span : option otlp_exporter.otlp_span_t) :
  (otlp_exporter.MAX_BATCH_SIZE <= otlp_exporter.pending_count e)%nat ->
  otlp_exporter.otlp_export_span (Some e) span = (-1, Some e).
Proof.
  intros Hfull. unfold otlp_exporter.otlp_export_span.
  destruct span; [|done].
  by destruct (Nat.leb_spec otlp_exporter.MAX_BATCH_SIZE (otlp_exporter.pending_count e)); [|lia].
Qed.


(** The loop that moves the batch out empties the slots it visits. *)
Lemma clear_from_spec (n i : nat) (l : list (option otlp_exporter.otlp_span_t)) :
  (n <= length l)%nat ->
  otlp_exporter.clear_from (replicate i None ++ l) i n
  = replicate (i + n) None ++ drop n l.
Proof.
  revert i l. induction n as [|n IH]; intros i l Hn.
  - by rewrite Nat.add_0_r.
  - destruct l as [|x l]; [simpl in Hn; lia|].
    cbn [otlp_exporter.clear_from].
    rewrite insert_app_r_alt by (rewrite length_replicate; lia).
    rewrite length_replicate, Nat.sub_diag. cbn [insert list_insert].
    replace (replicate i None ++ None :: l)
      with (replicate (S i) (@None otlp_exporter.otlp_span_t) ++ l).
    + rewrite IH by (simpl in Hn; lia).
      by replace (S i + n)%nat with (i + S n)%nat by lia.
    + rewrite replicate_S_end, <- app_assoc. done.
Qed.

Lemma take_batch_spec (e : otlp_exporter.otlp_exporter_t)
    (stored : list otlp_exporter.otlp_span_t) :
  holds e stored ->
  (length stored <= otlp_exporter.MAX_BATCH_SIZE)%nat ->
  otlp_exporter.batch (otlp_exporter.take_batch e) = Some <$> stored
  /\ holds (otlp_exporter.after (otlp_exporter.take_batch e)) [].
Proof.
  intros [Hcount Hslots] Hle. unfold otlp_exporter.take_batch.
  cbn [otlp_exporter.batch otlp_exporter.after]. rewrite Hcount, Hslots. split.
  - rewrite take_app_length'; [done | by rewrite length_fmap].
  - split; [done|]. cbn [otlp_exporter.pending_spans].
    pose proof (clear_from_spec (length stored) 0
                  ((Some <$> stored) ++
                   replicate (otlp_exporter.MAX_BATCH_SIZE - length stored) None)) as H.
    cbn [replicate app] in H. rewrite H by (rewrite length_app, length_fmap; lia).
    rewrite drop_app_length' by (by rewrite length_fmap).
    cbn [length fmap list_fmap app Nat.add Nat.sub].
    rewrite <- replicate_add. f_equal. lia.
Qed.

Lemma do_export_spec (fill : nat -> Z) (e : otlp_exporter.otlp_exporter_t)
    (stored : list otlp_exporter.otlp_span_t) :
  Forall fits stored ->
  otlp_exporter.do_export fill e (Some <$> stored) (length stored)
  = Some (0,
          match stored with
          | [] => None
          | _ :: _ =>
              Some {| otlp_exporter.resource_attributes :=
                        [{| kv_key := lit "service.name";
                            kv_string_value := otlp_exporter.service_name e |}];
                      otlp_exporter.scope_name := lit "service-f-c";
                      otlp_exporter.scope_version := lit "1.0.0";
                      otlp_exporter.spans := otlp_exporter.convert_span fill <$> stored |}
          end).
Proof.
  intros Hfit. unfold otlp_exporter.do_export.
  destruct stored as [|s stored]; [done|].
  cbn [length Nat.eqb].
  rewrite take_ge by (rewrite length_fmap; simpl; lia).
  rewrite (mapM_fmap_Some id Some) by done. cbn [mbind option_bind].
  rewrite lifetime_spec; [done| |by rewrite length_fmap].
  by apply Forall_fmap.
Qed.

(** The copy has the attributes of the span it was made from. *)
Lemma copy_span_n_attributes (s : otlp_exporter.otlp_span_t) :
  otlp_exporter.n_attributes (otlp_exporter.copy_span s)
  = otlp_exporter.n_attributes s.
Proof.
  destruct s as [tid sid pid nm k st en sc sm [a|] [|n]]; reflexivity.
Qed.

Lemma copy_span_fits (items : list otlp_exporter.otlp_span_t) :
  Forall fits items -> Forall fits (otlp_exporter.copy_span <$> items).
Proof.
  intros Hfit. apply Forall_fmap. eapply Forall_impl; [exact Hfit|].
  intros s Hs. unfold fits, compose. by rewrite copy_span_n_attributes.
Qed.






(** The sample exporter is the one [otlp_exporter_create] returns, and
    the sample span is a plain one, with an attribute that fits. *)
Example sample_exporter_created :
  otlp_exporter.otlp_exporter_create (lit "http://otel-collector:4317")
    (lit "service-f") true = Some sample.exporter
  /\ plain (sample.span None)
  /\ fits (sample.span None).
Proof.
  split; [reflexivity|]. split.
  - repeat split; try by eexists.
  - unfold fits. vm_compute. lia.
Qed.

(** ** Absent identifiers on the wire *)

Lemma long_enough_false (id : option cstring) (n : nat) :
  absent_or_short id n -> otlp_exporter.long_enough id n = false.
Proof.
  destruct id as [s|]; simpl; [|done].
  intros Hs. apply Nat.leb_gt. exact Hs.
Qed.

Lemma log_do_export_spec (fill : nat -> Z)
    (e : otlp_log_exporter.otlp_log_exporter_t)
    (records : list otlp_log_exporter.otlp_log_record_t) :
  records <> [] ->
  Forall log_fits records ->
  exists req,
    otlp_log_exporter.do_export fill e (Some <$> records) (length records)
    = Some (0, Some req)
    /\ otlp_log_exporter.resource_attributes req
       = [{| kv_key := lit "service.name";
             kv_string_value := otlp_log_exporter.service_name e |}]
    /\ otlp_log_exporter.log_records req
       = otlp_log_exporter.convert_record fill <$> records.
Proof.
  intros Hne Hfit. unfold otlp_log_exporter.do_export.
  destruct records as [|r records]; [done|]. cbn [length Nat.eqb].
  rewrite take_ge by (rewrite length_fmap; simpl; lia).
  rewrite (mapM_fmap_Some id Some) by done. cbn [mbind option_bind].
  rewrite lifetime_spec;
    [|by apply Forall_fmap | by rewrite length_fmap].
  eexists. split; [reflexivity|]. split; reflexivity.
Qed.

(** C7: the wire record that [do_export] of the log exporter builds from
    a log record whose [trace_id] is NULL or shorter than 32 characters
    has a [trace_id] of length 0 (with no data), and likewise its
    [span_id] when the record's [span_id] is NULL or shorter than 16
    characters; the wire span that [do_export] of the span exporter
    builds from a span whose [parent_span_id] is NULL or shorter than 16
    characters has a [parent_span_id] of length 0. These wire records
    and wire spans, in the order of the batch, are what the request
    holds that [do_export] assembles from a batch whose items have at
    most 16 attributes each. *)
Theorem absent_identifiers_zero_length (fill : nat -> Z) :
  (forall record,
      (absent_or_short (otlp_log_exporter.trace_id record) 32 ->
       otlp_log_exporter.LogRecord_trace_id
         (otlp_log_exporter.convert_record fill record)
       = {| len := 0; data := None |})
      /\ (absent_or_short (otlp_log_exporter.span_id record) 16 ->
          otlp_log_exporter.LogRecord_span_id
            (otlp_log_exporter.convert_record fill record)
          = {| len := 0; data := None |}))
  /\ (forall span,
         absent_or_short (otlp_exporter.parent_span_id span) 16 ->
         otlp_exporter.Span_parent_span_id (otlp_exporter.convert_span fill span)
         = {| len := 0; data := None |})
  /\ (forall le records,
         records <> [] ->
         Forall log_fits records ->
         exists req,
           otlp_log_exporter.do_export fill le (Some <$> records) (length records)
           = Some (0, Some req)
           /\ otlp_log_exporter.log_records req
              = otlp_log_exporter.convert_record fill <$> records)
  /\ (forall se spans,
         spans <> [] ->
         Forall fits spans ->
         exists req,
           otlp_exporter.do_export fill se (Some <$> spans) (length spans)
           = Some (0, Some req)
           /\ otlp_exporter.spans req
              = otlp_exporter.convert_span fill <$> spans).
Proof.
  split; [|split; [|split]].
  - intros record. unfold otlp_log_exporter.convert_record; simpl.
    change otlp_log_exporter.long_enough with otlp_exporter.long_enough.
    split; intros Hshort; by rewrite (long_enough_false _ _ Hshort).
  - intros span Hshort. unfold otlp_exporter.convert_span; simpl.
    by rewrite (long_enough_false _ _ Hshort).
  - intros le records Hne Hfit.
    destruct (log_do_export_spec fill le records Hne Hfit) as (req & Hrun & _ & Hreq).
    by exists req.
  - intros se spans Hne Hfit. rewrite do_export_spec by done.
    destruct spans as [|s spans]; [done|].
    eexists. split; reflexivity.
Qed.

Lemma absent_identifiers_zero_length_witness :
  otlp_log_exporter.LogRecord_trace_id
    (otlp_log_exporter.convert_record (fun _ => 0)
       (sample_log.record None (Some (lit "b7ad"))))
  = {| len := 0; data := None |}
  /\ otlp_log_exporter.LogRecord_span_id
       (otlp_log_exporter.convert_record (fun _ => 0)
          (sample_log.record None (Some (lit "b7ad"))))
     = {| len := 0; data := None |}
  /\ otlp_exporter.Span_parent_span_id
       (otlp_exporter.convert_span (fun _ => 0) (sample.span None))
     = {| len := 0; data := None |}
  /\ (exists req,
         otlp_log_exporter.do_export (fun _ => 0) sample_log.exporter
           (Some <$> [sample_log.record None (Some (lit "b7ad"))]) 1
         = Some (0, Some req)
         /\ otlp_log_exporter.log_records req
            = otlp_log_exporter.convert_record (fun _ => 0)
                <$> [sample_log.record None (Some (lit "b7ad"))])
  /\ (exists req,
         otlp_exporter.do_export (fun _ => 0) sample.exporter
           (Some <$> [sample.span None]) 1
         = Some (0, Some req)
         /\ otlp_exporter.spans req
            = otlp_exporter.convert_span (fun _ => 0) <$> [sample.span None]).
Proof.
  destruct (absent_identifiers_zero_length (fun _ => 0))
    as (Hrecord & Hspan & Hlogs & Hspans).
  destruct (Hrecord (sample_log.record None (Some (lit "b7ad")))) as [Htid Hsid].
  split; [apply Htid; exact I|].
  split; [apply Hsid; simpl; lia|].
  split; [apply Hspan; exact I|].
  split.
  - apply (Hlogs sample_log.exporter [sample_log.record None (Some (lit "b7ad"))]);
      [discriminate|].
    constructor; [unfold log_fits; vm_compute; lia | constructor].
  - apply (Hspans sample.exporter [sample.span None]); [discriminate|].
    constructor; [unfold fits; vm_compute; lia | constructor].
Defined.

(** ** NULL arguments *)

(** C10: [otlp_export_span] and [otlp_export_log] return -1 and leave
    the exporter (hence its pending batch) as it is when the exporter or
    the item is NULL; [otlp_export_metrics] returns -1, without building
    a request, when the exporter is NULL, the metrics array is NULL or
    the count is 0. *)
Theorem null_arguments_rejected :
  (forall span, otlp_exporter.otlp_export_span None span = (-1, None))
  /\ (forall e, otlp_exporter.otlp_export_span (Some e) None = (-1, Some e))
  /\ (forall record, otlp_log_exporter.otlp_export_log None record = (-1, None))
  /\ (forall e, otlp_log_exporter.otlp_export_log (Some e) None = (-1, Some e))
  /\ (forall outcome metrics count,
         otlp_metrics_exporter.otlp_export_metrics outcome None metrics count
         = Some (-1, None))
  /\ (forall outcome e count,
         otlp_metrics_exporter.otlp_export_metrics outcome e None count
         = Some (-1, None))
  /\ (forall outcome e metrics,
         otlp_metrics_exporter.otlp_export_metrics outcome e metrics 0
         = Some (-1, None)).
Proof.
  repeat split.
  - intros outcome [e|] count; reflexivity.
  - intros outcome [e|] [metrics|]; reflexivity.
Qed.

(** ** Histograms *)

Lemma convert_histogram_point_spec
    (dp : otlp_metrics_exporter.histogram_data_point_t)
    (counts bounds : list PrimFloat.float) (copied : list Z) :
  (0 < otlp_metrics_exporter.bucket_count dp)%nat ->
  otlp_metrics_exporter.bucket_counts dp = Some counts ->
  length counts = otlp_metrics_exporter.bucket_count dp ->
  otlp_metrics_exporter.explicit_bounds dp = Some bounds ->
  mapM c_double.to_uint64 counts = Some copied ->
  otlp_metrics_exporter.convert_histogram_point dp
  = Some {| otlp_metrics_exporter.h_time_unix_nano :=
              otlp_metrics_exporter.h_timestamp_nanos dp;
            otlp_metrics_exporter.h_count := otlp_metrics_exporter.count dp;
            otlp_metrics_exporter.h_sum := otlp_metrics_exporter.sum dp;
            otlp_metrics_exporter.has_sum := true;
            otlp_metrics_exporter.h_bucket_counts := copied;
            otlp_metrics_exporter.n_bucket_counts :=
              otlp_metrics_exporter.bucket_count dp;
            otlp_metrics_exporter.h_explicit_bounds := Some bounds;
            otlp_metrics_exporter.n_explicit_bounds :=
              (otlp_metrics_exporter.bucket_count dp - 1)%nat |}.
Proof.
  intros Hpos Hcounts Hlen Hbounds Hcopied.
  unfold otlp_metrics_exporter.convert_histogram_point.
  destruct (Nat.ltb_spec 0 (otlp_metrics_exporter.bucket_count dp)); [|lia].
  rewrite Hcounts, Hbounds. unfold otlp_metrics_exporter.read_array.
  rewrite <- Hlen, Nat.leb_refl, take_ge by done.
  cbn [mbind option_bind]. rewrite Hcopied. done.
Qed.

(** C8, as amended: for every histogram data point with [B > 0] bucket
    counts and a non-NULL array of explicit bounds, each count being a
    [double] whose conversion to [uint64_t] is defined, the encoded data
    point carries exactly [B] bucket counts, the k-th being the k-th
    provided count converted to [uint64_t] (truncated toward zero), and
    it carries the provided array of bounds itself with the length
    [B - 1]; nothing relates or checks counts and bounds. A histogram
    metric made of this data point is exported with it. *)
Theorem histogram_point_carried (outcome : otlp_metrics_exporter.export_outcome)
    (e : otlp_metrics_exporter.otlp_metrics_exporter_t)
    (m : otlp_metrics_exporter.otlp_metric_t)
    (dp : otlp_metrics_exporter.histogram_data_point_t)
    (counts bounds : list PrimFloat.float) (copied : list Z) :
  (0 < otlp_metrics_exporter.bucket_count dp)%nat ->
  otlp_metrics_exporter.bucket_counts dp = Some counts ->
  length counts = otlp_metrics_exporter.bucket_count dp ->
  otlp_metrics_exporter.explicit_bounds dp = Some bounds ->
  mapM c_double.to_uint64 counts = Some copied ->
  otlp_metrics_exporter.type m = otlp_metrics_exporter.METRIC_TYPE_HISTOGRAM ->
  otlp_metrics_exporter.histogram_points m = Some [dp] ->
  otlp_metrics_exporter.histogram_point_count m = 1%nat ->
  exists p req,
    otlp_metrics_exporter.convert_histogram_point dp = Some p
    /\ otlp_metrics_exporter.h_bucket_counts p = copied
    /\ length (otlp_metrics_exporter.h_bucket_counts p)
       = otlp_metrics_exporter.bucket_count dp
    /\ otlp_metrics_exporter.n_bucket_counts p
       = otlp_metrics_exporter.bucket_count dp
    /\ Forall2 (fun d c => c_double.to_uint64 d = Some c)
               counts (otlp_metrics_exporter.h_bucket_counts p)
    /\ otlp_metrics_exporter.h_explicit_bounds p = Some bounds
    /\ otlp_metrics_exporter.n_explicit_bounds p
       = (otlp_metrics_exporter.bucket_count dp - 1)%nat
    /\ otlp_metrics_exporter.otlp_export_metrics outcome (Some e) (Some [m]) 1
       = Some (otlp_metrics_exporter.result_of outcome, Some req)
    /\ otlp_metrics_exporter.Metric_data
         <$> otlp_metrics_exporter.metrics req
       = [otlp_metrics_exporter.DATA_HISTOGRAM true [p]].
Proof.
  intros Hpos Hcounts Hlen Hbounds Hcopied Htype Hpoints Hn.
  pose proof (convert_histogram_point_spec dp counts bounds copied
                Hpos Hcounts Hlen Hbounds Hcopied) as Hp.
  assert (Forall2 (fun d c => c_double.to_uint64 d = Some c) counts copied) as Hall
    by (by apply mapM_Some).
  eexists. eexists. split; [exact Hp|].
  cbn [otlp_metrics_exporter.h_bucket_counts otlp_metrics_exporter.n_bucket_counts
       otlp_metrics_exporter.h_explicit_bounds otlp_metrics_exporter.n_explicit_bounds].
  split; [done|]. split; [by rewrite <- (Forall2_length _ _ _ Hall)|].
  split; [done|]. split; [done|]. split; [done|]. split; [done|].
  unfold otlp_metrics_exporter.otlp_export_metrics,
    otlp_metrics_exporter.convert_metric.
  cbn [Nat.eqb otlp_metrics_exporter.read_array length Nat.leb take mapM
       mbind option_bind mret option_ret].
  rewrite Htype, Hn, Hpoints.
  cbn [Nat.ltb Nat.leb otlp_metrics_exporter.read_array length take mapM
       mbind option_bind mret option_ret fmap option_fmap option_map].
  rewrite Hp.
  cbn [mbind option_bind mret option_ret fmap option_fmap option_map].
  assert (otlp_metrics_exporter.cleanup_list_fits 1 [m] = true) as ->.
  { apply Nat.leb_le. unfold otlp_metrics_exporter.metric_cleanup.
    cbn [fmap list_fmap]. rewrite Htype, Hn, Hpoints.
    unfold otlp_metrics_exporter.histogram_point_cleanup. simpl.
    destruct (Nat.ltb 0 (otlp_metrics_exporter.bucket_count dp));
      destruct (otlp_metrics_exporter.bucket_counts dp); lia. }
  split; reflexivity.
Qed.

Lemma histogram_point_carried_witness :
  exists p req,
    otlp_metrics_exporter.convert_histogram_point sample_metrics.whole_histogram
    = Some p
    /\ otlp_metrics_exporter.h_bucket_counts p = [1; 2; 3]
    /\ length (otlp_metrics_exporter.h_bucket_counts p)
       = otlp_metrics_exporter.bucket_count sample_metrics.whole_histogram
    /\ otlp_metrics_exporter.n_bucket_counts p
       = otlp_metrics_exporter.bucket_count sample_metrics.whole_histogram
    /\ Forall2 (fun d c => c_double.to_uint64 d = Some c)
               [1%float; 2%float; 3%float]
               (otlp_metrics_exporter.h_bucket_counts p)
    /\ otlp_metrics_exporter.h_explicit_bounds p = Some [10%float; 20%float]
    /\ otlp_metrics_exporter.n_explicit_bounds p
       = (otlp_metrics_exporter.bucket_count sample_metrics.whole_histogram - 1)%nat
    /\ otlp_metrics_exporter.otlp_export_metrics
         (otlp_metrics_exporter.completed true) (Some sample_metrics.exporter)
         (Some [sample_metrics.histogram_metric sample_metrics.whole_histogram]) 1
       = Some (otlp_metrics_exporter.result_of (otlp_metrics_exporter.completed true),
               Some req)
    /\ otlp_metrics_exporter.Metric_data
         <$> otlp_metrics_exporter.metrics req
       = [otlp_metrics_exporter.DATA_HISTOGRAM true [p]].
Proof.
  apply (histogram_point_carried (otlp_metrics_exporter.completed true)
           sample_metrics.exporter
           (sample_metrics.histogram_metric sample_metrics.whole_histogram)
           sample_metrics.whole_histogram
           [1%float; 2%float; 3%float] [10%float; 20%float] [1; 2; 3]).
  - simpl. lia.
  - reflexivity.
  - reflexivity.
  - reflexivity.
  - vm_compute. reflexivity.
  - reflexivity.
  - reflexivity.
  - reflexivity.
Defined.

(** C8, as stated, fails: a provided bucket count of 1.5 is carried as
    the integer 1, so the encoded counts [1; 2] are not equal to the
    provided counts [1.5; 2]. *)
Lemma histogram_counts_truncated :
  exists p,
    otlp_metrics_exporter.convert_histogram_point sample_metrics.fractional_histogram
    = Some p
    /\ otlp_metrics_exporter.h_bucket_counts p = [1; 2]
    /\ c_double.of_uint64 <$> otlp_metrics_exporter.h_bucket_counts p
       <> [1.5%float; 2%float].
Proof.
  eexists. split; [vm_compute; reflexivity|]. split; [reflexivity|].
  cbn [otlp_metrics_exporter.h_bucket_counts]. intros Heq.
  apply (f_equal (fmap FloatOps.Prim2SF)) in Heq. vm_compute in Heq. discriminate.
Qed.

(** ** The metrics tick *)

Lemma metrics_tick_keeps_globals (timestamp_nanos : Z) (g g' : main.globals)
    (exported : option (list otlp_metrics_exporter.otlp_metric_t)) :
  main.metrics_export_thread_step timestamp_nanos g = main.went_on g' exported ->
  g' = g.
Proof.
  unfold main.metrics_export_thread_step.
  destruct (main.g_shutdown g), (main.g_metrics_exporter g); try discriminate.
  destruct (main.g_request_count g =? 0); by intros [= <- _].
Qed.

Lemma metrics_tick_no_requests (timestamp_nanos : Z) (g : main.globals) :
  main.g_shutdown g = false ->
  is_Some (main.g_metrics_exporter g) ->
  main.g_request_count g = 0 ->
  main.metrics_export_thread_step timestamp_nanos g = main.went_on g None.
Proof.
  intros Hrun [e He] Hzero. unfold main.metrics_export_thread_step.
  by rewrite Hrun, He, Hzero.
Qed.

Lemma metrics_tick_requests (timestamp_nanos : Z) (g : main.globals) :
  main.g_shutdown g = false ->
  is_Some (main.g_metrics_exporter g) ->
  0 < main.g_request_count g < 2 ^ 63 ->
  exists counter gauge,
    main.metrics_export_thread_step timestamp_nanos g
    = main.went_on g (Some [counter; gauge])
    /\ otlp_metrics_exporter.type counter = otlp_metrics_exporter.METRIC_TYPE_COUNTER
    /\ otlp_metrics_exporter.number_of
         <$> default [] (otlp_metrics_exporter.data_points counter)
       = [otlp_metrics_exporter.as_int (main.g_request_count g)]
    /\ otlp_metrics_exporter.type gauge = otlp_metrics_exporter.METRIC_TYPE_GAUGE
    /\ otlp_metrics_exporter.number_of
         <$> default [] (otlp_metrics_exporter.data_points gauge)
       = [otlp_metrics_exporter.as_double
            (PrimFloat.div (main.g_total_duration_ms g)
               (c_double.of_uint64 (main.g_request_count g)))].
Proof.
  intros Hrun [e He] Hpos. unfold main.metrics_export_thread_step.
  rewrite Hrun, He.
  destruct (Z.eqb_spec (main.g_request_count g) 0) as [|_]; [lia|].
  eexists. eexists. split; [reflexivity|].
  cbn [otlp_metrics_exporter.type otlp_metrics_exporter.data_points default
       fmap list_fmap otlp_metrics_exporter.number_of
       otlp_metrics_exporter.is_double otlp_metrics_exporter.int_value
       otlp_metrics_exporter.double_value].
  unfold main.to_int64.
  destruct (Z.ltb_spec (main.g_request_count g) (2 ^ 63)); [|lia].
  destruct (Z.ltb_spec 0 (main.g_request_count g)); [|lia].
  done.
Qed.

(** The request the tick hands to the collector for the sample
    accumulator: one sum metric with the single integer point 3 and one
    gauge metric with the single double point 10. *)
Lemma metrics_tick_request (outcome : otlp_metrics_exporter.export_outcome) :
  exists ms req,
    main.metrics_export_thread_step 1000 sample_metrics.after_three_requests
    = main.went_on sample_metrics.after_three_requests (Some ms)
    /\ otlp_metrics_exporter.otlp_export_metrics outcome
         (main.g_metrics_exporter sample_metrics.after_three_requests) (Some ms) 2
       = Some (otlp_metrics_exporter.result_of outcome, Some req)
    /\ otlp_metrics_exporter.Metric_data <$> otlp_metrics_exporter.metrics req
       = [otlp_metrics_exporter.DATA_SUM true true
            [{| otlp_metrics_exporter.time_unix_nano := 1000;
                otlp_metrics_exporter.value := otlp_metrics_exporter.as_int 3;
                otlp_metrics_exporter.NumberDataPoint_attributes := [] |}];
          otlp_metrics_exporter.DATA_GAUGE
            [{| otlp_metrics_exporter.time_unix_nano := 1000;
                otlp_metrics_exporter.value :=
                  otlp_metrics_exporter.as_double 10%float;
                otlp_metrics_exporter.NumberDataPoint_attributes := [] |}]].
Proof.
  eexists. eexists. split; [vm_compute; reflexivity|].
  split; [destruct outcome as [| |[|]|]; vm_compute; reflexivity|].
  vm_compute. reflexivity.
Qed.

(** C1, at the failing input: after three requests of 10 ms each the
    accumulator holds 3 requests and 30 ms. The tick emits one counter
    data point with the integer 3 and one gauge data point with the
    double 10, as the claim says, but it leaves the accumulator at 3
    requests and 30 ms instead of resetting both fields to zero, so the
    next tick emits the same two data points again. *)
Theorem metrics_tick_leaves_accumulator :
  main.g_request_count sample_metrics.after_three_requests = 3
  /\ main.g_total_duration_ms sample_metrics.after_three_requests = 30%float
  /\ exists counter gauge g',
       main.metrics_export_thread_step 1000 sample_metrics.after_three_requests
       = main.went_on g' (Some [counter; gauge])
       /\ otlp_metrics_exporter.number_of
            <$> default [] (otlp_metrics_exporter.data_points counter)
          = [otlp_metrics_exporter.as_int 3]
       /\ otlp_metrics_exporter.number_of
            <$> default [] (otlp_metrics_exporter.data_points gauge)
          = [otlp_metrics_exporter.as_double 10%float]
       /\ main.g_request_count g' = 3
       /\ main.g_total_duration_ms g' = 30%float
       /\ main.g_request_count g' <> 0
       /\ main.metrics_export_thread_step 11000 g'
          = main.metrics_export_thread_step 11000 sample_metrics.after_three_requests.
Proof.
  split; [vm_compute; reflexivity|]. split; [vm_compute; reflexivity|].
  eexists. eexists. eexists. split; [vm_compute; reflexivity|].
  repeat split; vm_compute; discriminate.
Qed.

(** ** Dispatch by method name *)

Lemma starts_with_prefix (needle hay : cstring) :
  starts_with needle hay = true <-> needle `prefix_of` hay.
Proof.
  revert hay. induction needle as [|x needle IH]; intros hay.
  - split; [intros _; apply prefix_nil | done].
  - destruct hay as [|y hay]; simpl.
    + split; [done | intros [k Hk]; discriminate].
    + destruct (Ascii.eqb_spec x y) as [->|Hne].
      * rewrite IH. split; [apply prefix_cons | apply prefix_cons_inv_2].
      * split; [done | intros H; apply prefix_cons_inv_1 in H; congruence].
Qed.

Lemma strstr_contains (hay needle : cstring) :
  is_Some (strstr hay needle) <-> contains hay needle.
Proof.
  induction hay as [|x hay IH]; cbn [strstr].
  - destruct (starts_with needle []) eqn:E.
    + apply starts_with_prefix in E as [k Hk].
      split; [|by eexists]. intros _. exists [], k. done.
    + split; [by intros [? ?]|]. intros (before & behind & H).
      assert (starts_with needle [] = true) as Habs; [|congruence].
      apply starts_with_prefix. exists behind.
      destruct before; [done | discriminate].
  - destruct (starts_with needle (x :: hay)) eqn:E.
    + apply starts_with_prefix in E as [k Hk].
      split; [|by eexists]. intros _. exists [], k. done.
    + rewrite fmap_is_Some, IH. split.
      * intros (before & behind & ->). by exists (x :: before), behind.
      * intros (before & behind & H). destruct before as [|y before].
        -- assert (starts_with needle (x :: hay) = true) as Habs; [|congruence].
           apply starts_with_prefix. by exists behind.
        -- injection H as _ ->. by exists before, behind.
Qed.

Lemma strstr_None_contains (hay needle : cstring) :
  strstr hay needle = None <-> ~ contains hay needle.
Proof.
  rewrite <- strstr_contains, eq_None_not_Some. done.
Qed.

Lemma run_app (env : main.environment) (s : main.server)
    (evs evs' : list main.grpc_event) :
  main.run env s (evs ++ evs')
  = ((main.run env (main.run env s evs).1 evs').1,
     (main.run env s evs).2 ++ (main.run env (main.run env s evs).1 evs').2).
Proof.
  revert s. induction evs as [|ev evs IH]; intros s; cbn [app main.run fst snd].
  - by destruct (main.run env s evs').
  - destruct (main.step env s ev) as [s1 done1]. rewrite IH.
    destruct (main.run env s1 evs) as [s2 done2]. cbn [fst snd].
    destruct (main.run env s2 evs') as [s3 done3]. cbn [fst snd].
    by rewrite app_assoc.
Qed.

(** While the server waits for the status batch, every other event is
    taken from the queue and dropped. *)
Lemma wait_status_drops (env : main.environment) (s : main.server)
    (ctx : main.call_context_t) (evs : list main.grpc_event) :
  main.at_ s = main.wait_status ctx ->
  Forall (other_than 3) evs ->
  main.run env s evs = (s, []).
Proof.
  intros Hat Hall. induction Hall as [|ev evs Hev _ IH]; [done|].
  cbn [main.run]. unfold main.step. rewrite Hat.
  assert (main.is_op_complete ev && (main.tag ev =? 3) = false) as ->.
  { destruct Hev as [->|Hne]; [done|].
    apply andb_false_iff. right. by apply Z.eqb_neq. }
  by rewrite IH.
Qed.

(** The step of the main loop on the arrival of the pending call. *)
Lemma step_call_arrived (env : main.environment) (s : main.server)
    (ctx : main.call_context_t) :
  main.at_ s = main.main_loop ->
  main.pending_ctx s = Some ctx ->
  main.step env s (call_arrived (main.request_id ctx))
  = let next := main.to_int (main.request_counter s + 1) in
    let pending' :=
      if main.request_accepted env next
      then Some {| main.request_id := next |} else None in
    let method :=
      main.grpc_slice_to_c_string (main.arriving_method env (main.request_id ctx)) in
    match strstr method (lit "FetchLegacyData") with
    | Some _ =>
        ({| main.at_ := main.wait_message ctx; main.pending_ctx := pending';
            main.request_counter := next |},
         [main.grpc_server_request_call next;
          main.grpc_call_start_batch (main.request_id ctx)
            [main.GRPC_OP_RECV_MESSAGE] 1])
    | None =>
        ({| main.at_ := main.wait_status ctx; main.pending_ctx := pending';
            main.request_counter := next |},
         [main.grpc_server_request_call next;
          main.print_unknown_method method;
          unimplemented_batch (main.request_id ctx)])
    end.
Proof.
  intros Hat Hpending. unfold main.step. rewrite Hat, Hpending.
  cbn [main.is_op_complete call_arrived main.ev_type main.success main.tag andb].
  rewrite Z.eqb_refl. unfold main.request_call.
  by destruct (strstr _ _).
Qed.

(** C9: a call that has arrived is handed to [handle_fetch_legacy_data]
    (once its message is received) exactly when its method name contains
    [FetchLegacyData] somewhere, and it is answered with the
    UNIMPLEMENTED batch exactly when it does not; the name need not be
    equal to the method's name. *)
Theorem dispatch_by_substring (env : main.environment) (s : main.server)
    (ctx : main.call_context_t) :
  main.at_ s = main.main_loop ->
  main.pending_ctx s = Some ctx ->
  let id := main.request_id ctx in
  let method := main.grpc_slice_to_c_string (main.arriving_method env id) in
  let did := (main.run env s [call_arrived id; batch_done 1]).2 in
  (In (main.handle_fetch_legacy_data id) did
   <-> contains method (lit "FetchLegacyData"))
  /\ (In (unimplemented_batch id) did
      <-> ~ contains method (lit "FetchLegacyData")).
Proof.
  intros Hat Hpending. cbv zeta.
  cbn [main.run]. rewrite (step_call_arrived env s ctx Hat Hpending).
  cbv zeta.
  set (id := main.request_id ctx).
  set (method := main.grpc_slice_to_c_string (main.arriving_method env id)).
  destruct (strstr method (lit "FetchLegacyData")) as [i|] eqn:E.
  - assert (contains method (lit "FetchLegacyData")) as Hin
      by (apply strstr_contains; by rewrite E).
    unfold main.step.
    cbn [main.at_ main.is_op_complete batch_done main.ev_type main.tag andb Z.eqb
         Pos.eqb fst snd app].
    split; split; intros H; try done.
    + simpl. tauto.
    + unfold unimplemented_batch in H. simpl in H.
      repeat (destruct H as [H|H]; [discriminate H|]). destruct H.
  - assert (~ contains method (lit "FetchLegacyData")) as Hout
      by (by apply strstr_None_contains).
    unfold main.step.
    cbn [main.at_ main.is_op_complete batch_done main.ev_type main.tag andb Z.eqb
         Pos.eqb fst snd app].
    split; split; intros H; try done.
    + unfold unimplemented_batch in H. simpl in H.
      repeat (destruct H as [H|H]; [discriminate H|]). destruct H.
    + simpl. tauto.
Qed.

Lemma dispatch_by_substring_witness :
  let env := sample_server.env (lit "/grpcarch.ServiceF/FetchLegacyDataV2") in
  let method := main.grpc_slice_to_c_string (main.arriving_method env 1) in
  let did :=
    (main.run env (sample_server.started (lit "/grpcarch.ServiceF/FetchLegacyDataV2"))
       [call_arrived 1; batch_done 1]).2 in
  (In (main.handle_fetch_legacy_data 1) did
   <-> contains method (lit "FetchLegacyData"))
  /\ (In (unimplemented_batch 1) did
      <-> ~ contains method (lit "FetchLegacyData")).
Proof.
  apply (dispatch_by_substring
           (sample_server.env (lit "/grpcarch.ServiceF/FetchLegacyDataV2"))
           (sample_server.started (lit "/grpcarch.ServiceF/FetchLegacyDataV2"))
           {| main.request_id := 1 |}); reflexivity.
Defined.

(** ** Unknown methods *)

(** The main loop passes over what is neither the arrival of the
    pending call nor the shutdown of the queue. *)
Lemma main_loop_passes (env : main.environment) (s : main.server)
    (ctx : main.call_context_t) (later : list main.grpc_event) :
  main.at_ s = main.main_loop ->
  main.pending_ctx s = Some ctx ->
  Forall (passed_over (main.request_id ctx)) later ->
  main.run env s later = (s, []).
Proof.
  intros Hat Hpending Hall. induction Hall as [|ev later [Htype Htag] _ IH]; [done|].
  cbn [main.run]. unfold main.step. rewrite Hat, Hpending.
  destruct (main.is_op_complete ev && main.success ev) eqn:Hdone.
  - apply andb_true_iff in Hdone as [Hc Hs].
    apply Z.eqb_neq in Htag; [|done|done]. by rewrite Htag, IH.
  - destruct (main.ev_type ev); [done| |]; by rewrite IH.
Qed.

(** C6, as amended: for every call that arrives with a method name in
    which [FetchLegacyData] does not occur, the server first registers
    the next request-call, then starts the batch that sends the
    UNIMPLEMENTED status, never enters [handle_fetch_legacy_data], and
    frees the call context once that batch has completed. Provided that
    gRPC accepts the new registration and that, while the server waits
    for the completion of the status batch, the queue yields neither
    another completion tagged 3 nor the arrival of the next call, the
    server is then back in its main loop with the new registration
    pending, and it takes up the next call when that arrives, whatever
    the queue yields before (the shutdown of the queue apart). *)
Theorem unknown_method_unimplemented (env : main.environment) (s : main.server)
    (ctx : main.call_context_t) (noise later : list main.grpc_event) :
  main.at_ s = main.main_loop ->
  main.pending_ctx s = Some ctx ->
  ~ contains (main.grpc_slice_to_c_string
                (main.arriving_method env (main.request_id ctx)))
             (lit "FetchLegacyData") ->
  main.request_accepted env (main.to_int (main.request_counter s + 1)) = true ->
  Forall (other_than 3) noise ->
  Forall (other_than (main.to_int (main.request_counter s + 1))) noise ->
  Forall (passed_over (main.to_int (main.request_counter s + 1))) later ->
  let id := main.request_id ctx in
  let next := main.to_int (main.request_counter s + 1) in
  let method := main.grpc_slice_to_c_string (main.arriving_method env id) in
  let next_method :=
    main.grpc_slice_to_c_string (main.arriving_method env next) in
  exists s' s'' did,
    main.run env s (call_arrived id :: noise ++ [batch_done 3])
    = (s', [main.grpc_server_request_call next;
            main.print_unknown_method method;
            unimplemented_batch id;
            main.cleanup_call_context id])
    /\ main.at_ s' = main.main_loop
    /\ main.pending_ctx s' = Some {| main.request_id := next |}
    /\ main.run env s' (later ++ [call_arrived next])
       = (s'', main.grpc_server_request_call (main.to_int (next + 1)) :: did)
    /\ ((contains next_method (lit "FetchLegacyData")
         /\ did = [main.grpc_call_start_batch next [main.GRPC_OP_RECV_MESSAGE] 1]
         /\ main.at_ s'' = main.wait_message {| main.request_id := next |})
        \/ (~ contains next_method (lit "FetchLegacyData")
            /\ did = [main.print_unknown_method next_method;
                      unimplemented_batch next]
            /\ main.at_ s'' = main.wait_status {| main.request_id := next |})).
Proof.
  intros Hat Hpending Hunknown Haccepted Hnoise _ Hlater. cbv zeta.
  apply strstr_None_contains in Hunknown.
  set (next := main.to_int (main.request_counter s + 1)) in *.
  set (s1 := {| main.at_ := main.wait_status ctx;
                main.pending_ctx := Some {| main.request_id := next |};
                main.request_counter := next |}).
  set (s2 := {| main.at_ := main.main_loop;
                main.pending_ctx := Some {| main.request_id := next |};
                main.request_counter := next |}).
  pose proof (step_call_arrived env s2 {| main.request_id := next |}
                eq_refl eq_refl) as Hnext.
  cbv zeta in Hnext. cbn [main.request_id main.request_counter s2] in Hnext.
  exists s2.
  destruct (strstr (main.grpc_slice_to_c_string (main.arriving_method env next))
                   (lit "FetchLegacyData")) as [i|] eqn:Hmethod;
    eexists; eexists.
  all: split;
    [cbn [main.run]; rewrite (step_call_arrived env s ctx Hat Hpending);
     cbv zeta; fold next; rewrite Hunknown, Haccepted; fold s1;
     rewrite run_app, (wait_status_drops env s1 ctx noise eq_refl Hnoise);
     reflexivity|].
  all: split; [reflexivity|]; split; [reflexivity|].
  all: rewrite run_app,
         (main_loop_passes env s2 {| main.request_id := next |} later
            eq_refl eq_refl Hlater).
  all: cbn [fst snd app main.run]; rewrite Hnext.
  all: split; [reflexivity|].
  - left. split; [apply strstr_contains; by rewrite Hmethod|]. by split.
  - right. split; [by apply strstr_None_contains|]. by split.
Qed.

Lemma unknown_method_unimplemented_witness :
  exists s' s'' did,
    main.run (sample_server.env (lit "/grpcarch.ServiceF/Ping"))
      (sample_server.started (lit "/grpcarch.ServiceF/Ping"))
      (call_arrived 1
         :: [ {| main.ev_type := main.GRPC_QUEUE_TIMEOUT;
                 main.success := false; main.tag := 0 |} ]
         ++ [batch_done 3])
    = (s', [main.grpc_server_request_call (main.to_int (1 + 1));
            main.print_unknown_method (lit "/grpcarch.ServiceF/Ping");
            unimplemented_batch 1;
            main.cleanup_call_context 1])
    /\ main.at_ s' = main.main_loop
    /\ main.pending_ctx s' = Some {| main.request_id := main.to_int (1 + 1) |}
    /\ main.run (sample_server.env (lit "/grpcarch.ServiceF/Ping")) s'
         ([ {| main.ev_type := main.GRPC_QUEUE_TIMEOUT;
               main.success := false; main.tag := 0 |};
            batch_done 7 ]
          ++ [call_arrived (main.to_int (1 + 1))])
       = (s'', main.grpc_server_request_call
                 (main.to_int (main.to_int (1 + 1) + 1)) :: did)
    /\ ((contains (lit "/grpcarch.ServiceF/Ping") (lit "FetchLegacyData")
         /\ did = [main.grpc_call_start_batch (main.to_int (1 + 1))
                     [main.GRPC_OP_RECV_MESSAGE] 1]
         /\ main.at_ s''
            = main.wait_message {| main.request_id := main.to_int (1 + 1) |})
        \/ (~ contains (lit "/grpcarch.ServiceF/Ping") (lit "FetchLegacyData")
            /\ did = [main.print_unknown_method (lit "/grpcarch.ServiceF/Ping");
                      unimplemented_batch (main.to_int (1 + 1))]
            /\ main.at_ s''
               = main.wait_status {| main.request_id := main.to_int (1 + 1) |})).
Proof.
  apply (unknown_method_unimplemented
           (sample_server.env (lit "/grpcarch.ServiceF/Ping"))
           (sample_server.started (lit "/grpcarch.ServiceF/Ping"))
           {| main.request_id := 1 |}
           [ {| main.ev_type := main.GRPC_QUEUE_TIMEOUT;
                main.success := false; main.tag := 0 |} ]
           [ {| main.ev_type := main.GRPC_QUEUE_TIMEOUT;
                main.success := false; main.tag := 0 |};
             batch_done 7 ]).
  - reflexivity.
  - reflexivity.
  - apply strstr_None_contains. reflexivity.
  - reflexivity.
  - repeat constructor.
  - repeat constructor.
  - constructor; [split; [discriminate | intros H; discriminate H]|].
    constructor; [split; [discriminate | intros _ _; discriminate]|].
    constructor.
Defined.

(** C6, as stated, fails: [/grpcarch.ServiceF/FetchLegacyDataV2] is not
    the method the service registers, yet a call to it is handed to
    [handle_fetch_legacy_data] and answered with the status OK; no
    UNIMPLEMENTED status is sent. *)
Lemma unregistered_method_dispatched :
  lit "/grpcarch.ServiceF/FetchLegacyDataV2" <> registered_method
  /\ (main.run (sample_server.env (lit "/grpcarch.ServiceF/FetchLegacyDataV2"))
        (sample_server.started (lit "/grpcarch.ServiceF/FetchLegacyDataV2"))
        [call_arrived 1; batch_done 1; batch_done 2]).2
     = [main.grpc_server_request_call 2;
        main.grpc_call_start_batch 1 [main.GRPC_OP_RECV_MESSAGE] 1;
        main.handle_fetch_legacy_data 1;
        main.grpc_call_start_batch 1
          [main.GRPC_OP_SEND_INITIAL_METADATA; main.GRPC_OP_SEND_MESSAGE;
           main.GRPC_OP_SEND_STATUS_FROM_SERVER main.GRPC_STATUS_OK (lit "OK")] 2;
        main.cleanup_call_context 1]
  /\ ~ In (unimplemented_batch 1)
         (main.run (sample_server.env (lit "/grpcarch.ServiceF/FetchLegacyDataV2"))
            (sample_server.started (lit "/grpcarch.ServiceF/FetchLegacyDataV2"))
            [call_arrived 1; batch_done 1; batch_done 2]).2.
Proof.
  split; [discriminate|]. split; [reflexivity|].
  vm_compute. intros H.
  repeat (destruct H as [H|H]; [discriminate H|]). destruct H.
Qed.

(** The arrival of the next call while the server waits for the status
    batch is taken from the queue and dropped: the call under the
    registration 2 is not taken up, and the server then passes over
    whatever the queue yields that is not that arrival once more. *)
Lemma arrival_during_wait_dropped (later : list main.grpc_event) :
  Forall (passed_over 2) later ->
  main.run (sample_server.env (lit "/grpcarch.ServiceF/Ping"))
    (sample_server.started (lit "/grpcarch.ServiceF/Ping"))
    ([call_arrived 1; call_arrived 2; batch_done 3] ++ later)
  = ({| main.at_ := main.main_loop;
        main.pending_ctx := Some {| main.request_id := 2 |};
        main.request_counter := 2 |},
     [main.grpc_server_request_call 2;
      main.print_unknown_method (lit "/grpcarch.ServiceF/Ping");
      unimplemented_batch 1;
      main.cleanup_call_context 1]).
Proof.
  intros Hlater. rewrite run_app.
  change (main.run (sample_server.env (lit "/grpcarch.ServiceF/Ping"))
            (sample_server.started (lit "/grpcarch.ServiceF/Ping"))
            [call_arrived 1; call_arrived 2; batch_done 3])
    with ({| main.at_ := main.main_loop;
             main.pending_ctx := Some {| main.request_id := 2 |};
             main.request_counter := 2 |},
          [main.grpc_server_request_call 2;
           main.print_unknown_method (lit "/grpcarch.ServiceF/Ping");
           unimplemented_batch 1;
           main.cleanup_call_context 1]).
  cbn [fst snd].
  rewrite (main_loop_passes _ _ {| main.request_id := 2 |} later);
    [reflexivity | reflexivity | reflexivity| exact Hlater].
Qed.

(** ** Further properties: identifiers on the wire *)

Lemma hex_to_bytes_from_length (n i : nat) (hex : cstring) (bytes : list Z) :
  length (otlp_exporter.hex_to_bytes_from hex bytes i n).2 = length bytes.
Proof.
  revert i bytes. induction n as [|n IH]; intros i bytes; simpl; [done|].
  destruct (sscanf_2x _); [|done]. by rewrite IH, length_insert.
Qed.

Lemma malloc_length (fill : nat -> Z) (n : nat) : length (malloc fill n) = n.
Proof. unfold malloc. by rewrite length_fmap, length_seq. Qed.

(** X1: in every wire span and every wire log record the length field of
    each identifier is the number of bytes behind it, whatever the
    identifier strings were (absent, short, or not hexadecimal at all);
    a wire span always has 16 bytes of trace ID and 8 bytes of span ID. *)
Theorem wire_identifiers_consistent (fill : nat -> Z)
    (span : otlp_exporter.otlp_span_t)
    (record : otlp_log_exporter.otlp_log_record_t) :
  let w := otlp_exporter.convert_span fill span in
  let l := otlp_log_exporter.convert_record fill record in
  consistent (otlp_exporter.Span_trace_id w)
  /\ len (otlp_exporter.Span_trace_id w) = 16%nat
  /\ consistent (otlp_exporter.Span_span_id w)
  /\ len (otlp_exporter.Span_span_id w) = 8%nat
  /\ consistent (otlp_exporter.Span_parent_span_id w)
  /\ consistent (otlp_log_exporter.LogRecord_trace_id l)
  /\ consistent (otlp_log_exporter.LogRecord_span_id l).
Proof.
  cbv zeta. unfold otlp_exporter.convert_span, otlp_log_exporter.convert_record,
    consistent.
  cbn [otlp_exporter.Span_trace_id otlp_exporter.Span_span_id
       otlp_exporter.Span_parent_span_id otlp_log_exporter.LogRecord_trace_id
       otlp_log_exporter.LogRecord_span_id data len].
  change otlp_log_exporter.hex_to_bytes with otlp_exporter.hex_to_bytes.
  unfold otlp_exporter.hex_to_bytes.
  repeat split;
    repeat match goal with
           | |- context [if ?b then _ else _] => destruct b
           end;
    cbn [data len];
    rewrite ?hex_to_bytes_from_length, ?malloc_length; done.
Qed.

(** A string of [2 * n] lowercase hex digits converts into the [n] bytes
    that render back to it. *)
Lemma hex_to_bytes_renders (n : nat) (hex : cstring) (buf : list Z) :
  length hex = (2 * n)%nat ->
  Forall lower_hex hex ->
  length buf = n ->
  bytes_to_hex (otlp_exporter.hex_to_bytes hex buf n).2 = hex
  /\ (otlp_exporter.hex_to_bytes hex buf n).1 = 0.
Proof.
  intros Hlen Hall Hbuf.
  destruct (hex_to_bytes_from_lower_hex n 0 hex buf)
    as (out & Hrun & _ & _ & Hhex); [done..|].
  unfold otlp_exporter.hex_to_bytes. rewrite Hrun. cbn [fst snd].
  by rewrite drop_0 in Hhex.
Qed.

(** Both drains of the span exporter on a batch of [stored]. *)
Lemma drain_spec (fill : nat -> Z) (e : otlp_exporter.otlp_exporter_t)
    (stored : list otlp_exporter.otlp_span_t) :
  holds e stored ->
  (length stored <= otlp_exporter.MAX_BATCH_SIZE)%nat ->
  Forall fits stored ->
  exists d,
    otlp_exporter.otlp_exporter_flush fill (Some e) = Some (0, Some d)
    /\ otlp_exporter.export_thread_func_step fill e = Some d
    /\ otlp_exporter.batch d = Some <$> stored
    /\ holds (otlp_exporter.after d) []
    /\ otlp_exporter.service_name (otlp_exporter.after d)
       = otlp_exporter.service_name e
    /\ otlp_exporter.running (otlp_exporter.after d) = otlp_exporter.running e
    /\ otlp_exporter.request d
       = match stored with
         | [] => None
         | _ :: _ =>
             Some {| otlp_exporter.resource_attributes :=
                       [{| kv_key := lit "service.name";
                           kv_string_value := otlp_exporter.service_name e |}];
                     otlp_exporter.scope_name := lit "service-f-c";
                     otlp_exporter.scope_version := lit "1.0.0";
                     otlp_exporter.spans :=
                       otlp_exporter.convert_span fill <$> stored |}
         end.
Proof.
  intros He Hle Hfit.
  destruct (take_batch_spec e stored He Hle) as [Hbatch Hafter].
  pose proof (do_export_spec fill e stored Hfit) as Hexp.
  destruct He as [Hcount Hslots].
  unfold otlp_exporter.otlp_exporter_flush, otlp_exporter.export_thread_func_step.
  destruct (Nat.ltb_spec 0 (otlp_exporter.pending_count e)) as [Hpos|Hzero].
  - rewrite Hbatch, Hcount, Hexp. cbn [mbind option_bind snd].
    eexists. split; [reflexivity|]. split; [reflexivity|].
    cbn [otlp_exporter.batch otlp_exporter.after otlp_exporter.request].
    split; [done|]. split; [done|]. split; [done|]. split; [done|]. done.
  - assert (stored = []) as -> by (apply length_zero_iff_nil; lia).
    exists {| otlp_exporter.after := e; otlp_exporter.batch := [];
              otlp_exporter.request := None |}.
    repeat split; done.
Qed.

(** X2: a span of at most 16 attributes whose trace ID is 32 lowercase
    hex digits and whose span ID is 16, given to an exporter with an
    empty batch and then flushed, reaches the collector in a request
    whose resource carries the attribute [service.name] with the
    exporter's service name and whose single span has trace and span ID
    bytes that render back to the two strings. *)
Theorem span_reaches_wire (fill : nat -> Z) (e : otlp_exporter.otlp_exporter_t)
    (span : otlp_exporter.otlp_span_t) (tid sid : cstring) :
  holds e [] ->
  fits span ->
  otlp_exporter.trace_id span = Some tid ->
  otlp_exporter.span_id span = Some sid ->
  length tid = 32%nat -> Forall lower_hex tid ->
  length sid = 16%nat -> Forall lower_hex sid ->
  exists e1 d req w,
    otlp_exporter.otlp_export_span (Some e) (Some span) = (0, Some e1)
    /\ otlp_exporter.otlp_exporter_flush fill (Some e1) = Some (0, Some d)
    /\ otlp_exporter.request d = Some req
    /\ otlp_exporter.resource_attributes req
       = [{| kv_key := lit "service.name";
             kv_string_value := otlp_exporter.service_name e |}]
    /\ otlp_exporter.spans req = [w]
    /\ rendered (otlp_exporter.Span_trace_id w) = Some tid
    /\ rendered (otlp_exporter.Span_span_id w) = Some sid
    /\ otlp_exporter.start_time_unix_nano w = otlp_exporter.start_time_nanos span
    /\ otlp_exporter.end_time_unix_nano w = otlp_exporter.end_time_nanos span
    /\ otlp_exporter.Span_kind w = otlp_exporter.kind span.
Proof.
  intros He Hfit Htid Hsid Hlt Hht Hls Hhs.
  destruct (export_span_stores e [] span He) as (e1 & Hrun & He1 & Hname);
    [unfold otlp_exporter.MAX_BATCH_SIZE; simpl; lia|].
  cbn [app] in He1.
  destruct (drain_spec fill e1 [otlp_exporter.copy_span span] He1)
    as (d & Hflush & _ & _ & _ & _ & _ & Hreq);
    [unfold otlp_exporter.MAX_BATCH_SIZE; simpl; lia
    |by apply (copy_span_fits [span]); constructor|].
  eexists e1, d, _, _. split; [exact Hrun|]. split; [exact Hflush|].
  split; [exact Hreq|]. cbn [otlp_exporter.resource_attributes otlp_exporter.spans
                              fmap list_fmap].
  split; [by rewrite Hname|]. split; [reflexivity|].
  unfold rendered, otlp_exporter.convert_span, otlp_exporter.copy_span.
  cbn [otlp_exporter.trace_id otlp_exporter.span_id otlp_exporter.Span_trace_id
       otlp_exporter.Span_span_id otlp_exporter.start_time_unix_nano
       otlp_exporter.end_time_unix_nano otlp_exporter.Span_kind
       otlp_exporter.start_time_nanos otlp_exporter.end_time_nanos
       otlp_exporter.kind data fmap option_fmap option_map].
  rewrite Htid, Hsid. cbn [default strdup].
  unfold strdup, otlp_exporter.long_enough, strlen. cbv [id].
  rewrite Hlt, Hls. cbn [Nat.leb].
  destruct (hex_to_bytes_renders 16 tid (malloc fill 16)) as [-> _];
    [done | done | apply malloc_length |].
  destruct (hex_to_bytes_renders 8 sid (malloc fill 8)) as [-> _];
    [done | done | apply malloc_length |].
  repeat split.
Qed.

Lemma span_reaches_wire_witness :
  exists e1 d req w,
    otlp_exporter.otlp_export_span (Some sample.exporter) (Some (sample.span None))
    = (0, Some e1)
    /\ otlp_exporter.otlp_exporter_flush (fun _ => 0) (Some e1) = Some (0, Some d)
    /\ otlp_exporter.request d = Some req
    /\ otlp_exporter.resource_attributes req
       = [{| kv_key := lit "service.name";
             kv_string_value := otlp_exporter.service_name sample.exporter |}]
    /\ otlp_exporter.spans req = [w]
    /\ rendered (otlp_exporter.Span_trace_id w)
       = Some (lit "0af7651916cd43dd8448eb211c80319c")
    /\ rendered (otlp_exporter.Span_span_id w) = Some (lit "b7ad6b7169203331")
    /\ otlp_exporter.start_time_unix_nano w
       = otlp_exporter.start_time_nanos (sample.span None)
    /\ otlp_exporter.end_time_unix_nano w
       = otlp_exporter.end_time_nanos (sample.span None)
    /\ otlp_exporter.Span_kind w = otlp_exporter.kind (sample.span None).
Proof.
  apply (span_reaches_wire (fun _ => 0) sample.exporter (sample.span None)
           (lit "0af7651916cd43dd8448eb211c80319c") (lit "b7ad6b7169203331")).
  - split; reflexivity.
  - unfold fits. vm_compute. lia.
  - reflexivity.
  - reflexivity.
  - reflexivity.
  - repeat (constructor; [unfold lower_hex; simpl; tauto|]). constructor.
  - reflexivity.
  - repeat (constructor; [unfold lower_hex; simpl; tauto|]). constructor.
Defined.

(** ** Further properties: what the stored copy keeps *)

Lemma copied_attributes_same {A B : Type} (dup : A -> A) (kv : A -> B)
    (n : nat) (a : list A) :
  (forall x, kv (dup x) = kv x) ->
  kv <$> take n (dup <$> take n a) = kv <$> take n a.
Proof.
  intros Hkv. rewrite <- fmap_take, take_take, Nat.min_id, <- list_fmap_compose.
  apply list_fmap_ext. intros _ x _. apply Hkv.
Qed.

(** X3: the copy that [otlp_export_span] stores is encoded like the span
    it was given, except that a NULL name becomes the empty string and
    that the status message is lost: the wire span of the copy never
    carries a message. The copy that [otlp_export_log] stores is encoded
    like the record it was given, except that a NULL body becomes the
    empty string. *)
Theorem stored_copy_on_the_wire (fill : nat -> Z)
    (span : otlp_exporter.otlp_span_t)
    (record : otlp_log_exporter.otlp_log_record_t) :
  let w := otlp_exporter.convert_span fill span in
  let l := otlp_log_exporter.convert_record fill record in
  otlp_exporter.convert_span fill (otlp_exporter.copy_span span)
  = {| otlp_exporter.Span_trace_id := otlp_exporter.Span_trace_id w;
       otlp_exporter.Span_span_id := otlp_exporter.Span_span_id w;
       otlp_exporter.Span_parent_span_id := otlp_exporter.Span_parent_span_id w;
       otlp_exporter.Span_name := Some (default [] (otlp_exporter.name span));
       otlp_exporter.Span_kind := otlp_exporter.Span_kind w;
       otlp_exporter.start_time_unix_nano := otlp_exporter.start_time_unix_nano w;
       otlp_exporter.end_time_unix_nano := otlp_exporter.end_time_unix_nano w;
       otlp_exporter.Span_attributes := otlp_exporter.Span_attributes w;
       otlp_exporter.status :=
         {| otlp_exporter.code := otlp_exporter.status_code span;
            otlp_exporter.message := [] |} |}
  /\ otlp_log_exporter.convert_record fill (otlp_log_exporter.copy_record record)
     = {| otlp_log_exporter.time_unix_nano := otlp_log_exporter.time_unix_nano l;
          otlp_log_exporter.severity_number := otlp_log_exporter.severity_number l;
          otlp_log_exporter.severity_text := otlp_log_exporter.severity_text l;
          otlp_log_exporter.LogRecord_body :=
            Some (default [] (otlp_log_exporter.body record));
          otlp_log_exporter.LogRecord_attributes :=
            otlp_log_exporter.LogRecord_attributes l;
          otlp_log_exporter.LogRecord_trace_id :=
            otlp_log_exporter.LogRecord_trace_id l;
          otlp_log_exporter.LogRecord_span_id :=
            otlp_log_exporter.LogRecord_span_id l |}.
Proof.
  cbv zeta. split.
  - destruct span as [[tid|] [sid|] [pid|] [nm|] k st en sc sm at_ n];
      unfold otlp_exporter.convert_span, otlp_exporter.copy_span;
      cbn -[take Nat.ltb Nat.leb otlp_exporter.hex_to_bytes malloc zeroed];
      unfold strdup; cbv [id]; f_equal;
      (destruct at_ as [a|]; [|done]);
      (destruct (Nat.ltb 0 n) eqn:Hn; [|done]);
      cbn [default]; cbv [id]; rewrite Hn;
      apply (copied_attributes_same
               (fun x => {| otlp_exporter.key := otlp_exporter.key x;
                            otlp_exporter.string_value :=
                              otlp_exporter.string_value x |}));
      done.
  - destruct record as [[tid|] [sid|] sev [bd|] ts at_ n];
      unfold otlp_log_exporter.convert_record, otlp_log_exporter.copy_record;
      cbn -[take Nat.ltb Nat.leb otlp_log_exporter.hex_to_bytes malloc];
      unfold strdup; cbv [id]; f_equal;
      (destruct at_ as [a|]; [|done]);
      (destruct (Nat.ltb 0 n) eqn:Hn; [|done]);
      cbn [default]; cbv [id]; rewrite Hn;
      apply (copied_attributes_same
               (fun x => {| otlp_log_exporter.key := otlp_log_exporter.key x;
                            otlp_log_exporter.string_value :=
                              otlp_log_exporter.string_value x |}));
      done.
Qed.

(** ** Further properties: the queue under interleaved operations *)

(** X4: whatever calls of [otlp_export_span], calls of
    [otlp_exporter_flush] and passes of the export thread follow one
    another on an exporter, the spans pending and given having at most
    16 attributes each, every drain completes, at most 64 entries are
    pending at any end, and no accepted span is lost or exported twice:
    the entries of all the batches handed to [do_export], followed by
    the entries still pending, are the entries pending at the start
    followed by the copies of the spans whose call returned 0, in the
    order of the calls. *)
Theorem queue_neither_loses_nor_duplicates (fill : nat -> Z)
    (ops : list otlp_exporter_life.operation)
    (e : otlp_exporter.otlp_exporter_t)
    (stored : list otlp_exporter.otlp_span_t) :
  holds e stored ->
  (length stored <= 64)%nat ->
  Forall fits stored ->
  Forall fits (otlp_exporter_life.given ops) ->
  exists e' obs stored',
    otlp_exporter_life.interleave fill e ops = Some (e', obs)
    /\ holds e' stored'
    /\ (length stored' <= 64)%nat
    /\ otlp_exporter_life.exported obs ++ (Some <$> stored')
       = Some <$> (stored ++ (otlp_exporter.copy_span
                                <$> otlp_exporter_life.accepted obs)).
Proof.
  revert e stored. induction ops as [|op ops IH]; intros e stored He Hle Hfit Hgiven.
  - exists e, [], stored. cbn. by rewrite app_nil_r.
  - destruct op as [s| |];
      cbn [otlp_exporter_life.interleave otlp_exporter_life.given] in *.
    + apply Forall_cons in Hgiven as [Hs Hgiven].
      destruct (decide (length stored < 64)%nat) as [Hroom|Hfull].
      * destruct (export_span_stores e stored s He Hroom) as (e1 & -> & He1 & _).
        destruct (IH e1 (stored ++ [otlp_exporter.copy_span s]) He1)
          as (e' & obs & stored' & -> & He' & Hle' & Hall).
        { rewrite length_app. simpl. lia. }
        { apply Forall_app. split; [done|].
          by apply (copy_span_fits [s]); constructor. }
        { done. }
        exists e', (otlp_exporter_life.export_span_returned s 0 :: obs), stored'.
        split; [done|]. split; [done|]. split; [done|].
        cbn [otlp_exporter_life.exported otlp_exporter_life.accepted Z.eqb
             fmap list_fmap].
        rewrite Hall, <- app_assoc. done.
      * rewrite (export_span_full e (Some s))
          by (destruct He as [-> _]; unfold otlp_exporter.MAX_BATCH_SIZE; lia).
        destruct (IH e stored He Hle Hfit Hgiven)
          as (e' & obs & stored' & -> & He' & Hle' & Hall).
        exists e', (otlp_exporter_life.export_span_returned s (-1) :: obs), stored'.
        split; [done|]. split; [done|]. split; [done|]. exact Hall.
    + destruct (drain_spec fill e stored He Hle Hfit)
        as (d & -> & _ & Hbatch & Hafter & _ & _ & _).
      cbn [mbind option_bind snd].
      destruct (IH (otlp_exporter.after d) [] Hafter)
        as (e' & obs & stored' & -> & He' & Hle' & Hall);
        [simpl; lia | constructor | done |].
      eexists e', (_ :: obs), stored'.
      split; [reflexivity|]. split; [done|]. split; [done|].
      cbn [otlp_exporter_life.exported otlp_exporter_life.accepted].
      rewrite <- app_assoc, Hall, Hbatch. cbn [app]. by rewrite fmap_app.
    + destruct (drain_spec fill e stored He Hle Hfit)
        as (d & _ & -> & Hbatch & Hafter & _ & _ & _).
      cbn [mbind option_bind].
      destruct (IH (otlp_exporter.after d) [] Hafter)
        as (e' & obs & stored' & -> & He' & Hle' & Hall);
        [simpl; lia | constructor | done |].
      eexists e', (_ :: obs), stored'.
      split; [reflexivity|]. split; [done|]. split; [done|].
      cbn [otlp_exporter_life.exported otlp_exporter_life.accepted].
      rewrite <- app_assoc, Hall, Hbatch. cbn [app]. by rewrite fmap_app.
Qed.

Lemma queue_neither_loses_nor_duplicates_witness :
  exists e' obs stored',
    otlp_exporter_life.interleave (fun _ => 0) sample.exporter
      [otlp_exporter_life.call_export_span (sample.span None);
       otlp_exporter_life.thread_pass;
       otlp_exporter_life.call_export_span (sample.span (Some (lit "00f067aa0ba902b7")));
       otlp_exporter_life.call_export_span sample.failed_span;
       otlp_exporter_life.call_flush;
       otlp_exporter_life.call_export_span (sample.span None)]
    = Some (e', obs)
    /\ holds e' stored'
    /\ (length stored' <= 64)%nat
    /\ otlp_exporter_life.exported obs ++ (Some <$> stored')
       = Some <$> ([] ++ (otlp_exporter.copy_span
                            <$> otlp_exporter_life.accepted obs)).
Proof.
  apply (queue_neither_loses_nor_duplicates (fun _ => 0)
           [otlp_exporter_life.call_export_span (sample.span None);
            otlp_exporter_life.thread_pass;
            otlp_exporter_life.call_export_span
              (sample.span (Some (lit "00f067aa0ba902b7")));
            otlp_exporter_life.call_export_span sample.failed_span;
            otlp_exporter_life.call_flush;
            otlp_exporter_life.call_export_span (sample.span None)]
           sample.exporter []).
  - split; reflexivity.
  - simpl. lia.
  - constructor.
  - repeat (constructor; [unfold fits; vm_compute; lia|]). constructor.
Defined.

(** X5: [otlp_exporter_destroy] sends what is pending, once: whether or
    not the export thread completes a last pass before it is joined, the
    batches that pass and the final flush hand to [do_export] hold
    together exactly the pending entries, in order, when these have at
    most 16 attributes each; on a NULL exporter nothing is done. *)
Theorem destroy_sends_pending_once (fill : nat -> Z) (last_pass : bool)
    (e : otlp_exporter.otlp_exporter_t)
    (stored : list otlp_exporter.otlp_span_t) :
  holds e stored ->
  (length stored <= 64)%nat ->
  Forall fits stored ->
  otlp_exporter_life.otlp_exporter_destroy fill last_pass None = Some []
  /\ exists ds,
       otlp_exporter_life.otlp_exporter_destroy fill last_pass (Some e) = Some ds
       /\ concat (otlp_exporter.batch <$> ds) = Some <$> stored
       /\ (exists d, last ds = Some d /\ holds (otlp_exporter.after d) []).
Proof.
  intros He Hle Hfit. split; [done|].
  unfold otlp_exporter_life.otlp_exporter_destroy.
  set (stopped := {| otlp_exporter.endpoint := otlp_exporter.endpoint e;
                     otlp_exporter.host := otlp_exporter.host e;
                     otlp_exporter.port := otlp_exporter.port e;
                     otlp_exporter.service_name := otlp_exporter.service_name e;
                     otlp_exporter.pending_spans := otlp_exporter.pending_spans e;
                     otlp_exporter.pending_count := otlp_exporter.pending_count e;
                     otlp_exporter.running := false |}).
  assert (holds stopped stored) as Hstopped by exact He.
  destruct last_pass.
  - destruct (drain_spec fill stopped stored Hstopped Hle Hfit)
      as (d & _ & -> & Hbatch & Hafter & _ & _ & _).
    cbn [fmap option_fmap option_map mbind option_bind].
    change (default stopped (otlp_exporter.after <$> last [d]))
      with (otlp_exporter.after d).
    destruct (drain_spec fill (otlp_exporter.after d) [] Hafter)
      as (d' & -> & _ & Hbatch' & Hafter' & _ & _ & _);
      [simpl; lia | constructor |].
    cbn [mbind option_bind snd app].
    exists [d; d']. split; [done|]. split.
    + cbn. rewrite Hbatch, Hbatch'. cbn. by rewrite app_nil_r.
    + by exists d'.
  - cbn [mbind option_bind].
    change (default stopped (otlp_exporter.after <$> last []))
      with stopped.
    destruct (drain_spec fill stopped stored Hstopped Hle Hfit)
      as (d & -> & _ & Hbatch & Hafter & _ & _ & _).
    cbn [mbind option_bind snd app].
    exists [d]. split; [done|]. split.
    + cbn. rewrite Hbatch. by rewrite app_nil_r.
    + by exists d.
Qed.

Lemma destroy_sends_pending_once_witness :
  otlp_exporter_life.otlp_exporter_destroy (fun _ => 0) true None = Some []
  /\ exists ds,
       otlp_exporter_life.otlp_exporter_destroy (fun _ => 0) true
         (Some sample_more.one_pending) = Some ds
       /\ concat (otlp_exporter.batch <$> ds) = Some <$> [sample.span None]
       /\ (exists d, last ds = Some d /\ holds (otlp_exporter.after d) []).
Proof.
  apply (destroy_sends_pending_once (fun _ => 0) true sample_more.one_pending
           [sample.span None]).
  - split; reflexivity.
  - simpl. lia.
  - constructor; [unfold fits; vm_compute; lia | constructor].
Defined.

(** ** Further properties: generated identifiers *)

Lemma generate_trace_id_buffer (rand : rand_stream) (calls : nat)
    (out : list ascii) (len : nat) :
  length out = len -> (1 <= len)%nat ->
  main.generate_trace_id rand calls out len
  = (<[(len - 1)%nat := NUL]>
       (random_hex rand calls (Nat.min (len - 1) 32)
          ++ drop (Nat.min (len - 1) 32) out),
     (calls + Nat.min (len - 1) 32)%nat).
Proof.
  intros Hlen Hpos. unfold main.generate_trace_id.
  rewrite fill_random_spec by lia. done.
Qed.

(** X6: [generate_trace_id] on a buffer of [len] bytes. Up to
    [len = 33] the buffer then holds a string of [len - 1] random
    lowercase hex digits, whatever it held before. For a longer buffer
    the only NUL written is the one in the last byte: when the bytes
    from offset 32 on held no NUL, the string is the 32 digits followed
    by those [len - 33] old bytes, so it is longer than a trace ID. *)
Theorem generate_trace_id_string (rand : rand_stream) (calls : nat)
    (out : list ascii) (len : nat) :
  length out = len -> (1 <= len)%nat ->
  ((len <= 33)%nat ->
   c_str (main.generate_trace_id rand calls out len).1
   = random_hex rand calls (len - 1)
   /\ Forall lower_hex (random_hex rand calls (len - 1)))
  /\ ((33 < len)%nat ->
      Forall (fun c => nonzero c = true) (take (len - 33) (drop 32 out)) ->
      c_str (main.generate_trace_id rand calls out len).1
      = random_hex rand calls 32 ++ take (len - 33) (drop 32 out)
      /\ length (c_str (main.generate_trace_id rand calls out len).1)
         = (len - 1)%nat).
Proof.
  intros Hlen Hpos. rewrite generate_trace_id_buffer by done. cbn [fst]. split.
  - intros Hshort. rewrite Nat.min_l by lia.
    destruct (random_hex_digits rand calls (len - 1)) as (Hl & Hhex & Hnz).
    split; [|done].
    destruct (drop (len - 1) out) as [|x rest] eqn:Hd.
    { apply (f_equal length) in Hd. rewrite length_drop in Hd. simpl in Hd. lia. }
    rewrite insert_app_r_alt by lia. rewrite Hl, Nat.sub_diag.
    cbn [insert list_insert]. by apply c_str_terminated.
  - intros Hlong Hold. rewrite Nat.min_r by lia.
    destruct (random_hex_digits rand calls 32) as (Hl & Hhex & Hnz).
    assert (c_str (<[(len - 1)%nat:=NUL]> (random_hex rand calls 32 ++ drop 32 out))
            = random_hex rand calls 32 ++ take (len - 33) (drop 32 out)) as Heq.
    { rewrite insert_app_r_alt by lia. rewrite Hl.
      assert (length (drop 32 out) = S (len - 33)) as Hrest
        by (rewrite length_drop; lia).
      rewrite <- (take_drop (len - 33) (drop 32 out)) at 1.
      destruct (drop (len - 33) (drop 32 out)) as [|y rest] eqn:Hd.
      { apply (f_equal length) in Hd. rewrite length_drop in Hd. simpl in Hd. lia. }
      rewrite insert_app_r_alt by (rewrite length_take; lia).
      rewrite length_take, Hrest.
      replace (len - 1 - 32 - (len - 33) `min` S (len - 33))%nat with 0%nat by lia.
      cbn [insert list_insert]. rewrite app_assoc.
      by rewrite c_str_terminated by (by apply Forall_app). }
    rewrite Heq. split; [done|].
    rewrite length_app, Hl, length_take, length_drop. lia.
Qed.

Lemma generate_trace_id_string_witness :
  ((40 <= 33)%nat ->
   c_str (main.generate_trace_id (fun n => n) 0 sample_more.dirty_buffer 40).1
   = random_hex (fun n => n) 0 (40 - 1)
   /\ Forall lower_hex (random_hex (fun n => n) 0 (40 - 1)))
  /\ ((33 < 40)%nat ->
      Forall (fun c => nonzero c = true)
             (take (40 - 33) (drop 32 sample_more.dirty_buffer)) ->
      c_str (main.generate_trace_id (fun n => n) 0 sample_more.dirty_buffer 40).1
      = random_hex (fun n => n) 0 32
          ++ take (40 - 33) (drop 32 sample_more.dirty_buffer)
      /\ length (c_str (main.generate_trace_id (fun n => n) 0
                          sample_more.dirty_buffer 40).1)
         = (40 - 1)%nat).
Proof.
  apply (generate_trace_id_string (fun n => n) 0 sample_more.dirty_buffer 40).
  - reflexivity.
  - lia.
Defined.

(** ** Further properties: the log pipeline *)

Lemma log_export_stores (e : otlp_log_exporter.otlp_log_exporter_t)
    (stored : list otlp_log_exporter.otlp_log_record_t)
    (r : otlp_log_exporter.otlp_log_record_t) :
  log_holds e stored ->
  (length stored < otlp_log_exporter.MAX_BATCH_SIZE)%nat ->
  exists e',
    otlp_log_exporter.otlp_export_log (Some e) (Some r) = (0, Some e')
    /\ log_holds e' (stored ++ [otlp_log_exporter.copy_record r])
    /\ otlp_log_exporter.service_name e' = otlp_log_exporter.service_name e.
Proof.
  intros [Hcount Hslots] Hroom. unfold otlp_log_exporter.otlp_export_log.
  rewrite Hcount.
  destruct (Nat.leb_spec otlp_log_exporter.MAX_BATCH_SIZE (length stored)); [lia|].
  eexists. split; [reflexivity|]. split; [|reflexivity].
  split; cbn [otlp_log_exporter.pending_count otlp_log_exporter.pending_records].
  - rewrite length_app. simpl. lia.
  - rewrite Hslots, length_app, fmap_app. cbn [length fmap list_fmap].
    rewrite insert_app_r_alt by (rewrite length_fmap; lia).
    rewrite length_fmap, Nat.sub_diag.
    destruct (otlp_log_exporter.MAX_BATCH_SIZE - length stored)%nat as [|k] eqn:Hk;
      [lia|].
    replace (otlp_log_exporter.MAX_BATCH_SIZE - (length stored + 1))%nat
      with k by lia.
    cbn [replicate insert list_insert]. by rewrite <- app_assoc.
Qed.


Lemma log_clear_from_spec (n i : nat)
    (l : list (option otlp_log_exporter.otlp_log_record_t)) :
  (n <= length l)%nat ->
  otlp_log_exporter_drain.clear_from (replicate i None ++ l) i n
  = replicate (i + n) None ++ drop n l.
Proof.
  revert i l. induction n as [|n IH]; intros i l Hn.
  - by rewrite Nat.add_0_r.
  - destruct l as [|x l]; [simpl in Hn; lia|].
    cbn [otlp_log_exporter_drain.clear_from].
    rewrite insert_app_r_alt by (rewrite length_replicate; lia).
    rewrite length_replicate, Nat.sub_diag. cbn [insert list_insert].
    replace (replicate i None ++ None :: l)
      with (replicate (S i) (@None otlp_log_exporter.otlp_log_record_t) ++ l).
    + rewrite IH by (simpl in Hn; lia).
      by replace (S i + n)%nat with (i + S n)%nat by lia.
    + rewrite replicate_S_end, <- app_assoc. done.
Qed.

Lemma log_do_export_eq (fill : nat -> Z)
    (e : otlp_log_exporter.otlp_log_exporter_t)
    (stored : list otlp_log_exporter.otlp_log_record_t) :
  Forall log_fits stored ->
  otlp_log_exporter.do_export fill e (Some <$> stored) (length stored)
  = Some (0,
          match stored with
          | [] => None
          | _ :: _ =>
              Some {| otlp_log_exporter.resource_attributes :=
                        [{| kv_key := lit "service.name";
                            kv_string_value := otlp_log_exporter.service_name e |}];
                      otlp_log_exporter.scope_name := lit "service-f-c";
                      otlp_log_exporter.scope_version := lit "1.0.0";
                      otlp_log_exporter.log_records :=
                        otlp_log_exporter.convert_record fill <$> stored |}
          end).
Proof.
  intros Hfit. unfold otlp_log_exporter.do_export.
  destruct stored as [|r stored]; [done|].
  cbn [length Nat.eqb].
  rewrite take_ge by (rewrite length_fmap; simpl; lia).
  rewrite (mapM_fmap_Some id Some) by done. cbn [mbind option_bind].
  rewrite lifetime_spec; [done| |by rewrite length_fmap].
  by apply Forall_fmap.
Qed.

(** Both drains of the log exporter on a batch of [stored]. *)
Lemma log_drain_spec (fill : nat -> Z) (e : otlp_log_exporter.otlp_log_exporter_t)
    (stored : list otlp_log_exporter.otlp_log_record_t) :
  log_holds e stored ->
  (length stored <= otlp_log_exporter.MAX_BATCH_SIZE)%nat ->
  Forall log_fits stored ->
  exists d,
    otlp_log_exporter_drain.otlp_log_exporter_flush fill (Some e) = Some (0, Some d)
    /\ otlp_log_exporter_drain.export_thread_func_step fill e = Some d
    /\ otlp_log_exporter_drain.batch d = Some <$> stored
    /\ log_holds (otlp_log_exporter_drain.after d) []
    /\ otlp_log_exporter_drain.request d
       = match stored with
         | [] => None
         | _ :: _ =>
             Some {| otlp_log_exporter.resource_attributes :=
                       [{| kv_key := lit "service.name";
                           kv_string_value := otlp_log_exporter.service_name e |}];
                     otlp_log_exporter.scope_name := lit "service-f-c";
                     otlp_log_exporter.scope_version := lit "1.0.0";
                     otlp_log_exporter.log_records :=
                       otlp_log_exporter.convert_record fill <$> stored |}
         end.
Proof.
  intros [Hcount Hslots] Hle Hfit.
  pose proof (log_do_export_eq fill e stored Hfit) as Hexp.
  unfold otlp_log_exporter_drain.otlp_log_exporter_flush,
    otlp_log_exporter_drain.export_thread_func_step.
  destruct (Nat.ltb_spec 0 (otlp_log_exporter.pending_count e)) as [Hpos|Hzero].
  - assert (otlp_log_exporter_drain.batch (otlp_log_exporter_drain.take_batch e)
            = Some <$> stored) as Hbatch.
    { unfold otlp_log_exporter_drain.take_batch.
      cbn [otlp_log_exporter_drain.batch]. rewrite Hcount, Hslots.
      rewrite take_app_length'; [done | by rewrite length_fmap]. }
    assert (log_holds (otlp_log_exporter_drain.after
                         (otlp_log_exporter_drain.take_batch e)) []) as Hafter.
    { unfold otlp_log_exporter_drain.take_batch.
      cbn [otlp_log_exporter_drain.after]. split; [done|].
      cbn [otlp_log_exporter.pending_records]. rewrite Hcount, Hslots.
      pose proof (log_clear_from_spec (length stored) 0
                    ((Some <$> stored) ++
                     replicate (otlp_log_exporter.MAX_BATCH_SIZE - length stored)
                       None)) as H.
      cbn [replicate app] in H.
      rewrite H by (rewrite length_app, length_fmap; lia).
      rewrite drop_app_length' by (by rewrite length_fmap).
      cbn [length fmap list_fmap app Nat.add Nat.sub].
      rewrite <- replicate_add. f_equal. lia. }
    rewrite Hbatch, Hcount, Hexp. cbn [mbind option_bind snd].
    eexists. split; [reflexivity|]. split; [reflexivity|].
    cbn [otlp_log_exporter_drain.batch otlp_log_exporter_drain.after
         otlp_log_exporter_drain.request].
    split; [done|]. split; [exact Hafter|]. done.
  - assert (stored = []) as -> by (apply length_zero_iff_nil; lia).
    exists {| otlp_log_exporter_drain.after := e;
              otlp_log_exporter_drain.batch := [];
              otlp_log_exporter_drain.request := None |}.
    repeat split; done.
Qed.

(** X7: a message logged through [log_otlp] with a trace ID of 32 and a
    span ID of 16 lowercase hex digits, on a log exporter with an empty
    batch, is printed as the line
    [[LEVEL] message | trace_id=... span_id=...] and, at the next flush,
    sent as one log record that carries the message as body, the
    severity number, the time stamp, the attribute [service.name] with
    the global service name, and identifier bytes that render back to
    the two strings. *)
Theorem log_line_reaches_wire (fill : nat -> Z) (g_service_name : cstring)
    (timestamp_nanos : Z) (e : otlp_log_exporter.otlp_log_exporter_t)
    (severity : otlp_log_exporter.log_severity_t) (tid sid message : cstring) :
  log_holds e [] ->
  length tid = 32%nat -> Forall lower_hex tid ->
  length sid = 16%nat -> Forall lower_hex sid ->
  exists e1 d req w,
    main_telemetry.log_otlp g_service_name timestamp_nanos (Some e) severity
      (Some tid) (Some sid) message
    = (lit "[" ++ main_telemetry.level_str severity ++ lit "] " ++ message
         ++ lit " | trace_id=" ++ tid ++ lit " span_id=" ++ sid
         ++ [main_telemetry.newline],
       Some e1)
    /\ otlp_log_exporter_drain.otlp_log_exporter_flush fill (Some e1)
       = Some (0, Some d)
    /\ log_holds (otlp_log_exporter_drain.after d) []
    /\ otlp_log_exporter_drain.request d = Some req
    /\ otlp_log_exporter.log_records req = [w]
    /\ otlp_log_exporter.LogRecord_body w = Some message
    /\ otlp_log_exporter.severity_number w
       = otlp_log_exporter.severity_value severity
    /\ otlp_log_exporter.time_unix_nano w = timestamp_nanos
    /\ otlp_log_exporter.LogRecord_attributes w
       = [{| kv_key := lit "service.name"; kv_string_value := g_service_name |}]
    /\ rendered (otlp_log_exporter.LogRecord_trace_id w) = Some tid
    /\ rendered (otlp_log_exporter.LogRecord_span_id w) = Some sid.
Proof.
  intros He Hlt Hht Hls Hhs. unfold main_telemetry.log_otlp.
  set (record := {| otlp_log_exporter.trace_id := Some tid;
                    otlp_log_exporter.span_id := Some sid;
                    otlp_log_exporter.severity := severity;
                    otlp_log_exporter.body := Some message;
                    otlp_log_exporter.timestamp_nanos := timestamp_nanos;
                    otlp_log_exporter.attributes := _;
                    otlp_log_exporter.attribute_count := 1 |}).
  destruct (log_export_stores e [] record He) as (e1 & Hrun & He1 & _);
    [unfold otlp_log_exporter.MAX_BATCH_SIZE; simpl; lia|].
  cbn [app] in He1.
  destruct (log_drain_spec fill e1 [otlp_log_exporter.copy_record record] He1)
    as (d & Hflush & _ & _ & Hafter & Hreq);
    [unfold otlp_log_exporter.MAX_BATCH_SIZE; simpl; lia
    |constructor; [unfold log_fits; vm_compute; lia | constructor]|].
  rewrite Hrun. eexists e1, d, _, _.
  split; [reflexivity|]. split; [exact Hflush|]. split; [exact Hafter|].
  split; [exact Hreq|].
  cbn [otlp_log_exporter.log_records fmap list_fmap].
  split; [reflexivity|].
  unfold rendered, otlp_log_exporter.convert_record, otlp_log_exporter.copy_record,
    record.
  cbn [otlp_log_exporter.trace_id otlp_log_exporter.span_id
       otlp_log_exporter.body otlp_log_exporter.severity
       otlp_log_exporter.timestamp_nanos otlp_log_exporter.attributes
       otlp_log_exporter.attribute_count
       otlp_log_exporter.LogRecord_body otlp_log_exporter.severity_number
       otlp_log_exporter.time_unix_nano otlp_log_exporter.LogRecord_attributes
       otlp_log_exporter.LogRecord_trace_id otlp_log_exporter.LogRecord_span_id
       fmap option_fmap option_map default].
  unfold strdup, otlp_log_exporter.long_enough, strlen. cbv [id].
  rewrite Hlt, Hls. cbn [Nat.leb data fmap option_fmap option_map].
  change otlp_log_exporter.hex_to_bytes with otlp_exporter.hex_to_bytes.
  destruct (hex_to_bytes_renders 16 tid (malloc fill 16)) as [-> _];
    [done | done | apply malloc_length |].
  destruct (hex_to_bytes_renders 8 sid (malloc fill 8)) as [-> _];
    [done | done | apply malloc_length |].
  repeat split.
Qed.

Lemma log_line_reaches_wire_witness :
  exists e1 d req w,
    main_telemetry.log_otlp (lit "service-f") 1000 (Some sample_log.exporter)
      otlp_log_exporter.LOG_SEVERITY_WARN
      (Some (lit "0af7651916cd43dd8448eb211c80319c"))
      (Some (lit "b7ad6b7169203331")) (lit "slow lookup")
    = (lit "[" ++ main_telemetry.level_str otlp_log_exporter.LOG_SEVERITY_WARN
         ++ lit "] " ++ lit "slow lookup"
         ++ lit " | trace_id=" ++ lit "0af7651916cd43dd8448eb211c80319c"
         ++ lit " span_id=" ++ lit "b7ad6b7169203331"
         ++ [main_telemetry.newline],
       Some e1)
    /\ otlp_log_exporter_drain.otlp_log_exporter_flush (fun _ => 0) (Some e1)
       = Some (0, Some d)
    /\ log_holds (otlp_log_exporter_drain.after d) []
    /\ otlp_log_exporter_drain.request d = Some req
    /\ otlp_log_exporter.log_records req = [w]
    /\ otlp_log_exporter.LogRecord_body w = Some (lit "slow lookup")
    /\ otlp_log_exporter.severity_number w
       = otlp_log_exporter.severity_value otlp_log_exporter.LOG_SEVERITY_WARN
    /\ otlp_log_exporter.time_unix_nano w = 1000
    /\ otlp_log_exporter.LogRecord_attributes w
       = [{| kv_key := lit "service.name"; kv_string_value := lit "service-f" |}]
    /\ rendered (otlp_log_exporter.LogRecord_trace_id w)
       = Some (lit "0af7651916cd43dd8448eb211c80319c")
    /\ rendered (otlp_log_exporter.LogRecord_span_id w)
       = Some (lit "b7ad6b7169203331").
Proof.
  apply (log_line_reaches_wire (fun _ => 0) (lit "service-f") 1000
           sample_log.exporter otlp_log_exporter.LOG_SEVERITY_WARN
           (lit "0af7651916cd43dd8448eb211c80319c") (lit "b7ad6b7169203331")
           (lit "slow lookup")).
  - split; reflexivity.
  - reflexivity.
  - repeat (constructor; [unfold lower_hex; simpl; tauto|]). constructor.
  - reflexivity.
  - repeat (constructor; [unfold lower_hex; simpl; tauto|]). constructor.
Defined.

(** ** Further properties: the telemetry of one call *)

(** The trace context the handler works with, by cases on the last
    trace context of the metadata. *)
Lemma handler_trace_context_cases (rand : rand_stream) (calls : nat)
    (metadata : list main.grpc_metadata) :
  exists tid parent,
    main.handler_trace_context rand calls metadata
    = (tid, parent,
       match last (omap traceparent_of metadata) with
       | Some _ => calls
       | None => (calls + 32)%nat
       end)
    /\ length tid = 32%nat
    /\ (parent = [] <-> omap traceparent_of metadata = []).
Proof.
  pose proof (scan_metadata metadata) as Hscan.
  unfold main.handler_trace_context, main.extract_trace_context.
  change (<[0%nat := NUL]> (replicate 64 NUL)) with (replicate 64 NUL).
  change (<[0%nat := NUL]> (replicate 32 NUL)) with (replicate 32 NUL).
  destruct (foldl main.scan_entry _ metadata) as [t p].
  destruct (last (omap traceparent_of metadata)) as [value|] eqn:Hlast.
  - destruct Hscan as (_ & _ & [r1 Ht] & [r2 Hp]). cbn [fst snd] in *.
    assert (omap traceparent_of metadata <> []) as Hne
      by (intros Hnil; rewrite Hnil in Hlast; discriminate).
    apply last_Some_elem_of in Hlast.
    apply list_elem_of_omap in Hlast as (md & Hin & Hmd).
    apply traceparent_of_Some in Hmd as (_ & Hvalue & Hlen).
    assert (Forall (fun c => nonzero c = true) value) as Hnz
      by (rewrite Hvalue; apply c_str_nonzero).
    assert (length (take 32 (drop 3 value)) = 32%nat) as Hl1
      by (rewrite length_take, length_drop; lia).
    assert (length (take 16 (drop 36 value)) = 16%nat) as Hl2
      by (rewrite length_take, length_drop; lia).
    assert (Forall (fun c => nonzero c = true) (take 32 (drop 3 value))) as Hn1
      by (by apply Forall_take, Forall_drop).
    assert (Forall (fun c => nonzero c = true) (take 16 (drop 36 value))) as Hn2
      by (by apply Forall_take, Forall_drop).
    exists (take 32 (drop 3 value)), (take 16 (drop 36 value)).
    split; [|split; [done|]].
    + subst t p. destruct Hn1 as [|c a Hc Ha]; [discriminate|].
      cbn [app]. rewrite Hc.
      change (c :: a ++ NUL :: r1) with ((c :: a) ++ NUL :: r1).
      rewrite !c_str_terminated by (done || by constructor). done.
    + split; [|done]. intros Hp0. rewrite Hp0 in Hl2. discriminate.
  - destruct Hscan as (_ & _ & [= -> ->]).
    apply last_None in Hlast.
    destruct (random_hex_digits rand calls 32) as (Hlen & Hhex & Hnz).
    exists (random_hex rand calls 32), [].
    split; [|done].
    change (nonzero NUL) with false. cbn match.
    unfold main.generate_trace_id.
    change (Nat.min (64 - 1) 32) with 32%nat.
    rewrite fill_random_spec by (cbn [length]; lia).
    cbn [take app drop Nat.add Nat.sub].
    rewrite insert_app_r_alt by (rewrite Hlen; lia).
    rewrite Hlen. cbn [Nat.sub insert list_insert].
    rewrite c_str_terminated by done. done.
Qed.

(** The span ID the handler generates in [char span_id[32] = {0}]. *)
Lemma generate_span_id_zeroed (rand : rand_stream) (calls : nat) :
  exists buf,
    main.generate_span_id rand calls (replicate 32 NUL) 32 = (buf, (calls + 16)%nat)
    /\ c_str buf = random_hex rand calls 16.
Proof.
  destruct (random_hex_digits rand calls 16) as (Hlen & Hhex & Hnz).
  unfold main.generate_span_id.
  change (Nat.min (32 - 1) 16) with 16%nat.
  rewrite fill_random_spec by (rewrite length_replicate; lia).
  eexists. split; [reflexivity|].
  cbn [take app drop Nat.add Nat.sub replicate].
  rewrite insert_app_r_alt by (rewrite Hlen; lia).
  rewrite Hlen. cbn [Nat.sub insert list_insert].
  by rewrite c_str_terminated.
Qed.

(** The wait of the handler ends at the first completion tagged [t]. *)
Lemma wait_for_tag_spec (t : Z) (noise : list main.grpc_event)
    (ev : main.grpc_event) (rest : list main.grpc_event) :
  Forall (other_than t) noise ->
  main.is_op_complete ev = true ->
  main.tag ev = t ->
  main_telemetry.wait_for_tag t (noise ++ ev :: rest) = Some rest.
Proof.
  intros Hnoise Hdone Htag. induction Hnoise as [|x noise Hx _ IH].
  - cbn [app main_telemetry.wait_for_tag]. by rewrite Hdone, Htag, Z.eqb_refl.
  - cbn [app main_telemetry.wait_for_tag].
    assert (main.is_op_complete x && (main.tag x =? t) = false) as ->; [|exact IH].
    destruct Hx as [->|Hne]; [done|].
    apply andb_false_iff. right. by apply Z.eqb_neq.
Qed.

(** X8: the telemetry of one handled call, when both exporters have
    room and the queue yields the completion of the response batch: the
    handler returns at that completion, leaving the rest of the events
    in the queue; the two log records and the span that are queued carry
    the same trace ID, of 32 characters, and the same span ID, 16 fresh
    lowercase hex digits, and so do the two lines printed; the span has
    no parent exactly when the metadata held no trace context; the
    request count goes up by one (modulo 2^64); the delay is 3 to 8
    milliseconds; [rand] is called 17 times, and 32 times more when the
    trace ID had to be generated. *)
Theorem handler_telemetry_correlated (printf_2f : PrimFloat.float -> cstring)
    (rand : rand_stream) (t : main_telemetry.telemetry)
    (now : main_telemetry.clock) (metadata : list main.grpc_metadata)
    (request : option main_telemetry.LegacyDataRequest)
    (le : otlp_log_exporter.otlp_log_exporter_t)
    (stored_l : list otlp_log_exporter.otlp_log_record_t)
    (te : otlp_exporter.otlp_exporter_t)
    (stored_t : list otlp_exporter.otlp_span_t)
    (noise : list main.grpc_event) (ev : main.grpc_event)
    (rest : list main.grpc_event) :
  main_telemetry.g_log_exporter t = Some le ->
  log_holds le stored_l ->
  (length stored_l + 2 <= 64)%nat ->
  main_telemetry.g_trace_exporter t = Some te ->
  holds te stored_t ->
  (length stored_t < 64)%nat ->
  Forall (other_than 2) noise ->
  main.is_op_complete ev = true ->
  main.tag ev = 2 ->
  exists tid sid r1 r2 sp le' te' t' delay,
    main_telemetry.handle_fetch_legacy_data printf_2f rand t now metadata request
      (noise ++ ev :: rest)
    = main_telemetry.returned
        {| main_telemetry.globals := t';
           main_telemetry.printed :=
             [info_line (called_message request) tid sid;
              info_line (fetched_message (printf_2f (duration_of now))) tid sid];
           main_telemetry.delay_ms := delay |}
        rest
    /\ length tid = 32%nat
    /\ length sid = 16%nat
    /\ Forall lower_hex sid
    /\ main_telemetry.g_log_exporter t' = Some le'
    /\ log_holds le' (stored_l ++ [r1; r2])
    /\ main_telemetry.g_trace_exporter t' = Some te'
    /\ holds te' (stored_t ++ [sp])
    /\ otlp_log_exporter.trace_id r1 = Some tid
    /\ otlp_log_exporter.span_id r1 = Some sid
    /\ otlp_log_exporter.trace_id r2 = Some tid
    /\ otlp_log_exporter.span_id r2 = Some sid
    /\ otlp_exporter.trace_id sp = Some tid
    /\ otlp_exporter.span_id sp = Some sid
    /\ (otlp_exporter.parent_span_id sp = None
        <-> omap traceparent_of metadata = [])
    /\ main.g_request_count (main_telemetry.metrics t')
       = (main.g_request_count (main_telemetry.metrics t) + 1) mod 2 ^ 64
    /\ (3 <= delay <= 8)%nat
    /\ main_telemetry.rand_calls t'
       = (main_telemetry.rand_calls t + 17
          + match last (omap traceparent_of metadata) with
            | Some _ => 0
            | None => 32
            end)%nat.
Proof.
  intros Hle Hlh Hl2 Hte Hth Ht1 Hnoise Hdone Htag.
  destruct (handler_trace_context_cases rand (main_telemetry.rand_calls t) metadata)
    as (tid & parent & Hctx & Htl & Hparent).
  set (c1 := match last (omap traceparent_of metadata) with
             | Some _ => main_telemetry.rand_calls t
             | None => (main_telemetry.rand_calls t + 32)%nat
             end) in Hctx.
  destruct (generate_span_id_zeroed rand c1) as (buf & Hgen & Hsid).
  destruct (random_hex_digits rand c1 16) as (Hsl & Hshex & _).
  unfold main_telemetry.handle_fetch_legacy_data.
  rewrite Hctx. cbv beta iota zeta. rewrite Hgen. cbv beta iota zeta.
  rewrite Hsid, (wait_for_tag_spec 2 noise ev rest Hnoise Hdone Htag).
  unfold main_telemetry.log_otlp, main_telemetry.simulate_db_delay.
  rewrite Hle, Hte.
  match goal with
  | |- context [otlp_log_exporter.otlp_export_log (Some le) (Some ?r)] =>
      destruct (log_export_stores le stored_l r Hlh) as (le1 & Hr1 & Hh1 & _);
      [unfold otlp_log_exporter.MAX_BATCH_SIZE; lia|]; rewrite Hr1
  end.
  cbv beta iota zeta. cbn [snd].
  match goal with
  | |- context [otlp_log_exporter.otlp_export_log (Some le1) (Some ?r)] =>
      destruct (log_export_stores le1 _ r Hh1) as (le2 & Hr2 & Hh2 & _);
      [rewrite length_app; unfold otlp_log_exporter.MAX_BATCH_SIZE; simpl; lia|];
      rewrite Hr2
  end.
  match goal with
  | |- context [otlp_exporter.otlp_export_span (Some te) (Some ?s)] =>
      destruct (export_span_stores te stored_t s Hth) as (te1 & Hs1 & Hs2 & _);
      [unfold otlp_exporter.MAX_BATCH_SIZE; lia|]; rewrite Hs1
  end.
  cbn [snd]. rewrite <- app_assoc in Hh2. cbn [app] in Hh2.
  eexists tid, (random_hex rand c1 16), _, _, _, le2, te1, _, _.
  split; [reflexivity|].
  cbn [main_telemetry.g_log_exporter main_telemetry.g_trace_exporter
       main_telemetry.metrics main_telemetry.rand_calls].
  split; [done|]. split; [done|]. split; [done|]. split; [done|].
  split; [exact Hh2|]. split; [done|]. split; [exact Hs2|].
  split; [reflexivity|]. split; [reflexivity|].
  split; [reflexivity|]. split; [reflexivity|].
  split; [reflexivity|]. split; [reflexivity|].
  split.
  - unfold otlp_exporter.copy_span.
    cbn [otlp_exporter.parent_span_id fmap option_fmap option_map].
    rewrite <- Hparent. destruct parent; split; done.
  - split; [reflexivity|]. split.
    + pose proof (Nat.mod_upper_bound (rand (c1 + 16)%nat) 6). lia.
    + unfold c1. destruct (last (omap traceparent_of metadata)); lia.
Qed.

Lemma handler_telemetry_correlated_witness :
  exists tid sid r1 r2 sp le' te' t' delay,
    main_telemetry.handle_fetch_legacy_data (fun _ => lit "5.00") (fun n => n)
      sample_more.fresh_telemetry sample_more.a_clock
      sample_more.with_traceparent None
      ([ {| main.ev_type := main.GRPC_QUEUE_TIMEOUT;
            main.success := false; main.tag := 0 |} ]
         ++ batch_done 2 :: [batch_done 9])
    = main_telemetry.returned
        {| main_telemetry.globals := t';
           main_telemetry.printed :=
             [info_line (called_message None) tid sid;
              info_line (fetched_message
                           ((fun _ => lit "5.00") (duration_of sample_more.a_clock)))
                tid sid];
           main_telemetry.delay_ms := delay |}
        [batch_done 9]
    /\ length tid = 32%nat
    /\ length sid = 16%nat
    /\ Forall lower_hex sid
    /\ main_telemetry.g_log_exporter t' = Some le'
    /\ log_holds le' ([] ++ [r1; r2])
    /\ main_telemetry.g_trace_exporter t' = Some te'
    /\ holds te' ([] ++ [sp])
    /\ otlp_log_exporter.trace_id r1 = Some tid
    /\ otlp_log_exporter.span_id r1 = Some sid
    /\ otlp_log_exporter.trace_id r2 = Some tid
    /\ otlp_log_exporter.span_id r2 = Some sid
    /\ otlp_exporter.trace_id sp = Some tid
    /\ otlp_exporter.span_id sp = Some sid
    /\ (otlp_exporter.parent_span_id sp = None
        <-> omap traceparent_of sample_more.with_traceparent = [])
    /\ main.g_request_count (main_telemetry.metrics t')
       = (main.g_request_count
            (main_telemetry.metrics sample_more.fresh_telemetry) + 1) mod 2 ^ 64
    /\ (3 <= delay <= 8)%nat
    /\ main_telemetry.rand_calls t'
       = (main_telemetry.rand_calls sample_more.fresh_telemetry + 17
          + match last (omap traceparent_of sample_more.with_traceparent) with
            | Some _ => 0
            | None => 32
            end)%nat.
Proof.
  apply (handler_telemetry_correlated (fun _ => lit "5.00") (fun n => n)
           sample_more.fresh_telemetry sample_more.a_clock
           sample_more.with_traceparent None
           sample_log.exporter [] sample.exporter []
           [ {| main.ev_type := main.GRPC_QUEUE_TIMEOUT;
                main.success := false; main.tag := 0 |} ]
           (batch_done 2) [batch_done 9]).
  - reflexivity.
  - split; reflexivity.
  - simpl. lia.
  - reflexivity.
  - split; reflexivity.
  - simpl. lia.
  - constructor; [by left | constructor].
  - reflexivity.
  - reflexivity.
Defined.



(** ** Further properties: the server loop *)

(** In each of its three inner waits the server drops every event but
    the completion it waits for: arrivals, time-outs and the shutdown of
    the queue alike. *)
Lemma waiting_drops (env : main.environment) (s : main.server)
    (ev : main.grpc_event) :
  match main.at_ s with
  | main.wait_message _ => other_than 1 ev
  | main.wait_response _ => other_than 2 ev
  | main.wait_status _ => other_than 3 ev
  | _ => False
  end ->
  main.step env s ev = (s, []).
Proof.
  unfold main.step, other_than.
  destruct (main.at_ s); try done;
    (intros [->|Hne]; [done|]);
    (replace (main.tag ev =? _) with false by (symmetry; by apply Z.eqb_neq));
    by rewrite andb_false_r.
Qed.

(** In its main loop the server does nothing on events other than the
    arrival of the pending call; at most it leaves the loop. *)
Lemma main_loop_idle (env : main.environment) (later : list main.grpc_event)
    (s : main.server) (ctx : main.call_context_t) :
  main.at_ s = main.main_loop \/ main.at_ s = main.loop_left ->
  main.pending_ctx s = Some ctx ->
  Forall (other_than (main.request_id ctx)) later ->
  (main.run env s later).2 = []
  /\ main.pending_ctx (main.run env s later).1 = Some ctx
  /\ (main.at_ (main.run env s later).1 = main.main_loop
      \/ main.at_ (main.run env s later).1 = main.loop_left).
Proof.
  intros Hat Hpending Hall. revert s Hat Hpending.
  induction Hall as [|ev later Hev _ IH]; intros s Hat Hpending; [done|].
  cbn [main.run].
  assert (exists s1, main.step env s ev = (s1, [])
                     /\ main.pending_ctx s1 = Some ctx
                     /\ (main.at_ s1 = main.main_loop \/ main.at_ s1 = main.loop_left))
    as (s1 & -> & Hp1 & Hat1).
  { unfold main.step. destruct Hat as [Hat|Hat]; rewrite Hat;
      [|by exists s; auto].
    rewrite Hpending.
    destruct (main.is_op_complete ev) eqn:Hc; cbn [andb].
    - destruct (main.success ev).
      + destruct Hev as [Hev|Hev]; [congruence|].
        replace (main.tag ev =? main.request_id ctx) with false
          by (symmetry; by apply Z.eqb_neq).
        exists s. auto.
      + unfold main.is_op_complete in Hc.
        destruct (main.ev_type ev); try discriminate.
        exists s. auto.
    - unfold main.is_op_complete in Hc.
      destruct (main.ev_type ev); try discriminate;
        eexists; (split; [reflexivity|]); cbn; auto. }
  destruct (IH s1 Hat1 Hp1) as (Hdid & Hp & Hat').
  destruct (main.run env s1 later) as [s2 did]. cbn [fst snd] in *.
  by rewrite Hdid.
Qed.

(** X10: a call that arrives while the server is busy with the call
    before it is lost. With the next registration pending, the arrival
    of the next call delivered before the message of the current call
    is taken from the queue by the inner wait and dropped; the server
    finishes the current call and then never takes up the next one,
    whatever else the queue yields, unless it yields that arrival
    again. *)
Theorem arrival_while_handling_lost (env : main.environment) (s : main.server)
    (ctx : main.call_context_t) (later : list main.grpc_event) :
  main.at_ s = main.main_loop ->
  main.pending_ctx s = Some ctx ->
  contains (main.grpc_slice_to_c_string
              (main.arriving_method env (main.request_id ctx)))
           (lit "FetchLegacyData") ->
  main.request_accepted env (main.to_int (main.request_counter s + 1)) = true ->
  main.to_int (main.request_counter s + 1) <> 1 ->
  Forall (other_than (main.to_int (main.request_counter s + 1))) later ->
  let id := main.request_id ctx in
  let next := main.to_int (main.request_counter s + 1) in
  let r := main.run env s
             ([call_arrived id; call_arrived next; batch_done 1; batch_done 2]
                ++ later) in
  r.2 = [main.grpc_server_request_call next;
         main.grpc_call_start_batch id [main.GRPC_OP_RECV_MESSAGE] 1;
         main.handle_fetch_legacy_data id;
         main.grpc_call_start_batch id
           [main.GRPC_OP_SEND_INITIAL_METADATA; main.GRPC_OP_SEND_MESSAGE;
            main.GRPC_OP_SEND_STATUS_FROM_SERVER main.GRPC_STATUS_OK (lit "OK")] 2;
         main.cleanup_call_context id]
  /\ main.pending_ctx r.1 = Some {| main.request_id := next |}
  /\ (main.at_ r.1 = main.main_loop \/ main.at_ r.1 = main.loop_left).
Proof.
  intros Hat Hpending Hknown Haccepted Hne Hlater. cbv zeta.
  apply strstr_contains in Hknown as [i Hi].
  rewrite run_app. cbn [main.run].
  rewrite (step_call_arrived env s ctx Hat Hpending). cbv zeta.
  rewrite Hi, Haccepted.
  set (s1 := {| main.at_ := main.wait_message ctx;
                main.pending_ctx :=
                  Some {| main.request_id := main.to_int (main.request_counter s + 1) |};
                main.request_counter := main.to_int (main.request_counter s + 1) |}).
  rewrite (waiting_drops env s1 (call_arrived (main.to_int (main.request_counter s + 1))))
    by (right; exact Hne).
  unfold main.step at 1 2.
  cbn [main.at_ s1 main.is_op_complete batch_done main.ev_type main.tag andb
       Z.eqb Pos.eqb main.pending_ctx main.request_counter fst snd app].
  match goal with
  | |- context [main.run env ?s2 later] =>
      destruct (main_loop_idle env later s2
                  {| main.request_id := main.to_int (main.request_counter s + 1) |})
        as (Hdid & Hp & Hat'); [by left | done | done |]
  end.
  rewrite Hdid. split; [done|]. split; [exact Hp | exact Hat'].
Qed.

Lemma arrival_while_handling_lost_witness :
  let env := sample_server.env (lit "/grpcarch.ServiceF/FetchLegacyData") in
  let r := main.run env
             (sample_server.started (lit "/grpcarch.ServiceF/FetchLegacyData"))
             ([call_arrived 1; call_arrived (1 + 1); batch_done 1; batch_done 2]
                ++ [batch_done 7]) in
  r.2 = [main.grpc_server_request_call (1 + 1);
         main.grpc_call_start_batch 1 [main.GRPC_OP_RECV_MESSAGE] 1;
         main.handle_fetch_legacy_data 1;
         main.grpc_call_start_batch 1
           [main.GRPC_OP_SEND_INITIAL_METADATA; main.GRPC_OP_SEND_MESSAGE;
            main.GRPC_OP_SEND_STATUS_FROM_SERVER main.GRPC_STATUS_OK (lit "OK")] 2;
         main.cleanup_call_context 1]
  /\ main.pending_ctx r.1 = Some {| main.request_id := 1 + 1 |}
  /\ (main.at_ r.1 = main.main_loop \/ main.at_ r.1 = main.loop_left).
Proof.
  apply (arrival_while_handling_lost
           (sample_server.env (lit "/grpcarch.ServiceF/FetchLegacyData"))
           (sample_server.started (lit "/grpcarch.ServiceF/FetchLegacyData"))
           {| main.request_id := 1 |} [batch_done 7]).
  - reflexivity.
  - reflexivity.
  - apply strstr_contains. by eexists.
  - reflexivity.
  - discriminate.
  - constructor; [right; discriminate | constructor].
Defined.

Lemma registrations_app (a b : list main.action) :
  main_telemetry.registrations (a ++ b)
  = main_telemetry.registrations a ++ main_telemetry.registrations b.
Proof.
  induction a as [|x a IH]; [done|]. destruct x; cbn; by rewrite ?IH.
Qed.

(** A step registers nothing, or the one tag after the counter. *)
Lemma step_registrations (env : main.environment) (s : main.server)
    (ev : main.grpc_event) :
  (main_telemetry.registrations (main.step env s ev).2 = []
   /\ main.request_counter (main.step env s ev).1 = main.request_counter s)
  \/ (main_telemetry.registrations (main.step env s ev).2
      = [main.to_int (main.request_counter s + 1)]
      /\ main.request_counter (main.step env s ev).1
         = main.to_int (main.request_counter s + 1)).
Proof.
  unfold main.step.
  destruct (main.at_ s);
    repeat match goal with
           | |- context [if ?b then _ else _] => destruct b
           | |- context [match main.pending_ctx s with _ => _ end] =>
               destruct (main.pending_ctx s)
           | |- context [match strstr ?a ?b with _ => _ end] =>
               destruct (strstr a b)
           | |- context [match main.ev_type ev with _ => _ end] =>
               destruct (main.ev_type ev)
           end;
    cbn; auto.
Qed.

(** An [int] in range is kept as it is. *)
Lemma to_int_in_range (n : Z) : - 2 ^ 31 <= n < 2 ^ 31 -> main.to_int n = n.
Proof.
  intros Hn. unfold main.to_int. rewrite Z.mod_small; lia.
Qed.

Lemma run_registrations (env : main.environment) (evs : list main.grpc_event)
    (s : main.server) :
  0 <= main.request_counter s ->
  main.request_counter s + Z.of_nat (length evs) < 2 ^ 31 ->
  exists n,
    (n <= length evs)%nat
    /\ main_telemetry.registrations (main.run env s evs).2
       = (fun k => main.request_counter s + Z.of_nat k) <$> seq 1 n
    /\ main.request_counter (main.run env s evs).1
       = main.request_counter s + Z.of_nat n.
Proof.
  revert s. induction evs as [|ev evs IH]; intros s Hpos Hroom.
  - exists 0%nat. cbn. split; [done|]. split; [done | lia].
  - cbn [main.run]. cbn [length] in Hroom.
    pose proof (step_registrations env s ev) as Hstep.
    rewrite to_int_in_range in Hstep by lia.
    destruct (main.step env s ev) as [s1 did1]. cbn [fst snd] in Hstep.
    destruct (IH s1) as (n & Hn & Hregs & Hcount);
      [destruct Hstep as [[_ ->]|[_ ->]]; lia
      |destruct Hstep as [[_ ->]|[_ ->]]; lia|].
    destruct (main.run env s1 evs) as [s2 did2]. cbn [fst snd] in *.
    rewrite registrations_app, Hregs.
    destruct Hstep as [[-> Hc]|[-> Hc]]; rewrite Hc in *.
    + exists n. split; [cbn [length]; lia|]. done.
    + exists (S n). split; [cbn [length]; lia|]. split; [|lia].
      cbn [seq fmap list_fmap app]. f_equal.
      rewrite <- (fmap_S_seq 1), <- list_fmap_compose.
      apply list_fmap_ext. intros _ k _. cbn. lia.
Qed.

(** X11: whatever the events the queue yields, fewer than 2^31 - 1 of
    them, and whatever gRPC answers, the registrations the server makes
    from its start on carry the tags 1, 2, 3, ... in this order: each
    [request_call] takes the tag after the one before it, no tag is
    used twice, and there is at most one registration per event after
    the first. The counter is an [int]: the registration after the tag
    2^31 - 1 carries the tag - 2^31. *)
Theorem registration_tags_consecutive (env : main.environment)
    (evs : list main.grpc_event) :
  Z.of_nat (length evs) < 2 ^ 31 - 1 ->
  (exists n,
      (n <= length evs)%nat
      /\ main_telemetry.registrations
           ((main.run_server_start env).2
              ++ (main.run env (main.run_server_start env).1 evs).2)
         = Z.of_nat <$> seq 1 (S n)
      /\ main.request_counter (main.run env (main.run_server_start env).1 evs).1
         = Z.of_nat (S n))
  /\ main_telemetry.registrations (main.request_call env (2 ^ 31 - 1)).2
     = [- 2 ^ 31].
Proof.
  intros Hfew. split; [|reflexivity].
  destruct (run_registrations env evs (main.run_server_start env).1)
    as (n & Hn & Hregs & Hcount).
  { change (main.request_counter (main.run_server_start env).1) with 1. lia. }
  { change (main.request_counter (main.run_server_start env).1) with 1. lia. }
  exists n. split; [exact Hn|]. rewrite registrations_app, Hregs, Hcount.
  change (main.request_counter (main.run_server_start env).1) with 1.
  change (main_telemetry.registrations (main.run_server_start env).2) with [1].
  split; [|lia]. cbn [seq fmap list_fmap app]. f_equal.
  rewrite <- (fmap_S_seq 1), <- list_fmap_compose.
  apply list_fmap_ext. intros _ k _. cbn. lia.
Qed.

Lemma registration_tags_consecutive_witness :
  (exists n,
      (n <= length [call_arrived 1; batch_done 3; call_arrived 2])%nat
      /\ main_telemetry.registrations
           ((main.run_server_start
               (sample_server.env (lit "/grpcarch.ServiceF/Ping"))).2
              ++ (main.run (sample_server.env (lit "/grpcarch.ServiceF/Ping"))
                    (main.run_server_start
                       (sample_server.env (lit "/grpcarch.ServiceF/Ping"))).1
                    [call_arrived 1; batch_done 3; call_arrived 2]).2)
         = Z.of_nat <$> seq 1 (S n)
      /\ main.request_counter
           (main.run (sample_server.env (lit "/grpcarch.ServiceF/Ping"))
              (main.run_server_start
                 (sample_server.env (lit "/grpcarch.ServiceF/Ping"))).1
              [call_arrived 1; batch_done 3; call_arrived 2]).1
         = Z.of_nat (S n))
  /\ main_telemetry.registrations
       (main.request_call (sample_server.env (lit "/grpcarch.ServiceF/Ping"))
          (2 ^ 31 - 1)).2
     = [- 2 ^ 31].
Proof.
  apply (registration_tags_consecutive
           (sample_server.env (lit "/grpcarch.ServiceF/Ping"))
           [call_arrived 1; batch_done 3; call_arrived 2]).
  simpl. lia.
Defined.

(** Each inner wait passes over a run of events that are not the
    completion it waits for. *)
Lemma waiting_skips (env : main.environment) (s : main.server)
    (t : Z) (noise rest : list main.grpc_event) :
  match main.at_ s with
  | main.wait_message _ => t = 1
  | main.wait_response _ => t = 2
  | main.wait_status _ => t = 3
  | _ => False
  end ->
  Forall (other_than t) noise ->
  main.run env s (noise ++ rest) = main.run env s rest.
Proof.
  intros Hat Hall. induction Hall as [|ev noise Hev _ IH]; [done|].
  cbn [main.run app]. rewrite waiting_drops.
  - rewrite IH. by destruct (main.run env s rest).
  - destruct (main.at_ s); try done; by subst t.
Qed.

(** A call to a method whose name contains [FetchLegacyData], from its
    arrival to the first completion tagged 2 that the queue yields after
    the first completion tagged 1. *)
Lemma handled_call_run (env : main.environment) (s : main.server)
    (ctx : main.call_context_t) (noise1 noise2 : list main.grpc_event)
    (ev1 ev2 : main.grpc_event) :
  main.at_ s = main.main_loop ->
  main.pending_ctx s = Some ctx ->
  contains (main.grpc_slice_to_c_string
              (main.arriving_method env (main.request_id ctx)))
           (lit "FetchLegacyData") ->
  Forall (other_than 1) noise1 ->
  main.is_op_complete ev1 = true -> main.tag ev1 = 1 ->
  Forall (other_than 2) noise2 ->
  main.is_op_complete ev2 = true -> main.tag ev2 = 2 ->
  let id := main.request_id ctx in
  let next := main.to_int (main.request_counter s + 1) in
  main.run env s (call_arrived id :: noise1 ++ ev1 :: noise2 ++ [ev2])
  = ({| main.at_ := main.main_loop;
        main.pending_ctx :=
          if main.request_accepted env next
          then Some {| main.request_id := next |} else None;
        main.request_counter := next |},
     [main.grpc_server_request_call next;
      main.grpc_call_start_batch id [main.GRPC_OP_RECV_MESSAGE] 1;
      main.handle_fetch_legacy_data id;
      main.grpc_call_start_batch id
        [main.GRPC_OP_SEND_INITIAL_METADATA; main.GRPC_OP_SEND_MESSAGE;
         main.GRPC_OP_SEND_STATUS_FROM_SERVER main.GRPC_STATUS_OK (lit "OK")] 2;
      main.cleanup_call_context id]).
Proof.
  intros Hat Hpending Hknown Hn1 Hc1 Ht1 Hn2 Hc2 Ht2. cbv zeta.
  apply strstr_contains in Hknown as [i Hi].
  cbn [main.run]. rewrite (step_call_arrived env s ctx Hat Hpending). cbv zeta.
  rewrite Hi.
  set (next := main.to_int (main.request_counter s + 1)).
  set (pending := if main.request_accepted env next
                  then Some {| main.request_id := next |} else None).
  set (s1 := {| main.at_ := main.wait_message ctx;
                main.pending_ctx := pending;
                main.request_counter := next |}).
  rewrite (waiting_skips env s1 1 noise1) by done.
  cbn [main.run].
  unfold main.step at 1.
  cbn [main.at_ s1 main.pending_ctx main.request_counter].
  rewrite Hc1, Ht1. cbn [andb Z.eqb Pos.eqb].
  set (s2 := {| main.at_ := main.wait_response ctx;
                main.pending_ctx := pending;
                main.request_counter := next |}).
  rewrite (waiting_skips env s2 2 noise2) by done.
  cbn [main.run]. unfold main.step.
  cbn [main.at_ s2 main.pending_ctx main.request_counter].
  rewrite Hc2, Ht2. reflexivity.
Qed.

(** X12: a refused registration brings the server down. When
    [grpc_server_request_call] refuses the registration made on the
    arrival of a call, [pending_ctx] is NULL; the call is handled all
    the same, to the end of its response batch when its method name
    contains [FetchLegacyData] and to the end of its status batch when
    not, and the server is back in its main loop; the next completed
    event the main loop takes, whatever its tag, makes it read
    [pending_ctx->request_id] through the NULL pointer. *)
Theorem refused_registration_null_dereference (env : main.environment)
    (s : main.server) (ctx : main.call_context_t)
    (noise1 noise2 noise3 : list main.grpc_event) (ev : main.grpc_event) :
  main.at_ s = main.main_loop ->
  main.pending_ctx s = Some ctx ->
  main.request_accepted env (main.to_int (main.request_counter s + 1)) = false ->
  Forall (other_than 1) noise1 ->
  Forall (other_than 2) noise2 ->
  Forall (other_than 3) noise3 ->
  main.is_op_complete ev = true ->
  main.success ev = true ->
  let id := main.request_id ctx in
  let method := main.grpc_slice_to_c_string (main.arriving_method env id) in
  let the_call :=
    if bool_decide (is_Some (strstr method (lit "FetchLegacyData")))
    then call_arrived id :: noise1 ++ batch_done 1 :: noise2 ++ [batch_done 2]
    else call_arrived id :: noise3 ++ [batch_done 3] in
  (is_Some (strstr method (lit "FetchLegacyData"))
   <-> contains method (lit "FetchLegacyData"))
  /\ last (main.run env s the_call).2 = Some (main.cleanup_call_context id)
  /\ main.at_ (main.run env s the_call).1 = main.main_loop
  /\ main.pending_ctx (main.run env s the_call).1 = None
  /\ main.at_ (main.run env s (the_call ++ [ev])).1 = main.null_dereference.
Proof.
  intros Hat Hpending Hrefused Hn1 Hn2 Hn3 Hc Hs. cbv zeta.
  set (method := main.grpc_slice_to_c_string
                   (main.arriving_method env (main.request_id ctx))).
  split; [apply strstr_contains|].
  assert (forall s', main.at_ s' = main.main_loop ->
                     main.pending_ctx s' = None ->
                     main.at_ (main.run env s' [ev]).1 = main.null_dereference)
    as Hdown.
  { intros s' Hat' Hp'. cbn [main.run]. unfold main.step.
    by rewrite Hat', Hp', Hc, Hs. }
  destruct (strstr method (lit "FetchLegacyData")) as [i|] eqn:Hmethod.
  - rewrite bool_decide_eq_true_2 by (by eexists).
    assert (contains method (lit "FetchLegacyData")) as Hknown
      by (apply strstr_contains; by eexists).
    rewrite run_app.
    rewrite (handled_call_run env s ctx noise1 noise2 (batch_done 1) (batch_done 2))
      by done.
    cbv zeta. rewrite Hrefused. cbn [fst snd].
    split; [done|]. split; [done|]. split; [done|]. by apply Hdown.
  - rewrite bool_decide_eq_false_2 by (intros [? ?]; discriminate).
    rewrite run_app.
    assert (main.run env s
              (call_arrived (main.request_id ctx) :: noise3 ++ [batch_done 3])
            = ({| main.at_ := main.main_loop; main.pending_ctx := None;
                  main.request_counter :=
                    main.to_int (main.request_counter s + 1) |},
               [main.grpc_server_request_call
                  (main.to_int (main.request_counter s + 1));
                main.print_unknown_method method;
                unimplemented_batch (main.request_id ctx);
                main.cleanup_call_context (main.request_id ctx)])) as ->.
    { cbn [main.run]. rewrite (step_call_arrived env s ctx Hat Hpending).
      cbv zeta. fold method. rewrite Hmethod, Hrefused.
      match goal with
      | |- context [main.run env ?s1 (noise3 ++ _)] =>
          rewrite (waiting_skips env s1 3 noise3) by done
      end.
      reflexivity. }
    cbn [fst snd]. split; [done|]. split; [done|]. split; [done|]. by apply Hdown.
Qed.

Lemma refused_registration_null_dereference_witness :
  let env := {| main.request_accepted := fun id => id =? 1;
                main.arriving_method :=
                  fun _ => lit "/grpcarch.ServiceF/FetchLegacyData" |} in
  let the_call :=
    call_arrived 1 :: [call_arrived 2] ++ batch_done 1 :: [] ++ [batch_done 2] in
  last (main.run env (main.run_server_start env).1 the_call).2
  = Some (main.cleanup_call_context 1)
  /\ main.at_ (main.run env (main.run_server_start env).1 the_call).1
     = main.main_loop
  /\ main.pending_ctx (main.run env (main.run_server_start env).1 the_call).1
     = None
  /\ main.at_
       (main.run env (main.run_server_start env).1 (the_call ++ [batch_done 9])).1
     = main.null_dereference.
Proof.
  apply (refused_registration_null_dereference
           {| main.request_accepted := fun id => id =? 1;
              main.arriving_method :=
                fun _ => lit "/grpcarch.ServiceF/FetchLegacyData" |}
           (main.run_server_start
              {| main.request_accepted := fun id => id =? 1;
                 main.arriving_method :=
                   fun _ => lit "/grpcarch.ServiceF/FetchLegacyData" |}).1
           {| main.request_id := 1 |}
           [call_arrived 2] [] [] (batch_done 9)).
  - reflexivity.
  - reflexivity.
  - reflexivity.
  - constructor; [right; discriminate | constructor].
  - constructor.
  - constructor.
  - reflexivity.
  - reflexivity.
Defined.

(** ** Further properties: the channel target *)

(** X13: the target the exporter connects to is the endpoint without its
    scheme when that holds a colon, and the endpoint without its scheme
    followed by [:4317] when it holds none; in both cases cut to the 255
    characters that fit the buffer. [otlp_exporter_create] returns NULL
    when no channel is made, and otherwise an exporter with an empty
    batch whose host and port spell that target. *)
Theorem channel_target_is_endpoint (endpoint service_name : cstring) :
  exists rest,
    without_scheme endpoint rest
    /\ ((In ":"%char rest
         /\ otlp_exporter_life.channel_target endpoint = take 255 rest)
        \/ (~ In ":"%char rest
            /\ otlp_exporter_life.channel_target endpoint
               = take 255 (rest ++ lit ":4317")))
    /\ otlp_exporter.otlp_exporter_create endpoint service_name false = None
    /\ exists e,
         otlp_exporter.otlp_exporter_create endpoint service_name true = Some e
         /\ holds e []
         /\ otlp_exporter.service_name e = service_name
         /\ otlp_exporter_life.snprintf_target
              (otlp_exporter.host e) (otlp_exporter.port e)
            = otlp_exporter_life.channel_target endpoint.
Proof.
  pose proof (strip_scheme_spec endpoint) as Hrest.
  unfold otlp_exporter_life.channel_target, otlp_exporter.otlp_exporter_create,
    otlp_exporter.parse_endpoint.
  set (ptr := if strncmp_eq endpoint (lit "http://") 7 then _ else _) in *.
  clearbody ptr. exists ptr. split; [exact Hrest|].
  destruct (strchr ptr ":") as [i|] eqn:E.
  - apply strchr_Some in E as [Hsplit Hfree]. split.
    + left. unfold otlp_exporter_life.snprintf_target, strdup.
      cbn [lit list_ascii_of_string app]. split.
      * rewrite Hsplit. apply in_or_app. right. by left.
      * by rewrite <- Hsplit.
    + split; [done|]. eexists. split; [reflexivity|]. by repeat split.
  - apply strchr_None in E. split.
    + right. split; [exact E|]. done.
    + split; [done|]. eexists. split; [reflexivity|]. by repeat split.
Qed.

(** ** Further properties: the request counter *)

Lemma record_requests_count (durations : list PrimFloat.float) (g : main.globals) :
  0 <= main.g_request_count g < 2 ^ 64 ->
  main.g_request_count (main_telemetry.record_requests durations g)
  = (main.g_request_count g + Z.of_nat (length durations)) mod 2 ^ 64
  /\ main.g_shutdown (main_telemetry.record_requests durations g) = main.g_shutdown g
  /\ main.g_metrics_exporter (main_telemetry.record_requests durations g)
     = main.g_metrics_exporter g.
Proof.
  revert g. induction durations as [|d durations IH]; intros g Hg.
  - cbn. rewrite Z.add_0_r, Z.mod_small by done. done.
  - cbn [main_telemetry.record_requests length].
    destruct (IH (main.record_request_metrics d g)) as (Hc & Hs & He).
    { cbn. apply Z.mod_pos_bound. done. }
    rewrite Hc, Hs, He. cbn [main.record_request_metrics main.g_request_count
                              main.g_shutdown main.g_metrics_exporter].
    unfold main.uint64_max. split; [|done].
    rewrite Zplus_mod_idemp_l. f_equal. lia.
Qed.

(** X14: the counter the tick emits is the number of handled requests:
    after [n] calls of [record_request_metrics] on a zeroed accumulator,
    with [0 < n < 2^63], the tick exports two metrics, the first a
    counter whose single data point is the integer [n]. *)
Theorem tick_counts_requests (timestamp_nanos : Z)
    (durations : list PrimFloat.float) (g : main.globals) :
  main.g_shutdown g = false ->
  is_Some (main.g_metrics_exporter g) ->
  main.g_request_count g = 0 ->
  durations <> [] ->
  Z.of_nat (length durations) < 2 ^ 63 ->
  exists counter gauge,
    main.metrics_export_thread_step timestamp_nanos
      (main_telemetry.record_requests durations g)
    = main.went_on (main_telemetry.record_requests durations g)
        (Some [counter; gauge])
    /\ otlp_metrics_exporter.type counter = otlp_metrics_exporter.METRIC_TYPE_COUNTER
    /\ otlp_metrics_exporter.number_of
         <$> default [] (otlp_metrics_exporter.data_points counter)
       = [otlp_metrics_exporter.as_int (Z.of_nat (length durations))].
Proof.
  intros Hrun He Hzero Hne Hsmall.
  destruct (record_requests_count durations g) as (Hc & Hs & Hx); [rewrite Hzero; lia|].
  assert (0 < Z.of_nat (length durations)) as Hpos
    by (destruct durations; [done | cbn; lia]).
  rewrite Hzero, Z.add_0_l, Z.mod_small in Hc by lia.
  destruct (metrics_tick_requests timestamp_nanos
              (main_telemetry.record_requests durations g))
    as (counter & gauge & Hstep & Htype & Hvalue & _);
    [congruence | by rewrite Hx | lia |].
  exists counter, gauge. rewrite Hc in Hvalue. done.
Qed.

Lemma tick_counts_requests_witness :
  exists counter gauge,
    main.metrics_export_thread_step 1000
      (main_telemetry.record_requests [10%float; 12%float] sample_metrics.at_start)
    = main.went_on
        (main_telemetry.record_requests [10%float; 12%float] sample_metrics.at_start)
        (Some [counter; gauge])
    /\ otlp_metrics_exporter.type counter = otlp_metrics_exporter.METRIC_TYPE_COUNTER
    /\ otlp_metrics_exporter.number_of
         <$> default [] (otlp_metrics_exporter.data_points counter)
       = [otlp_metrics_exporter.as_int
            (Z.of_nat (length [10%float; 12%float]))].
Proof.
  apply (tick_counts_requests 1000 [10%float; 12%float] sample_metrics.at_start).
  - reflexivity.
  - by eexists.
  - reflexivity.
  - discriminate.
  - simpl. lia.
Defined.

(** ** Further properties: identifiers that are not hexadecimal *)

Lemma sscanf_2x_no_digit (c : ascii) (rest : cstring) :
  isspace c = false -> hex_digit_value c = None ->
  c <> "-"%char -> c <> "+"%char ->
  sscanf_2x (c :: rest) = None.
Proof.
  intros Hsp Hd Hm Hp. unfold sscanf_2x. cbn [skip_space]. rewrite Hsp.
  apply Ascii.eqb_neq in Hm, Hp. by rewrite Hm, Hp, Hd.
Qed.

(** X15: [do_export] does not look at what [hex_to_bytes] returns. A
    span or a log record whose trace ID has the 32 characters asked for
    but does not start with a hex digit (nor with white space or a
    sign) is sent with a 16-byte trace ID that is the block [malloc]
    returned, never written: the conversion stops with -1 at the first
    pair. *)
Theorem non_hex_trace_id_sends_unwritten_bytes (fill : nat -> Z)
    (span : otlp_exporter.otlp_span_t)
    (record : otlp_log_exporter.otlp_log_record_t)
    (c : ascii) (rest : cstring) :
  otlp_exporter.trace_id span = Some (c :: rest) ->
  otlp_log_exporter.trace_id record = Some (c :: rest) ->
  (32 <= length (c :: rest))%nat ->
  isspace c = false -> hex_digit_value c = None ->
  c <> "-"%char -> c <> "+"%char ->
  otlp_exporter.hex_to_bytes (c :: rest) (malloc fill 16) 16
  = (-1, malloc fill 16)
  /\ otlp_exporter.Span_trace_id (otlp_exporter.convert_span fill span)
     = {| len := 16; data := Some (malloc fill 16) |}
  /\ otlp_log_exporter.LogRecord_trace_id
       (otlp_log_exporter.convert_record fill record)
     = {| len := 16; data := Some (malloc fill 16) |}.
Proof.
  intros Hspan Hrecord Hlen Hsp Hd Hm Hp.
  assert (otlp_exporter.hex_to_bytes (c :: rest) (malloc fill 16) 16
          = (-1, malloc fill 16)) as Hstop.
  { unfold otlp_exporter.hex_to_bytes.
    cbn [otlp_exporter.hex_to_bytes_from Nat.mul drop].
    by rewrite sscanf_2x_no_digit. }
  split; [exact Hstop|].
  unfold otlp_exporter.convert_span, otlp_log_exporter.convert_record.
  cbn [otlp_exporter.Span_trace_id otlp_log_exporter.LogRecord_trace_id].
  rewrite Hspan, Hrecord.
  unfold otlp_exporter.long_enough, otlp_log_exporter.long_enough, strlen.
  destruct (Nat.leb_spec 32 (length (c :: rest))); [|lia].
  change otlp_log_exporter.hex_to_bytes with otlp_exporter.hex_to_bytes.
  cbn [default]. cbv [id]. rewrite Hstop. done.
Qed.

Lemma non_hex_trace_id_sends_unwritten_bytes_witness :
  otlp_exporter.hex_to_bytes ("z"%char :: replicate 31 "z"%char)
    (malloc (fun i => Z.of_nat i) 16) 16
  = (-1, malloc (fun i => Z.of_nat i) 16)
  /\ otlp_exporter.Span_trace_id
       (otlp_exporter.convert_span (fun i => Z.of_nat i)
          {| otlp_exporter.trace_id := Some ("z"%char :: replicate 31 "z"%char);
             otlp_exporter.span_id := None;
             otlp_exporter.parent_span_id := None;
             otlp_exporter.name := None;
             otlp_exporter.kind := otlp_exporter.SPAN_KIND_SERVER;
             otlp_exporter.start_time_nanos := 0;
             otlp_exporter.end_time_nanos := 0;
             otlp_exporter.status_code := otlp_exporter.SPAN_STATUS_OK;
             otlp_exporter.status_message := None;
             otlp_exporter.attributes := None;
             otlp_exporter.attribute_count := 0 |})
     = {| len := 16; data := Some (malloc (fun i => Z.of_nat i) 16) |}
  /\ otlp_log_exporter.LogRecord_trace_id
       (otlp_log_exporter.convert_record (fun i => Z.of_nat i)
          (sample_log.record (Some ("z"%char :: replicate 31 "z"%char)) None))
     = {| len := 16; data := Some (malloc (fun i => Z.of_nat i) 16) |}.
Proof.
  apply (non_hex_trace_id_sends_unwritten_bytes (fun i => Z.of_nat i)
           {| otlp_exporter.trace_id := Some ("z"%char :: replicate 31 "z"%char);
              otlp_exporter.span_id := None;
              otlp_exporter.parent_span_id := None;
              otlp_exporter.name := None;
              otlp_exporter.kind := otlp_exporter.SPAN_KIND_SERVER;
              otlp_exporter.start_time_nanos := 0;
              otlp_exporter.end_time_nanos := 0;
              otlp_exporter.status_code := otlp_exporter.SPAN_STATUS_OK;
              otlp_exporter.status_message := None;
              otlp_exporter.attributes := None;
              otlp_exporter.attribute_count := 0 |}
           (sample_log.record (Some ("z"%char :: replicate 31 "z"%char)) None)
           "z"%char (replicate 31 "z"%char)).
  - reflexivity.
  - reflexivity.
  - simpl. lia.
  - reflexivity.
  - reflexivity.
  - discriminate.
  - discriminate.
Defined.

(** ** Further properties: what a tick sends *)

(** X16: what a tick of the metrics thread sends when the accumulator
    holds [R] requests, [0 < R < 2^63], and the total duration [D]: one
    request with two metrics under the resource attribute
    [service.name]; the first is a monotonic cumulative sum named
    [grpcarch_service_f_requests_total] with the single integer point
    [R], the second a gauge named
    [grpcarch_service_f_request_duration_ms] with the single double
    point [D / R]; both points bear the time stamp of the tick and no
    attributes. [otlp_export_metrics] returns 0 exactly when the
    collector completed the call with the status OK. *)
Theorem tick_request (timestamp_nanos : Z)
    (outcome : otlp_metrics_exporter.export_outcome) (g : main.globals)
    (e : otlp_metrics_exporter.otlp_metrics_exporter_t) :
  main.g_shutdown g = false ->
  main.g_metrics_exporter g = Some e ->
  0 < main.g_request_count g < 2 ^ 63 ->
  exists ms rc req,
    main.metrics_export_thread_step timestamp_nanos g = main.went_on g (Some ms)
    /\ otlp_metrics_exporter.otlp_export_metrics outcome
         (main.g_metrics_exporter g) (Some ms) 2 = Some (rc, Some req)
    /\ (rc = 0 <-> outcome = otlp_metrics_exporter.completed true)
    /\ otlp_metrics_exporter.resource_attributes req
       = [{| kv_key := lit "service.name";
             kv_string_value := otlp_metrics_exporter.service_name e |}]
    /\ otlp_metrics_exporter.Metric_name <$> otlp_metrics_exporter.metrics req
       = [Some (lit "grpcarch_service_f_requests_total");
          Some (lit "grpcarch_service_f_request_duration_ms")]
    /\ otlp_metrics_exporter.Metric_data <$> otlp_metrics_exporter.metrics req
       = [otlp_metrics_exporter.DATA_SUM true true
            [{| otlp_metrics_exporter.time_unix_nano := timestamp_nanos;
                otlp_metrics_exporter.value :=
                  otlp_metrics_exporter.as_int (main.g_request_count g);
                otlp_metrics_exporter.NumberDataPoint_attributes := [] |}];
          otlp_metrics_exporter.DATA_GAUGE
            [{| otlp_metrics_exporter.time_unix_nano := timestamp_nanos;
                otlp_metrics_exporter.value :=
                  otlp_metrics_exporter.as_double
                    (PrimFloat.div (main.g_total_duration_ms g)
                       (c_double.of_uint64 (main.g_request_count g)));
                otlp_metrics_exporter.NumberDataPoint_attributes := [] |}]].
Proof.
  intros Hrun He Hpos. unfold main.metrics_export_thread_step.
  rewrite Hrun, He.
  destruct (Z.eqb_spec (main.g_request_count g) 0) as [|_]; [lia|].
  unfold main.to_int64.
  destruct (Z.ltb_spec (main.g_request_count g) (2 ^ 63)); [|lia].
  destruct (Z.ltb_spec 0 (main.g_request_count g)); [|lia].
  eexists _, _, _. split; [reflexivity|].
  split; [reflexivity|]. split.
  - destruct outcome as [| |[|]|]; cbn; split; (done || discriminate).
  - repeat split.
Qed.

Lemma tick_request_witness :
  exists ms rc req,
    main.metrics_export_thread_step 1000 sample_metrics.after_three_requests
    = main.went_on sample_metrics.after_three_requests (Some ms)
    /\ otlp_metrics_exporter.otlp_export_metrics otlp_metrics_exporter.timed_out
         (main.g_metrics_exporter sample_metrics.after_three_requests) (Some ms) 2
       = Some (rc, Some req)
    /\ (rc = 0 <-> otlp_metrics_exporter.timed_out
                   = otlp_metrics_exporter.completed true)
    /\ otlp_metrics_exporter.resource_attributes req
       = [{| kv_key := lit "service.name";
             kv_string_value :=
               otlp_metrics_exporter.service_name sample_metrics.exporter |}]
    /\ otlp_metrics_exporter.Metric_name <$> otlp_metrics_exporter.metrics req
       = [Some (lit "grpcarch_service_f_requests_total");
          Some (lit "grpcarch_service_f_request_duration_ms")]
    /\ otlp_metrics_exporter.Metric_data <$> otlp_metrics_exporter.metrics req
       = [otlp_metrics_exporter.DATA_SUM true true
            [{| otlp_metrics_exporter.time_unix_nano := 1000;
                otlp_metrics_exporter.value :=
                  otlp_metrics_exporter.as_int
                    (main.g_request_count sample_metrics.after_three_requests);
                otlp_metrics_exporter.NumberDataPoint_attributes := [] |}];
          otlp_metrics_exporter.DATA_GAUGE
            [{| otlp_metrics_exporter.time_unix_nano := 1000;
                otlp_metrics_exporter.value :=
                  otlp_metrics_exporter.as_double
                    (PrimFloat.div
                       (main.g_total_duration_ms sample_metrics.after_three_requests)
                       (c_double.of_uint64
                          (main.g_request_count
                             sample_metrics.after_three_requests)));
                otlp_metrics_exporter.NumberDataPoint_attributes := [] |}]].
Proof.
  apply (tick_request 1000 otlp_metrics_exporter.timed_out
           sample_metrics.after_three_requests sample_metrics.exporter).
  - reflexivity.
  - reflexivity.
  - vm_compute. split; reflexivity.
Defined.

(** ** Further properties: a handled call *)

(** X17: the life of a call to a method whose name contains
    [FetchLegacyData]: the server registers the next request-call, asks
    for the message, enters [handle_fetch_legacy_data] at the first
    completion tagged 1, sends initial metadata, message and the status
    OK in one batch tagged 2, and frees the call context at the first
    completion tagged 2 that the queue yields then; it is then back in
    its main loop. The registrations and the batches share their tags:
    for the first call of the server the next registration is tagged 2
    as well, so that the arrival of the second call, when it comes
    first, ends the wait and the context of the first call is freed
    before its response batch has completed; the completion of that
    batch is then taken for the arrival of the second call. *)
Theorem handled_call_life (env : main.environment) (s : main.server)
    (ctx : main.call_context_t) (noise1 noise2 : list main.grpc_event)
    (ev1 ev2 : main.grpc_event) :
  main.at_ s = main.main_loop ->
  main.pending_ctx s = Some ctx ->
  contains (main.grpc_slice_to_c_string
              (main.arriving_method env (main.request_id ctx)))
           (lit "FetchLegacyData") ->
  main.request_accepted env (main.to_int (main.request_counter s + 1)) = true ->
  Forall (other_than 1) noise1 ->
  main.is_op_complete ev1 = true -> main.tag ev1 = 1 ->
  Forall (other_than 2) noise2 ->
  main.is_op_complete ev2 = true -> main.tag ev2 = 2 ->
  let id := main.request_id ctx in
  let next := main.to_int (main.request_counter s + 1) in
  let handled :=
    [main.grpc_server_request_call next;
     main.grpc_call_start_batch id [main.GRPC_OP_RECV_MESSAGE] 1;
     main.handle_fetch_legacy_data id;
     main.grpc_call_start_batch id
       [main.GRPC_OP_SEND_INITIAL_METADATA; main.GRPC_OP_SEND_MESSAGE;
        main.GRPC_OP_SEND_STATUS_FROM_SERVER main.GRPC_STATUS_OK (lit "OK")] 2;
     main.cleanup_call_context id] in
  main.run env s (call_arrived id :: noise1 ++ ev1 :: noise2 ++ [ev2])
  = ({| main.at_ := main.main_loop;
        main.pending_ctx := Some {| main.request_id := next |};
        main.request_counter := next |},
     handled)
  /\ (next = 2 ->
      main.run env s
        (call_arrived id :: noise1 ++ ev1 :: noise2 ++ [call_arrived next])
      = ({| main.at_ := main.main_loop;
            main.pending_ctx := Some {| main.request_id := next |};
            main.request_counter := next |},
         handled)
      /\ exists s' did,
           main.run env s
             (call_arrived id :: noise1 ++ ev1
                :: noise2 ++ [call_arrived next; batch_done 2])
           = (s', handled
                    ++ main.grpc_server_request_call (main.to_int (next + 1))
                    :: did)).
Proof.
  intros Hat Hpending Hknown Haccepted Hn1 Hc1 Ht1 Hn2 Hc2 Ht2. cbv zeta.
  pose proof (handled_call_run env s ctx noise1 noise2 ev1) as Hrun.
  cbv zeta in Hrun. rewrite Haccepted in Hrun.
  split; [by apply Hrun|].
  set (next := main.to_int (main.request_counter s + 1)) in *.
  intros Hnext.
  assert (main.run env s
            (call_arrived (main.request_id ctx)
               :: noise1 ++ ev1 :: noise2 ++ [call_arrived next])
          = ({| main.at_ := main.main_loop;
                main.pending_ctx := Some {| main.request_id := next |};
                main.request_counter := next |},
             [main.grpc_server_request_call next;
              main.grpc_call_start_batch (main.request_id ctx)
                [main.GRPC_OP_RECV_MESSAGE] 1;
              main.handle_fetch_legacy_data (main.request_id ctx);
              main.grpc_call_start_batch (main.request_id ctx)
                [main.GRPC_OP_SEND_INITIAL_METADATA; main.GRPC_OP_SEND_MESSAGE;
                 main.GRPC_OP_SEND_STATUS_FROM_SERVER main.GRPC_STATUS_OK
                   (lit "OK")] 2;
              main.cleanup_call_context (main.request_id ctx)])) as Hearly
    by (by apply Hrun).
  split; [exact Hearly|].
  replace (call_arrived (main.request_id ctx)
             :: noise1 ++ ev1 :: noise2 ++ [call_arrived next; batch_done 2])
    with ((call_arrived (main.request_id ctx)
             :: noise1 ++ ev1 :: noise2 ++ [call_arrived next]) ++ [batch_done 2])
    by (cbn [app]; rewrite <- !app_assoc; cbn [app];
        by rewrite <- app_assoc).
  rewrite run_app, Hearly. cbn [fst snd main.run].
  rewrite <- Hnext.
  pose proof (step_call_arrived env
                {| main.at_ := main.main_loop;
                   main.pending_ctx := Some {| main.request_id := next |};
                   main.request_counter := next |}
                {| main.request_id := next |} eq_refl eq_refl) as Hstep.
  cbv zeta in Hstep. cbn [main.request_id main.request_counter] in Hstep.
  change (batch_done next) with (call_arrived next). rewrite Hstep.
  destruct (strstr _ _); eexists; eexists; cbn [fst snd];
    rewrite app_nil_r; reflexivity.
Qed.

Lemma handled_call_life_witness :
  let env := sample_server.env (lit "/grpcarch.ServiceF/FetchLegacyData") in
  let s := sample_server.started (lit "/grpcarch.ServiceF/FetchLegacyData") in
  let handled :=
    [main.grpc_server_request_call 2;
     main.grpc_call_start_batch 1 [main.GRPC_OP_RECV_MESSAGE] 1;
     main.handle_fetch_legacy_data 1;
     main.grpc_call_start_batch 1
       [main.GRPC_OP_SEND_INITIAL_METADATA; main.GRPC_OP_SEND_MESSAGE;
        main.GRPC_OP_SEND_STATUS_FROM_SERVER main.GRPC_STATUS_OK (lit "OK")] 2;
     main.cleanup_call_context 1] in
  main.run env s
    (call_arrived 1 :: [batch_done 5] ++ batch_done 1
       :: [ {| main.ev_type := main.GRPC_QUEUE_TIMEOUT;
               main.success := false; main.tag := 0 |} ] ++ [batch_done 2])
  = ({| main.at_ := main.main_loop;
        main.pending_ctx := Some {| main.request_id := 2 |};
        main.request_counter := 2 |},
     handled)
  /\ (2 = 2 ->
      main.run env s
        (call_arrived 1 :: [batch_done 5] ++ batch_done 1
           :: [ {| main.ev_type := main.GRPC_QUEUE_TIMEOUT;
                   main.success := false; main.tag := 0 |} ] ++ [call_arrived 2])
      = ({| main.at_ := main.main_loop;
            main.pending_ctx := Some {| main.request_id := 2 |};
            main.request_counter := 2 |},
         handled)
      /\ exists s' did,
           main.run env s
             (call_arrived 1 :: [batch_done 5] ++ batch_done 1
                :: [ {| main.ev_type := main.GRPC_QUEUE_TIMEOUT;
                        main.success := false; main.tag := 0 |} ]
                     ++ [call_arrived 2; batch_done 2])
           = (s', handled
                    ++ main.grpc_server_request_call (main.to_int (2 + 1))
                    :: did)).
Proof.
  apply (handled_call_life
           (sample_server.env (lit "/grpcarch.ServiceF/FetchLegacyData"))
           (sample_server.started (lit "/grpcarch.ServiceF/FetchLegacyData"))
           {| main.request_id := 1 |}
           [batch_done 5]
           [ {| main.ev_type := main.GRPC_QUEUE_TIMEOUT;
                main.success := false; main.tag := 0 |} ]
           (batch_done 1) (batch_done 2)).
  - reflexivity.
  - reflexivity.
  - apply strstr_contains. by eexists.
  - reflexivity.
  - constructor; [right; discriminate | constructor].
  - reflexivity.
  - reflexivity.
  - constructor; [by left | constructor].
  - reflexivity.
  - reflexivity.
Defined.

(** ** Further properties: the bound of [attr_values] *)

Lemma store_length (n : nat) (block block' : list (option (nat * nat)))
    (i j : nat) :
  attr_values.store block i j n = Some block' -> length block' = length block.
Proof.
  revert block j. induction n as [|n IH]; intros block j; cbn [attr_values.store].
  - by intros [= ->].
  - destruct (Nat.ltb _ _); [|done]. intros Hrun.
    apply IH in Hrun. by rewrite length_insert in Hrun.
Qed.

Lemma store_overflow (n : nat) (block : list (option (nat * nat))) (i j : nat) :
  (0 < n)%nat ->
  (length block < i * 16 + j + n)%nat ->
  attr_values.store block i j n = None.
Proof.
  revert block j. induction n as [|n IH]; intros block j Hpos Hover; [lia|].
  cbn [attr_values.store].
  destruct (Nat.ltb_spec (i * 16 + j) (length block)) as [Hlt|Hge]; [|done].
  apply IH; [|rewrite length_insert]; lia.
Qed.

Lemma store_all_overflow (counts : list nat) (n : nat)
    (block : list (option (nat * nat))) (i : nat) :
  (16 < n)%nat ->
  length block = ((i + length counts + 1) * 16)%nat ->
  attr_values.store_all block i (counts ++ [n]) = None.
Proof.
  intros Hwide. revert block i.
  induction counts as [|c counts IH]; intros block i Hlen;
    cbn [app attr_values.store_all length] in *.
  - rewrite store_overflow by lia. done.
  - destruct (attr_values.store block i 0 c) as [block'|] eqn:Hrun; [|done].
    cbn [mbind option_bind]. apply IH.
    rewrite (store_length _ _ _ _ _ Hrun). lia.
Qed.

(** X18: [do_export] gives each item of a batch 16 slots of
    [attr_values] and uses one per attribute without a bound: when the
    last span, or log record, of a batch has more than 16 attributes,
    the pointers from the 17th on are written behind the block of
    [count * 16] pointers, whatever the other items are. *)
Theorem wide_last_item_overflows (fill : nat -> Z)
    (se : otlp_exporter.otlp_exporter_t)
    (spans : list otlp_exporter.otlp_span_t) (wide : otlp_exporter.otlp_span_t)
    (le : otlp_log_exporter.otlp_log_exporter_t)
    (records : list otlp_log_exporter.otlp_log_record_t)
    (wide_record : otlp_log_exporter.otlp_log_record_t) :
  (16 < otlp_exporter.n_attributes wide)%nat ->
  (16 < otlp_log_exporter.n_attributes wide_record)%nat ->
  otlp_exporter.do_export fill se (Some <$> (spans ++ [wide]))
    (length (spans ++ [wide])) = None
  /\ otlp_log_exporter.do_export fill le (Some <$> (records ++ [wide_record]))
       (length (records ++ [wide_record])) = None.
Proof.
  intros Hwide Hwide_record. split.
  - unfold otlp_exporter.do_export.
    rewrite length_app, Nat.add_comm. cbn [length Nat.add Nat.eqb].
    rewrite take_ge by (rewrite length_fmap, length_app; simpl; lia).
    rewrite (mapM_fmap_Some id Some) by done. cbn [mbind option_bind].
    unfold attr_values.lifetime. rewrite !fmap_app. cbn [fmap list_fmap].
    rewrite store_all_overflow; [done | done |].
    rewrite length_replicate, length_fmap. lia.
  - unfold otlp_log_exporter.do_export.
    rewrite length_app, Nat.add_comm. cbn [length Nat.add Nat.eqb].
    rewrite take_ge by (rewrite length_fmap, length_app; simpl; lia).
    rewrite (mapM_fmap_Some id Some) by done. cbn [mbind option_bind].
    unfold attr_values.lifetime. rewrite !fmap_app. cbn [fmap list_fmap].
    rewrite store_all_overflow; [done | done |].
    rewrite length_replicate, length_fmap. lia.
Qed.

Lemma wide_last_item_overflows_witness :
  otlp_exporter.do_export (fun _ => 0) sample.exporter
    (Some <$> ([sample.span None] ++ [sample.wide_span]))
    (length ([sample.span None] ++ [sample.wide_span])) = None
  /\ otlp_log_exporter.do_export (fun _ => 0) sample_log.exporter
       (Some <$> ([] ++ [sample_more.wide_record]))
       (length ([] ++ [sample_more.wide_record])) = None.
Proof.
  apply (wide_last_item_overflows (fun _ => 0) sample.exporter
           [sample.span None] sample.wide_span
           sample_log.exporter [] sample_more.wide_record);
    vm_compute; lia.
Defined.

(** Two spans of 17 attributes each: the 17th pointer of the first is
    stored in the first slot of the second, which overwrites it, and
    the cleanup frees the pointer found there twice. A wide span in
    front of one without attributes does no harm. *)
Example adjacent_wide_spans :
  otlp_exporter.do_export (fun _ => 0) sample.exporter
    [Some sample.wide_span; Some (sample.span None); Some (sample.span None)] 3
  = None
  /\ attr_values.store_all (replicate (3 * 16) None) 0 [17; 1; 1]%nat <> None
  /\ is_Some (attr_values.lifetime 2 [17; 0]%nat).
Proof.
  split; [vm_compute; reflexivity|]. split; [vm_compute; discriminate|].
  vm_compute. by eexists.
Qed.

(** The list [cleanup_list] of [otlp_export_metrics] has 100 slots per
    metric: one histogram metric of 49 data points with buckets needs
    101. *)
Example cleanup_list_overflow :
  otlp_metrics_exporter.otlp_export_metrics
    (otlp_metrics_exporter.completed true) (Some sample_metrics.exporter)
    (Some [ {| otlp_metrics_exporter.name := Some (lit "latency");
               otlp_metrics_exporter.description := None;
               otlp_metrics_exporter.unit := None;
               otlp_metrics_exporter.type :=
                 otlp_metrics_exporter.METRIC_TYPE_HISTOGRAM;
               otlp_metrics_exporter.data_points := None;
               otlp_metrics_exporter.data_point_count := 0;
               otlp_metrics_exporter.histogram_points :=
                 Some (replicate 49 sample_metrics.whole_histogram);
               otlp_metrics_exporter.histogram_point_count := 49 |} ]) 1
  = None.
Proof. vm_compute. reflexivity. Qed.
